(** * rig: transports, exec engine and dispatcher

    A shallow embedding of the parts of [connection.go], [ssh.go] and
    [winrm.go] that decide how commands are rewritten, how sessions are
    driven and which errors come back.

    Conventions.
    - A Go [string] is a [string] of bytes.
    - A Go [(T, error)] result is a pair [T * option error]; [None] is [nil].
    - A run-time panic (index out of range, nil dereference) is the second
      constructor of [run].
    - Network, file system, environment and the libraries behind them are
      scripted by records named [...World] or [...Script]: each field is the
      answer the outside gives to one call. *)

From Stdlib Require Import String Ascii List ZArith Bool Lia DecimalString.
Import ListNotations.
Set Warnings "-register-all".
Open Scope string_scope.

(** ** Go run-time and standard library *)

Module Go.

Inductive run (A : Type) : Type :=
| Done (a : A)
| Panic (msg : string).
Arguments Done {A} a.
Arguments Panic {A} msg.

Definition bind {A B} (m : run A) (k : A -> run B) : run B :=
  match m with
  | Done a => k a
  | Panic msg => Panic msg
  end.

Definition panics {A} (m : run A) : bool :=
  match m with
  | Done _ => false
  | Panic _ => true
  end.

Definition index_out_of_range : string := "index out of range".
Definition nil_dereference : string := "invalid memory address or nil pointer dereference".

(** [len(s) == 0] *)
Definition isEmpty (s : string) : bool :=
  match s with
  | EmptyString => true
  | String _ _ => false
  end.

(** [s[i]]: panics out of range. *)
Definition byteAt (s : string) (i : nat) : run ascii :=
  match String.get i s with
  | Some c => Done c
  | None => Panic index_out_of_range
  end.

(** [s[1:]] for a non-empty [s]. *)
Definition from1 (s : string) : string :=
  match s with
  | EmptyString => EmptyString
  | String _ rest => rest
  end.

(** [strings.Contains] *)
Fixpoint Contains (s substr : string) : bool :=
  if String.prefix substr s then true
  else match s with
       | EmptyString => false
       | String _ rest => Contains rest substr
       end.

(** [strings.Join] *)
Fixpoint Join (elems : list string) (sep : string) : string :=
  match elems with
  | [] => EmptyString
  | [e] => e
  | e :: rest => e ++ sep ++ Join rest sep
  end.

(** [strings.ReplaceAll] for a one-byte pattern. *)
Fixpoint ReplaceAllByte (s : string) (old : ascii) (new : string) : string :=
  match s with
  | EmptyString => EmptyString
  | String c rest =>
      (if Ascii.eqb c old then new else String c EmptyString)
        ++ ReplaceAllByte rest old new
  end.

(** [strconv.Itoa] and the [%d] verb. *)
Definition Itoa (z : Z) : string := NilZero.string_of_int (Z.to_int z).

(** [net.JoinHostPort]: a host with a colon or a percent sign is bracketed. *)
Definition JoinHostPort (host port : string) : string :=
  if Contains host ":" || Contains host "%"
  then "[" ++ host ++ "]:" ++ port
  else host ++ ":" ++ port.

(** [sync.Once.Do] on a state [S]: [f] runs only while the flag is down. *)
Definition onceDo {S} (done : bool) (f : S -> run S) (s : S) : run (bool * S) :=
  if done then Done (true, s)
  else match f s with
       | Done s' => Done (true, s')
       | Panic msg => Panic msg
       end.

End Go.

Notation "x <- m ;; k" := (Go.bind m (fun x => k))
  (at level 61, m at next level, right associativity).

(** ** Errors

    The sentinels of the package and how they are wrapped.  [Wrapf k msg]
    stands for [k.Wrapf(msg)] with no cause, [Wrap k msg cause] for
    [k.Wrapf(msg + ": %w", cause)] and [k.Wrap(cause)];
    [Errorf msg cause] for [fmt.Errorf(msg + ": %w", cause)]; [Foreign] for an
    error made by a library or the operating system. *)

Module Errstring.

Inductive Kind : Set :=
| ErrOS | ErrInvalidPath | ErrValidationFailed | ErrSudoRequired
| ErrNotImplemented | ErrAuthFailed | ErrUploadFailed | ErrNotConnected
| ErrCantConnect | ErrCommandFailed
| ErrChecksumMismatch          (* ssh.go:58 *)
| ErrHostKeyMismatch.          (* hostkey.ErrHostKeyMismatch *)

Definition Kind_eqb (a b : Kind) : bool :=
  match a, b with
  | ErrOS, ErrOS | ErrInvalidPath, ErrInvalidPath
  | ErrValidationFailed, ErrValidationFailed
  | ErrSudoRequired, ErrSudoRequired
  | ErrNotImplemented, ErrNotImplemented | ErrAuthFailed, ErrAuthFailed
  | ErrUploadFailed, ErrUploadFailed | ErrNotConnected, ErrNotConnected
  | ErrCantConnect, ErrCantConnect | ErrCommandFailed, ErrCommandFailed
  | ErrChecksumMismatch, ErrChecksumMismatch
  | ErrHostKeyMismatch, ErrHostKeyMismatch => true
  | _, _ => false
  end.

Inductive error : Type :=
| Sentinel (k : Kind)
| Wrapf (k : Kind) (msg : string)
| Wrap (k : Kind) (msg : string) (cause : error)
| Errorf (msg : string) (cause : error)
| Foreign (msg : string).

(** [errors.Is(e, k)]: follows the chain of causes. *)
Fixpoint Is (e : error) (k : Kind) : bool :=
  match e with
  | Sentinel k' => Kind_eqb k' k
  | Wrapf k' _ => Kind_eqb k' k
  | Wrap k' _ cause => Kind_eqb k' k || Is cause k
  | Errorf _ cause => Is cause k
  | Foreign _ => false
  end.

Definition isNil (e : option error) : bool :=
  match e with
  | None => true
  | Some _ => false
  end.

End Errstring.
Import Errstring.

(** ** github.com/google/shlex

    [Split] drives [Lexer.Next], which drives [Tokenizer.scanStream]; the three
    loops are one pass over the input here.  [scan] carries the state of
    [scanStream] and the words found so far; where [scanStream] returns a word
    the word is appended and the scan restarts in [startState]; a comment
    token is dropped as [Lexer.Next] does.  Every rune class of the lexer is
    one ASCII byte. *)

Module Shlex.

Inductive runeTokenClass : Set :=
| unknownRuneClass | spaceRuneClass | escapingQuoteRuneClass
| nonEscapingQuoteRuneClass | escapeRuneClass | commentRuneClass.

Definition ClassifyRune (c : ascii) : runeTokenClass :=
  match nat_of_ascii c with
  | 32 | 9 | 13 | 10 => spaceRuneClass         (* space \t \r \n *)
  | 34 => escapingQuoteRuneClass               (* double quote *)
  | 39 => nonEscapingQuoteRuneClass            (* single quote *)
  | 92 => escapeRuneClass                      (* backslash *)
  | 35 => commentRuneClass                     (* # *)
  | _ => unknownRuneClass
  end.

Inductive lexerState : Set :=
| startState | inWordState | escapingState | escapingQuotedState
| quotingEscapingState | quotingState | commentState.

Definition push (value : string) (c : ascii) : string :=
  value ++ String c EmptyString.

Definition errEscape : error := Foreign "EOF found after escape character".
Definition errQuote : error := Foreign "EOF found when expecting closing quote".

Fixpoint scan (state : lexerState) (value : string) (words : list string)
         (input : string) : list string * option error :=
  match input with
  | EmptyString =>
      match state with
      | startState => (words, None)
      | inWordState => ((words ++ [value])%list, None)
      | escapingState | escapingQuotedState => (words, Some errEscape)
      | quotingEscapingState | quotingState => (words, Some errQuote)
      | commentState => (words, None)
      end
  | String c rest =>
      let cls := ClassifyRune c in
      match state with
      | startState =>
          match cls with
          | spaceRuneClass => scan startState EmptyString words rest
          | escapingQuoteRuneClass => scan quotingEscapingState EmptyString words rest
          | nonEscapingQuoteRuneClass => scan quotingState EmptyString words rest
          | escapeRuneClass => scan escapingState EmptyString words rest
          | commentRuneClass => scan commentState EmptyString words rest
          | unknownRuneClass => scan inWordState (String c EmptyString) words rest
          end
      | inWordState =>
          match cls with
          | spaceRuneClass => scan startState EmptyString (words ++ [value])%list rest
          | escapingQuoteRuneClass => scan quotingEscapingState value words rest
          | nonEscapingQuoteRuneClass => scan quotingState value words rest
          | escapeRuneClass => scan escapingState value words rest
          | _ => scan inWordState (push value c) words rest
          end
      | escapingState => scan inWordState (push value c) words rest
      | escapingQuotedState => scan quotingEscapingState (push value c) words rest
      | quotingEscapingState =>
          match cls with
          | escapingQuoteRuneClass => scan inWordState value words rest
          | escapeRuneClass => scan escapingQuotedState value words rest
          | _ => scan quotingEscapingState (push value c) words rest
          end
      | quotingState =>
          match cls with
          | nonEscapingQuoteRuneClass => scan inWordState value words rest
          | _ => scan quotingState (push value c) words rest
          end
      | commentState =>
          if Ascii.eqb c "010" then scan startState EmptyString words rest
          else scan commentState (push value c) words rest
      end
  end.

Definition Split (s : string) : list string * option error :=
  scan startState EmptyString [] s.

End Shlex.

(** ** github.com/alessio/shellescape

    [Quote] leaves a string alone unless it matches [[^\w@%+=:,./-]]. *)

Module Shellescape.

Definition between (lo hi n : nat) : bool :=
  Nat.leb lo n && Nat.leb n hi.

(** The class [\w]: digits, letters and the underscore. *)
Definition wordByte (n : nat) : bool :=
  between 48 57 n || between 65 90 n || between 97 122 n || Nat.eqb n 95.

(** The other bytes the pattern lets through: [@ % + = : , . / -]. *)
Definition safeByte (c : ascii) : bool :=
  let n := nat_of_ascii c in
  wordByte n
  || existsb (Nat.eqb n) [64; 37; 43; 61; 58; 44; 46; 47; 45]%nat.

(** [pattern.MatchString]: some byte is outside the safe set. *)
Fixpoint MatchString (s : string) : bool :=
  match s with
  | EmptyString => false
  | String c rest => negb (safeByte c) || MatchString rest
  end.

Definition apostrophe : ascii := "039".
Definition dquote : ascii := "034".

(** The replacement for an apostrophe: apostrophe, double quote,
    apostrophe, double quote, apostrophe. *)
Definition escapedApostrophe : string :=
  String apostrophe (String dquote (String apostrophe
    (String dquote (String apostrophe EmptyString)))).

Definition Quote (s : string) : string :=
  if Go.isEmpty s then "''"
  else if MatchString s
       then "'" ++ Go.ReplaceAllByte s apostrophe escapedApostrophe ++ "'"
       else s.

End Shellescape.

(** ** connection.go: the sudo rewriters *)

Definition sudofn : Type := string -> string.

Definition sudoNoop (cmd : string) : string := cmd.

(** The first loop of [sudoSudo]: [idx] ends as the length of the longest
    prefix of [parts] whose every element contains an equals sign. *)
Fixpoint envPrefix (parts : list string) (i idx : nat) : nat :=
  match parts with
  | [] => idx
  | p :: rest =>
      if Go.Contains p "=" then envPrefix rest (S i) (S i) else idx
  end.

Definition sudoSudo (cmd : string) : string :=
  match Shlex.Split cmd with
  | (_, Some _) => "sudo -s -- " ++ cmd
  | (parts, None) =>
      let idx := envPrefix parts 0 0 in
      if Nat.eqb idx 0 then "sudo -s -- " ++ cmd
      else
        let parts := map Shellescape.Quote parts in
        "sudo -s " ++ Go.Join (firstn idx parts) " "
          ++ " -- " ++ Go.Join (skipn idx parts) " "
  end.

Definition sudoDoas (cmd : string) : string := "doas -s -- " ++ cmd.

Definition sudoCheckWindows : string :=
  "whoami | findstr /i " ++ String Shellescape.dquote "administrator"
    ++ String Shellescape.dquote EmptyString.

Definition sudoWindows (cmd : string) : string :=
  "runas /user:Administrator " ++ cmd.

(** The keys of [sudoChecks], each with its rewriter. *)
Definition checkRoot : string :=
  "[ " ++ String Shellescape.dquote "$(id -u)"
    ++ String Shellescape.dquote " = 0 ]".

Definition sudoChecks : list (string * sudofn) :=
  [ (checkRoot, sudoNoop);
    ("sudo -n true", sudoSudo);
    ("doas -n true", sudoDoas) ].

(** ** ssh.go: paths and identity files *)

Module Os.

Record FileInfo : Set := { IsDir : bool }.

(** What the process sees of its surroundings. *)
Record World : Type := {
  LookupEnv : string -> option string;            (* os.LookupEnv *)
  UserHomeDir : string + error;                   (* os.UserHomeDir *)
  Stat : string -> FileInfo + error;              (* os.Stat *)
  ReadFile : string -> list Byte.byte + error;    (* os.ReadFile *)
  SSHConfigGetAll : string -> string -> list string
}.

End Os.

(** ** github.com/masterzen/winrm: the parameters of a client

    [Parameters] carries the dialer and the transport decorator a client
    is built with.  [winrm.DefaultParameters] is a package variable of type
    [*Parameters]: whoever takes it takes the pointer, and an assignment
    through it is seen by every later reader in the process.  The value it
    points at when the process starts is [DefaultParameters] below. *)

Module WinrmLib.

(** The transports: the plain one a client gets when no decorator is set,
    and the two the decorators make. *)
Inductive Transporter : Set :=
| ClientRequest
| ClientNTLM
| ClientAuthRequest.

Inductive Dialer : Set :=
| DefaultDial
| BastionDial.

Record Parameters : Set := {
  Dial : Dialer;
  TransportDecorator : option Transporter
}.

(** [NewParameters("PT60S", "en-US", 153600)]: no dialer and no decorator
    of its own. *)
Definition DefaultParameters : Parameters :=
  {| Dial := DefaultDial; TransportDecorator := None |}.

End WinrmLib.

Section Paths.

Variable w : Os.World.

(** returns the current user homedir, prefers $HOME env var *)
Definition homeDir : string * option error :=
  match Os.LookupEnv w "HOME" with
  | Some home => (home, None)
  | None =>
      match Os.UserHomeDir w with
      | inl home => (home, None)
      | inr err =>
          (EmptyString, Some (Wrap ErrOS "failed to get user home directory" err))
      end
  end.

Definition tilde : ascii := "~".
Definition slash : ascii := "/".

(** does ~/ style dir expansion for files under current user home. *)
Definition expandPath (path : string) : Go.run (string * option error) :=
  c0 <- Go.byteAt path 0 ;;
  if negb (Ascii.eqb c0 tilde) then Go.Done (path, None)
  else if Nat.eqb (String.length path) 1 then Go.Done homeDir
  else
    c1 <- Go.byteAt path 1 ;;
    if negb (Ascii.eqb c1 slash)
    then Go.Done (EmptyString,
                  Some (Wrapf ErrNotImplemented "~user/ style paths not supported"))
    else
      match homeDir with
      | (_, Some err) => Go.Done (EmptyString, Some err)
      | (home, None) => Go.Done (home ++ Go.from1 path, None)
      end.

Definition expandAndValidatePath (path : string)
  : Go.run (string * option error) :=
  if Nat.eqb (String.length path) 0
  then Go.Done (EmptyString, Some (Wrapf ErrInvalidPath "path is empty"))
  else
    r <- expandPath path ;;
    match r with
    | (_, Some err) => Go.Done (EmptyString, Some err)
    | (path, None) =>
        match Os.Stat w path with
        | inr err => Go.Done (EmptyString, Some (Wrap ErrInvalidPath EmptyString err))
        | inl stat =>
            if Os.IsDir stat
            then Go.Done (EmptyString,
                          Some (Wrapf ErrInvalidPath (path ++ " is a directory")))
            else Go.Done (path, None)
        end
    end.

Definition hopefullyNonexistentHost : string := "thisH0stDoe5not3xist".

Definition defaultKeypaths : list string :=
  ["~/.ssh/id_rsa"; "~/.ssh/identity"; "~/.ssh/id_dsa"].

(** The package variables [dummyhostKeyPaths] and [globalOnce], and what
    the package variable [winrm.DefaultParameters] of the WinRM library
    points at. *)
Record Globals : Type := {
  dummyhostKeyPaths : list string;
  globalOnce : bool;
  winrmDefaultParameters : WinrmLib.Parameters
}.

Definition processStart : Globals :=
  {| dummyhostKeyPaths := []; globalOnce := false;
     winrmDefaultParameters := WinrmLib.DefaultParameters |}.

(** The loop of [initGlobalDefaults] over the identity files of the dummy
    host; [paths] is [dummyhostKeyPaths]. *)
Fixpoint collectDummy (files paths : list string) : Go.run (list string) :=
  match files with
  | [] => Go.Done paths
  | keyPath :: rest =>
      r <- expandAndValidatePath keyPath ;;
      match r with
      | (expanded, Some _) => collectDummy rest (paths ++ [expanded])%list
      | (_, None) => collectDummy rest paths
      end
  end.

Definition initGlobalDefaults (g : Globals) : Go.run Globals :=
  let dummyHostIdentityFiles :=
    Os.SSHConfigGetAll w hopefullyNonexistentHost "IdentityFile" in
  paths <- collectDummy dummyHostIdentityFiles (dummyhostKeyPaths g) ;;
  Go.Done {| dummyhostKeyPaths := paths; globalOnce := globalOnce g;
             winrmDefaultParameters := winrmDefaultParameters g |}.

(** [globalOnce.Do(c.initGlobalDefaults)] *)
Definition globalOnceDo (g : Globals) : Go.run Globals :=
  r <- Go.onceDo (globalOnce g) initGlobalDefaults g ;;
  Go.Done {| dummyhostKeyPaths := dummyhostKeyPaths (snd r);
             globalOnce := fst r;
             winrmDefaultParameters := winrmDefaultParameters (snd r) |}.

Definition inList (s : string) (b : list string) : bool :=
  existsb (String.eqb s) b.

Fixpoint findUniq (a b : list string) : string * bool :=
  match a with
  | [] => (EmptyString, false)
  | s :: rest => if inList s b then findUniq rest b else (s, true)
  end.

End Paths.

(** ** rig/exec: the options of one call

    [Command] is the command rewriter of the options (sudo wrapping); it can
    fail.  [Writer] tells whether a writer replaces the line-scanned
    capture. *)

Module Exec.

Record Options : Type := {
  Stdin : string;
  AllowWinStderr : bool;
  Writer : bool;
  Command : string -> string * option error
}.

End Exec.

(** ** ssh.go: the SSH transport *)

Module Ssh.

(** [*ssh.Client] *)
Record Client : Set := { ServerVersion : string }.

Inductive SSH : Type := mkSSH {
  Address : string;
  User : string;
  Port : Z;
  KeyPath : option string;
  HostKey : string;
  Bastion : option SSH;
  isWindows : bool;
  knowOs : bool;
  once : bool;
  client : option Client;
  keyPaths : list string
}.

Definition set_client (c : SSH) (v : option Client) : SSH :=
  mkSSH (Address c) (User c) (Port c) (KeyPath c) (HostKey c) (Bastion c)
        (isWindows c) (knowOs c) (once c) v (keyPaths c).

Definition set_Bastion (c : SSH) (v : option SSH) : SSH :=
  mkSSH (Address c) (User c) (Port c) (KeyPath c) (HostKey c) v
        (isWindows c) (knowOs c) (once c) (client c) (keyPaths c).

Definition set_once (c : SSH) (v : bool) : SSH :=
  mkSSH (Address c) (User c) (Port c) (KeyPath c) (HostKey c) (Bastion c)
        (isWindows c) (knowOs c) v (client c) (keyPaths c).

Definition set_KeyPath (c : SSH) (v : option string) : SSH :=
  mkSSH (Address c) (User c) (Port c) v (HostKey c) (Bastion c)
        (isWindows c) (knowOs c) (once c) (client c) (keyPaths c).

Definition set_keyPaths (c : SSH) (v : list string) : SSH :=
  mkSSH (Address c) (User c) (Port c) (KeyPath c) (HostKey c) (Bastion c)
        (isWindows c) (knowOs c) (once c) (client c) v.

Definition set_os (c : SSH) (windows know : bool) : SSH :=
  mkSSH (Address c) (User c) (Port c) (KeyPath c) (HostKey c) (Bastion c)
        windows know (once c) (client c) (keyPaths c).

Definition Protocol (c : SSH) : string := "SSH".
Definition IPAddress (c : SSH) : string := Address c.
Definition IsConnected (c : SSH) : bool :=
  match client c with
  | Some _ => true
  | None => false
  end.

Definition String_ (c : SSH) : string :=
  "[ssh] " ++ Go.JoinHostPort (Address c) (Go.Itoa (Port c)).

(** Disconnect closes the SSH connection: [c.client.Close()], with no test
    of [c.client].  [Close] is promoted from the connection embedded in
    [*ssh.Client], so on a nil client the call dereferences nil. *)
Definition Disconnect (c : SSH) : Go.run SSH :=
  match client c with
  | None => Go.Panic Go.nil_dereference
  | Some _ => Go.Done c
  end.

Section Config.

Variable w : Os.World.

(** try with port, if no results, try without *)
Definition getConfigAll (c : SSH) (key : string) : list string :=
  let dst := Go.JoinHostPort (Address c) (Go.Itoa (Port c)) in
  match Os.SSHConfigGetAll w dst key with
  | [] => Os.SSHConfigGetAll w (Address c) key
  | val => val
  end.

Definition keypathsFromConfig (c : SSH) : list string :=
  getConfigAll c "IdentityFile".

(** The loop of [SetDefaults] over the candidate paths. *)
Fixpoint usable (paths found : list string) : Go.run (list string) :=
  match paths with
  | [] => Go.Done found
  | p :: rest =>
      r <- expandAndValidatePath w p ;;
      match r with
      | (_, Some _) => usable rest found
      | (expanded, None) => usable rest (found ++ [expanded])%list
      end
  end.

(** The body given to [c.once.Do]. *)
Definition resolveIdentity (g : Globals) (c : SSH) : Go.run SSH :=
  let fromConfig :=
    let c := set_KeyPath c None in
    let paths := keypathsFromConfig c in
    let paths :=
      match paths with
      | [] => (paths ++ defaultKeypaths)%list
      | _ => paths
      end in
    found <- usable paths (keyPaths c) ;;
    let c := set_keyPaths c found in
    match findUniq (keyPaths c) (dummyhostKeyPaths g) with
    | (uniq, true) => Go.Done (set_KeyPath c (Some uniq))
    | (_, false) => Go.Done c
    end in
  match KeyPath c with
  | None => fromConfig
  | Some kp =>
      if Go.isEmpty kp then fromConfig
      else
        r <- expandAndValidatePath w kp ;;
        match r with
        | (expanded, None) =>
            Go.Done (set_keyPaths c (keyPaths c ++ [expanded])%list)
        | (_, Some _) => Go.Done c
        end
  end.

(** SetDefaults sets various default values *)
Definition SetDefaults (g : Globals) (c : SSH) : Go.run (Globals * SSH) :=
  g <- globalOnceDo w g ;;
  r <- Go.onceDo (once c) (resolveIdentity g) c ;;
  Go.Done (g, set_once (snd r) (fst r)).

End Config.

(** *** Host key policy

    The package [hostkey] is not among the sources.  Its three callbacks are
    the constructors of [HostKeyCallback]. *)

Inductive HostKeyCallback : Type :=
| StaticKeyCallback (key : string)
| InsecureIgnoreHostKeyCallback
| KnownHostsFileCallback (path : string) (permissive : bool).

Record HostkeyWorld : Type := {
  (** [hostkey.DefaultKnownHostsPath] *)
  DefaultKnownHostsPath : string;
  (** whether [hostkey.KnownHostsFileCallback] fails on this file *)
  knownHostsFile : string -> bool -> option error
}.

(** Modelled from the spec: [hostkey.KnownHostsPathFromEnv], which is not
    among the sources; the spec names the variable [SSH_KNOWN_HOSTS] and
    tells a present empty value from an absent one. *)
Definition KnownHostsPathFromEnv (w : Os.World) : option string :=
  Os.LookupEnv w "SSH_KNOWN_HOSTS".

Section HostKey.

Variable w : Os.World.
Variable hw : HostkeyWorld.

Definition knownhostsCallback (path : string) (permissive : bool)
  : option HostKeyCallback * option error :=
  match knownHostsFile hw path permissive with
  | Some err => (None, Some (Wrap ErrCantConnect "create host key validator" err))
  | None => (Some (KnownHostsFileCallback path permissive), None)
  end.

(** The loop over the files named by [UserKnownHostsFile]; the result is
    [khPath], empty when no entry expands. *)
Fixpoint firstExpandable (files : list string) : Go.run string :=
  match files with
  | [] => Go.Done EmptyString
  | f :: rest =>
      r <- expandPath w f ;;
      match r with
      | (exp, None) => Go.Done exp
      | (_, Some _) => firstExpandable rest
      end
  end.

Definition permissiveOf (strict : list string) : bool :=
  match strict with
  | first :: _ => String.eqb first "no"
  | [] => false
  end.

Definition hostkeyCallback (c : SSH)
  : Go.run (option HostKeyCallback * option error) :=
  if negb (Go.isEmpty (HostKey c))
  then Go.Done (Some (StaticKeyCallback (HostKey c)), None)
  else
    let permissive := permissiveOf (getConfigAll w c "StrictHostkeyChecking") in
    match KnownHostsPathFromEnv w with
    | Some path =>
        if Go.isEmpty path
        then Go.Done (Some InsecureIgnoreHostKeyCallback, None)
        else Go.Done (knownhostsCallback path permissive)
    | None =>
        let kfs := getConfigAll w c "UserKnownHostsFile" in
        khPath <- match Shlex.Split (Go.Join kfs " ") with
                  | (files, None) => firstExpandable files
                  | (_, Some _) => Go.Done EmptyString
                  end ;;
        if negb (Go.isEmpty khPath)
        then Go.Done (knownhostsCallback khPath permissive)
        else
          r <- expandPath w (DefaultKnownHostsPath hw) ;;
          match r with
          | (_, Some err) => Go.Done (None, Some err)
          | (defaultPath, None) =>
              Go.Done (knownhostsCallback defaultPath permissive)
          end
    end.

End HostKey.

(** *** Connect

    The agent, the key files and the network answer through [NetWorld].
    The per-key work of [pkeySigner] and its process-wide cache are behind
    [keyAuth]. *)

Inductive AuthMethod : Type :=
| PublicKeys (signers : list string).

Record ClientConfig : Type := {
  cfgUser : string;
  cfgHostKeyCallback : option HostKeyCallback;
  cfgAuth : list AuthMethod
}.

Record NetWorld : Type := {
  tagError : option error;                    (* defaults.Set on the tags *)
  agentSigners : list string;                 (* agent.Signers() *)
  keyAuth : string -> AuthMethod + error;     (* pkeySigner, cached *)
  dial : string -> Client + error;            (* ssh.Dial *)
  bastionDial : string -> option error;       (* Bastion.client.Dial *)
  newClientConn : string -> Client + error    (* ssh.NewClientConn *)
}.

Section Connect.

Variable w : Os.World.
Variable hw : HostkeyWorld.
Variable nw : NetWorld.

(** [defaults.Set(c)]: the tagged defaults of [User] and [Port], then
    [c.SetDefaults()]. *)
Definition applyTags (c : SSH) : SSH :=
  mkSSH (Address c)
        (if Go.isEmpty (User c) then "root" else User c)
        (if Z.eqb (Port c) 0 then 22%Z else Port c)
        (KeyPath c) (HostKey c) (Bastion c)
        (isWindows c) (knowOs c) (once c) (client c) (keyPaths c).

Definition defaultsSet (g : Globals) (c : SSH)
  : Go.run (Globals * SSH * option error) :=
  match tagError nw with
  | Some err => Go.Done (g, c, Some err)
  | None =>
      r <- SetDefaults w g (applyTags c) ;;
      Go.Done (fst r, snd r, None)
  end.

Fixpoint authFromKeys (paths : list string) (auth : list AuthMethod)
  : list AuthMethod :=
  match paths with
  | [] => auth
  | keyPath :: rest =>
      match keyAuth nw keyPath with
      | inl am => authFromKeys rest (auth ++ [am])%list
      | inr _ => authFromKeys rest auth
      end
  end.

Definition clientConfig (c : SSH) : Go.run (option ClientConfig * option error) :=
  r <- hostkeyCallback w hw c ;;
  match r with
  | (_, Some err) => Go.Done (None, Some err)
  | (hkc, None) =>
      let signers := agentSigners nw in
      let auth := authFromKeys (keyPaths c) [] in
      match auth, signers with
      | [], [] =>
          Go.Done (None,
                   Some (Wrapf ErrCantConnect "no usable authentication method found"))
      | [], _ =>
          Go.Done (Some {| cfgUser := User c; cfgHostKeyCallback := hkc;
                           cfgAuth := [PublicKeys signers] |}, None)
      | _, _ =>
          Go.Done (Some {| cfgUser := User c; cfgHostKeyCallback := hkc;
                           cfgAuth := auth |}, None)
      end
  end.

(** Connect opens the SSH connection *)
Fixpoint Connect (g : Globals) (c : SSH) {struct c}
  : Go.run (Globals * SSH * option error) :=
  match c with
  | mkSSH _ _ _ _ _ bastion _ _ _ _ _ =>
  d <- defaultsSet g c ;;
  match d with
  | (g, c, Some err) =>
      Go.Done (g, c, Some (Wrap ErrValidationFailed "set defaults" err))
  | (g, c, None) =>
      cf <- clientConfig c ;;
      match cf with
      | (_, Some err) =>
          Go.Done (g, c, Some (Wrap ErrCantConnect "create config" err))
      | (_, None) =>
          let dst := Go.JoinHostPort (Address c) (Go.Itoa (Port c)) in
          match bastion with
          | None =>
              match dial nw dst with
              | inr err =>
                  if Is err ErrHostKeyMismatch
                  then Go.Done (g, c, Some (Wrap ErrCantConnect EmptyString err))
                  else Go.Done (g, c, Some (Errorf "ssh dial" err))
              | inl clientDirect =>
                  Go.Done (g, set_client c (Some clientDirect), None)
              end
          | Some b =>
              br <- Connect g b ;;
              match br with
              | (g, b, Some err) =>
                  let c := set_Bastion c (Some b) in
                  if Is err ErrHostKeyMismatch
                  then Go.Done (g, c, Some (Wrap ErrCantConnect "bastion connect" err))
                  else Go.Done (g, c, Some err)
              | (g, b, None) =>
                  let c := set_Bastion c (Some b) in
                  match client b with
                  | None => Go.Panic Go.nil_dereference
                  | Some _ =>
                      match bastionDial nw dst with
                      | Some err => Go.Done (g, c, Some (Errorf "bastion dial" err))
                      | None =>
                          match newClientConn nw dst with
                          | inr err =>
                              if Is err ErrHostKeyMismatch
                              then Go.Done (g, c, Some (Wrap ErrCantConnect
                                               "bastion client connect" err))
                              else Go.Done (g, c, Some (Errorf
                                               "bastion client connect" err))
                          | inl cl => Go.Done (g, set_client c (Some cl), None)
                          end
                      end
                  end
              end
          end
      end
  end
  end.

End Connect.

(** *** Exec

    One session, scripted: each field is what the session answers.  The two
    pumps run concurrently with the wait and are joined before the result
    is read, so their effect on the result is the value of [gotErrors] after
    both ended. *)

Inductive Exit : Type :=
| ExitStatus (status : Z)       (* the remote sent this exit status *)
| ExitMissing                   (* no exit status, no signal *)
| ExitIO (err : error).         (* the connection broke while waiting *)

(** [session.Wait()] of golang.org/x/crypto/ssh: [nil] exactly when the
    remote command ran and left with status zero. *)
Definition sessionWait (x : Exit) : option error :=
  match x with
  | ExitStatus 0 => None
  | ExitStatus n => Some (Foreign ("Process exited with status " ++ Go.Itoa n))
  | ExitMissing =>
      Some (Foreign "wait: remote command exited without exit status or exit signal")
  | ExitIO err => Some err
  end.

Record Script : Type := {
  newSession : option error;
  requestPty : option error;
  start : option error;
  writeStdin : option error;
  stdoutLines : list string;
  stderrLines : list string;
  stderrScanErr : option error;
  exit : Exit
}.

Inductive TerminalMode : Set := ECHO.

(** What the transport asks of the session, in order.  [RequestPty] has the
    parameters of [Session.RequestPty(term, h, w, termmodes)]. *)
Inductive SessionCall : Type :=
| NewSession
| RequestPty (term : string) (h w : Z) (termmodes : list (TerminalMode * Z))
| Start (cmd : string)
| WriteStdin (data : string)
| CloseStdin
| Wait
| Close.

Definition ptyWidth : Z := 80.
Definition ptyHeight : Z := 40.

(** Calls made so far, and either a value to go on with or the error to
    return. *)
Definition act (A : Type) : Type := (list SessionCall * (A + error))%type.

Definition ret {A} (a : A) : act A := ([], inl a).
Definition throw {A} (e : error) : act A := ([], inr e).
Definition call (ev : SessionCall) : act unit := ([ev], inl tt).
Definition andThen {A B} (m : act A) (k : A -> act B) : act B :=
  match m with
  | (t, inl a) => let (t', r) := k a in ((t ++ t')%list, r)
  | (t, inr e) => (t, inr e)
  end.
Definition check (o : option error) (wrap : error -> error) : act unit :=
  match o with
  | None => ret tt
  | Some e => throw (wrap e)
  end.

Notation "m >> k" := (andThen m (fun _ => k))
  (at level 62, right associativity).

(** The stderr pump: every scanned line sets [gotErrors], and so does a
    scanner error. *)
Definition stderrPump (lines : list string) (scanErr : option error) : bool :=
  let gotErrors := fold_left (fun _ _ => true) lines false in
  match scanErr with
  | Some _ => true
  | None => gotErrors
  end.

(** What the output collector receives from the two pumps: the stdout
    events (none when a writer takes the raw bytes) and the stderr
    events. *)
Definition collected (strip : string -> string) (s : Script) (o : Exec.Options)
  : list string * list string :=
  ((if Exec.Writer o then []
    else map (fun text => strip text ++ String "010" EmptyString) (stdoutLines s)),
   map (fun text => text ++ String "010" EmptyString) (stderrLines s)).

(** The body of [Exec] after the session is open. *)
Definition inSession (s : Script) (c : SSH) (cmd : string) (execOpts : Exec.Options)
  : act unit :=
  let (cmd, err) := Exec.Command execOpts cmd in
  check err (Errorf "build command") >>
  (if Nat.eqb (String.length (Exec.Stdin execOpts)) 0
      && knowOs c && negb (isWindows c)
   then call (RequestPty "xterm" ptyWidth ptyHeight [(ECHO, 0%Z)]) >>
        check (requestPty s) (Errorf "request pty")
   else ret tt) >>
  call (Start cmd) >>
  check (start s) (Errorf "ssh session start") >>
  (if Nat.ltb 0 (String.length (Exec.Stdin execOpts))
   then call (WriteStdin (Exec.Stdin execOpts)) >>
        check (writeStdin s) (Errorf "write stdin")
   else ret tt) >>
  call CloseStdin >>
  let gotErrors := stderrPump (stderrLines s) (stderrScanErr s) in
  call Wait >>
  check (sessionWait (exit s)) (Errorf "ssh session wait") >>
  if knowOs c && isWindows c && (negb (Exec.AllowWinStderr execOpts) && gotErrors)
  then throw (Wrapf ErrCommandFailed "data in stderr")
  else ret tt.

Definition returned (r : unit + error) : option error :=
  match r with
  | inl _ => None
  | inr e => Some e
  end.

(** Exec executes a command on the host.  The result is the list of session
    calls and the returned error. *)
Definition Exec (s : Script) (c : SSH) (cmd : string) (execOpts : Exec.Options)
  : Go.run (list SessionCall * option error) :=
  match client c with
  | None => Go.Panic Go.nil_dereference
  | Some _ =>
      match newSession s with
      | Some err => Go.Done ([NewSession], Some (Errorf "ssh new session" err))
      | None =>
          let (t, r) := inSession s c cmd execOpts in
          Go.Done ((NewSession :: t ++ [Close])%list, returned r)
      end
  end.

Definition noOptions : Exec.Options :=
  {| Exec.Stdin := EmptyString; Exec.AllowWinStderr := false;
     Exec.Writer := false; Exec.Command := fun cmd => (cmd, None) |}.

(** IsWindows is true when the host is running windows *)
Definition IsWindows (remote : string -> Script) (c : SSH) : Go.run (SSH * bool) :=
  match knowOs c, client c with
  | false, Some cl =>
      if Go.Contains (ServerVersion cl) "Windows"
      then Go.Done (set_os c true true, true)
      else
        r <- Exec (remote "cmd.exe /c exit 0") c "cmd.exe /c exit 0" noOptions ;;
        let windows := isNil (snd r) in
        Go.Done (set_os c windows true, windows)
  | _, _ => Go.Done (c, isWindows c)
  end.

(** ExecStreams executes a command on the remote host and uses the passed
    in streams.  The waiter is the started session; its [Wait] is
    [sessionWait]. *)
Definition ExecStreams (s : Script) (c : SSH) (cmd : string) (execOpts : Exec.Options)
  : option Exit * option error :=
  match client c with
  | None => (None, Some (Sentinel ErrNotConnected))
  | Some _ =>
      match Exec.Command execOpts cmd with
      | (_, Some err) => (None, Some (Wrap ErrCommandFailed "build command" err))
      | (_, None) =>
          match newSession s with
          | Some err => (None, Some (Wrap ErrCantConnect "session" err))
          | None =>
              match start s with
              | Some err => (None, Some (Wrap ErrCantConnect "start" err))
              | None => (Some (exit s), None)
              end
          end
      end
  end.

End Ssh.

(** ** winrm.go: the WinRM transport *)

Module Winrm.

Record Endpoint : Type := {
  epHost : string;
  epPort : Z;
  epHTTPS : bool;
  epInsecure : bool;
  epTLSServerName : string;
  epTimeoutSeconds : Z;
  epCACert : list Byte.byte;
  epCert : list Byte.byte;
  epKey : list Byte.byte
}.

(** [*winrm.Client]: what it was built from and the transport it talks
    through. *)
Record Client : Type := {
  endpoint : Endpoint;
  params : WinrmLib.Parameters;  (* [Parameters: *params], the value copied *)
  http : WinrmLib.Transporter
}.

Record WinRM : Type := mkWinRM {
  Address : string;
  User : string;
  Port : Z;
  Password : string;
  UseHTTPS : bool;
  Insecure : bool;
  UseNTLM : bool;
  CACertPath : string;
  CertPath : string;
  KeyPath : string;
  TLSServerName : string;
  Bastion : option Ssh.SSH;
  caCert : list Byte.byte;
  key : list Byte.byte;
  cert : list Byte.byte;
  client : option Client
}.

Definition set_paths (c : WinRM) (ca crt k : string) (port : Z) : WinRM :=
  mkWinRM (Address c) (User c) port (Password c) (UseHTTPS c) (Insecure c)
          (UseNTLM c) ca crt k (TLSServerName c) (Bastion c)
          (caCert c) (key c) (cert c) (client c).

Definition set_material (c : WinRM) (ca k crt : list Byte.byte) : WinRM :=
  mkWinRM (Address c) (User c) (Port c) (Password c) (UseHTTPS c) (Insecure c)
          (UseNTLM c) (CACertPath c) (CertPath c) (KeyPath c) (TLSServerName c)
          (Bastion c) ca k crt (client c).

Definition set_Bastion (c : WinRM) (b : option Ssh.SSH) : WinRM :=
  mkWinRM (Address c) (User c) (Port c) (Password c) (UseHTTPS c) (Insecure c)
          (UseNTLM c) (CACertPath c) (CertPath c) (KeyPath c) (TLSServerName c)
          b (caCert c) (key c) (cert c) (client c).

Definition set_client (c : WinRM) (v : option Client) : WinRM :=
  mkWinRM (Address c) (User c) (Port c) (Password c) (UseHTTPS c) (Insecure c)
          (UseNTLM c) (CACertPath c) (CertPath c) (KeyPath c) (TLSServerName c)
          (Bastion c) (caCert c) (key c) (cert c) v.

(** The tagged defaults of [User] and [Port]. *)
Definition applyTags (c : WinRM) : WinRM :=
  mkWinRM (Address c)
          (if Go.isEmpty (User c) then "Administrator" else User c)
          (if Z.eqb (Port c) 0 then 5985%Z else Port c)
          (Password c) (UseHTTPS c) (Insecure c)
          (UseNTLM c) (CACertPath c) (CertPath c) (KeyPath c) (TLSServerName c)
          (Bastion c) (caCert c) (key c) (cert c) (client c).

Definition Protocol (c : WinRM) : string := "WinRM".
Definition IPAddress (c : WinRM) : string := Address c.
Definition String_ (c : WinRM) : string :=
  "[winrm] " ++ Address c ++ ":" ++ Go.Itoa (Port c).

Definition IsConnected (c : WinRM) : bool :=
  match client c with
  | Some _ => true
  | None => false
  end.

(** IsWindows always returns true on winrm *)
Definition IsWindows (c : WinRM) : bool := true.

Record World : Type := {
  homedirExpand : string -> string + error;   (* homedir.Expand *)
  newClient : Endpoint -> WinrmLib.Parameters -> option error;
                                    (* winrm.NewClientWithParameters failing *)
  probe : option error              (* the run of [echo ok] *)
}.

Section Transport.

Variable w : Os.World.
Variable hw : Ssh.HostkeyWorld.
Variable nw : Ssh.NetWorld.
Variable ww : World.

Definition expanded (path : string) : string :=
  match homedirExpand ww path with
  | inl p => p
  | inr _ => path
  end.

(** SetDefaults sets various default values *)
Definition SetDefaults (c : WinRM) : WinRM :=
  let ca := expanded (CACertPath c) in
  let crt := expanded (CertPath c) in
  let k := expanded (KeyPath c) in
  set_paths c ca crt k
    (if Z.eqb (Port c) 5985 && UseHTTPS c then 5986%Z else Port c).

Definition readIf (path : string) : list Byte.byte * option error :=
  if negb (Go.isEmpty path)
  then match Os.ReadFile w path with
       | inl data => (data, None)
       | inr err => ([], Some err)
       end
  else ([], None).

Definition loadCertificates (c : WinRM) : WinRM * option error :=
  let c := set_material c [] (key c) (cert c) in
  match readIf (CACertPath c) with
  | (_, Some err) => (c, Some (Wrap ErrInvalidPath "load ca cert" err))
  | (ca, None) =>
      let c := set_material c ca (key c) [] in
      match readIf (CertPath c) with
      | (_, Some err) => (c, Some (Wrap ErrInvalidPath "load cert" err))
      | (crt, None) =>
          let c := set_material c (caCert c) [] crt in
          match readIf (KeyPath c) with
          | (_, Some err) => (c, Some (Wrap ErrInvalidPath "load key" err))
          | (k, None) => (set_material c (caCert c) k (cert c), None)
          end
      end
  end.

Definition nonEmpty (b : list Byte.byte) : bool := Nat.ltb 0 (List.length b).

Definition endpointOf (c : WinRM) : Endpoint :=
  {| epHost := Address c; epPort := Port c; epHTTPS := UseHTTPS c;
     epInsecure := Insecure c; epTLSServerName := TLSServerName c;
     epTimeoutSeconds := 60;
     epCACert := if nonEmpty (caCert c) then caCert c else [];
     epCert := if nonEmpty (cert c) then cert c else [];
     epKey := if nonEmpty (key c) then key c else [] |}.

(** The two assignments to [params.TransportDecorator], in the order of
    the source. *)
Definition decorate (c : WinRM) (params : WinrmLib.Parameters)
  : WinrmLib.Parameters :=
  let params :=
    if UseNTLM c
    then {| WinrmLib.Dial := WinrmLib.Dial params;
            WinrmLib.TransportDecorator := Some WinrmLib.ClientNTLM |}
    else params in
  let params :=
    if UseHTTPS c && nonEmpty (cert c)
    then {| WinrmLib.Dial := WinrmLib.Dial params;
            WinrmLib.TransportDecorator := Some WinrmLib.ClientAuthRequest |}
    else params in
  params.

(** An assignment through [params], the pointer taken from
    [winrm.DefaultParameters]: it changes what the package variable points
    at. *)
Definition assign (g : Globals) (params : WinrmLib.Parameters) : Globals :=
  {| dummyhostKeyPaths := dummyhostKeyPaths g;
     globalOnce := globalOnce g;
     winrmDefaultParameters := params |}.

(** [winrm.NewClientWithParameters]: the client talks through what the
    decorator makes, or through the plain transport without one. *)
Definition NewClientWithParameters (ep : Endpoint) (params : WinrmLib.Parameters)
  : option Client * option error :=
  match newClient ww ep params with
  | Some err => (None, Some err)
  | None =>
      (Some {| endpoint := ep; params := params;
               http := match WinrmLib.TransportDecorator params with
                       | Some t => t
                       | None => WinrmLib.ClientRequest
                       end |}, None)
  end.

(** Connect opens the WinRM connection.  [params := winrm.DefaultParameters]
    takes the pointer, so [params] is read from, and assigned in, the
    globals; the client is built from the value it points at then. *)
Definition Connect (g : Globals) (c : WinRM)
  : Go.run (Globals * WinRM * option error) :=
  match loadCertificates c with
  | (c, Some err) =>
      Go.Done (g, c, Some (Wrap ErrCantConnect "failed to load certificates" err))
  | (c, None) =>
      let ep := endpointOf c in
      b <- match Bastion c with
           | None => Go.Done (g, c, None)
           | Some bastion =>
               r <- Ssh.Connect w hw nw g bastion ;;
               match r with
               | (g, bastion, Some err) =>
                   Go.Done (g, set_Bastion c (Some bastion),
                            Some (Errorf "bastion connect" err))
               | (g, bastion, None) =>
                   let params := winrmDefaultParameters g in
                   Go.Done (assign g
                              {| WinrmLib.Dial := WinrmLib.BastionDial;
                                 WinrmLib.TransportDecorator :=
                                   WinrmLib.TransportDecorator params |},
                            set_Bastion c (Some bastion), None)
               end
           end ;;
      match b with
      | (g, c, Some err) => Go.Done (g, c, Some err)
      | (g, c, None) =>
          let g := assign g (decorate c (winrmDefaultParameters g)) in
          match NewClientWithParameters ep (winrmDefaultParameters g) with
          | (Some cl, None) =>
              match probe ww with
              | Some err => Go.Done (g, c, Some (Errorf "test connection" err))
              | None => Go.Done (g, set_client c (Some cl), None)
              end
          | (_, Some err) => Go.Done (g, c, Some (Errorf "create winrm client" err))
          | (None, None) => Go.Panic Go.nil_dereference
          end
      end
  end.

(** Disconnect closes the WinRM connection *)
Definition Disconnect (c : WinRM) : WinRM := set_client c None.

End Transport.

(** *** Exec *)

Record Script : Type := {
  createShell : option error;
  execute : option error;
  stdoutLines : list string;
  stderrLines : list string;
  stderrScanErr : option error;
  exitCode : Z                       (* command.ExitCode() *)
}.

(** Command implements the Waiter interface *)
Record Command : Type := {
  cmdExitCode : Z
}.

(** Wait blocks until the command finishes *)
Definition Wait (c : Command) : option error :=
  if negb (Z.eqb (cmdExitCode c) 0)
  then Some (Wrapf ErrCommandFailed ("exit code " ++ Go.Itoa (cmdExitCode c)))
  else None.

Definition ExecStreams (s : Script) (c : WinRM) (cmd : string) (execOpts : Exec.Options)
  : option Command * option error :=
  match client c with
  | None => (None, Some (Sentinel ErrNotConnected))
  | Some _ =>
      match Exec.Command execOpts cmd with
      | (_, Some err) => (None, Some (Wrap ErrCommandFailed "build command" err))
      | (_, None) =>
          match createShell s with
          | Some err => (None, Some (Wrap ErrCantConnect "create shell" err))
          | None =>
              match execute s with
              | Some err => (None, Some (Wrap ErrCommandFailed "execute command" err))
              | None => (Some {| cmdExitCode := exitCode s |}, None)
              end
          end
      end
  end.

(** Exec executes a command on the host *)
Definition Exec (s : Script) (c : WinRM) (cmd : string) (execOpts : Exec.Options)
  : Go.run (option error) :=
  match client c with
  | None => Go.Panic Go.nil_dereference
  | Some _ =>
      match createShell s with
      | Some err => Go.Done (Some (Errorf "create shell" err))
      | None =>
          match execute s with
          | Some err => Go.Done (Some (Errorf "execute command" err))
          | None =>
              let gotErrors := Ssh.stderrPump (stderrLines s) (stderrScanErr s) in
              let ec := exitCode s in
              if Z.ltb 0 ec
              then Go.Done (Some (Wrapf ErrCommandFailed
                                    ("non-zero exit code " ++ Go.Itoa ec)))
              else if negb (Exec.AllowWinStderr execOpts) && gotErrors
                   then Go.Done (Some (Wrapf ErrCommandFailed "received data in stderr"))
                   else Go.Done None
          end
      end
  end.

End Winrm.

(** ** connection.go: the dispatcher *)

Module Conn.

Record Localhost : Set := { Enabled : bool }.

Record OSVersion : Type := { ID : string }.

(** The value of the interface field [client]: the transport struct it
    points at.  A configured transport is the struct in the slot of the
    same name, so a call through the handle changes the slot; the default
    client is a struct of its own. *)
Inductive Handle : Type :=
| AtWinRM
| AtLocalhost
| AtSSH
| Fresh (l : Localhost).

Inductive FSKind : Set :=
| UnixFsys
| WindowsFsys.

Record Connection : Type := mkConnection {
  WinRM : option Winrm.WinRM;
  SSH : option Ssh.SSH;
  Localhost_ : option Localhost;
  OSVersion_ : option OSVersion;
  client : option Handle;
  sudofunc : option sudofn;
  fsys : option FSKind
}.

Definition set_client (c : Connection) (v : option Handle) : Connection :=
  mkConnection (WinRM c) (SSH c) (Localhost_ c) (OSVersion_ c) v
               (sudofunc c) (fsys c).

Definition set_WinRM (c : Connection) (v : option Winrm.WinRM) : Connection :=
  mkConnection v (SSH c) (Localhost_ c) (OSVersion_ c) (client c)
               (sudofunc c) (fsys c).

Definition set_SSH (c : Connection) (v : option Ssh.SSH) : Connection :=
  mkConnection (WinRM c) v (Localhost_ c) (OSVersion_ c) (client c)
               (sudofunc c) (fsys c).

Definition set_OSVersion (c : Connection) (v : option OSVersion) : Connection :=
  mkConnection (WinRM c) (SSH c) (Localhost_ c) v (client c)
               (sudofunc c) (fsys c).

Definition set_sudofunc (c : Connection) (v : option sudofn) : Connection :=
  mkConnection (WinRM c) (SSH c) (Localhost_ c) (OSVersion_ c) (client c)
               v (fsys c).

Definition set_fsys (c : Connection) (v : option FSKind) : Connection :=
  mkConnection (WinRM c) (SSH c) (Localhost_ c) (OSVersion_ c) (client c)
               (sudofunc c) v.

Definition configuredClient (c : Connection) : option Handle :=
  match WinRM c, Localhost_ c, SSH c with
  | Some _, _, _ => Some AtWinRM
  | None, Some _, _ => Some AtLocalhost
  | None, None, Some _ => Some AtSSH
  | None, None, None => None
  end.

Definition defaultClient : Handle := Fresh {| Enabled := true |}.

(** Everything outside the connection.  The loopback transport and the OS
    probe are not among the sources; they answer through [localConnect],
    [localExec], [localWindows] and [GetOSVersion]. *)
Record World : Type := {
  os : Os.World;
  hostkeys : Ssh.HostkeyWorld;
  net : Ssh.NetWorld;
  winrm : Winrm.World;
  tagError : option error;                    (* defaults.Set on the tags *)
  sshRemote : string -> Ssh.Script;
  winrmRemote : string -> Winrm.Script;
  localConnect : option error;
  localExec : string -> option error;
  localWindows : bool;
  GetOSVersion : OSVersion + error;
  (** the order in which the runtime walks the map [sudoChecks] *)
  sudoCheckOrder : list (string * sudofn)
}.

Section Dispatcher.

Variable w : World.

(** [c.client.IsConnected()].  The loopback transport, which is not among
    the sources, runs its commands in this process: it is taken as always
    connected. *)
Definition clientIsConnected (c : Connection) (h : Handle) : bool :=
  match h with
  | AtWinRM =>
      match WinRM c with
      | Some x => Winrm.IsConnected x
      | None => false
      end
  | AtSSH =>
      match SSH c with
      | Some x => Ssh.IsConnected x
      | None => false
      end
  | AtLocalhost | Fresh _ => true
  end.

(** IsConnected returns true if the client is assumed to be connected.
    "Assumed" - as in [Connect()] has been called and no error was
    returned. *)
Definition IsConnected (c : Connection) : bool :=
  match client c with
  | None => false
  | Some h => clientIsConnected c h
  end.

Definition checkConnected (c : Connection) : option error :=
  if negb (IsConnected c) then Some (Sentinel ErrNotConnected) else None.

(** [defaults.Set(c.client)]: the tagged defaults of the transport and its
    [SetDefaults]; the error is dropped. *)
Definition clientDefaults (g : Globals) (c : Connection) (h : Handle)
  : Go.run (Globals * Connection) :=
  match h with
  | AtSSH =>
      match SSH c with
      | Some x =>
          r <- Ssh.defaultsSet (os w) (net w) g x ;;
          match r with
          | (g, x, _) => Go.Done (g, set_SSH c (Some x))
          end
      | None => Go.Done (g, c)
      end
  | AtWinRM =>
      match WinRM c with
      | Some x =>
          Go.Done (g, set_WinRM c
                        (Some (Winrm.SetDefaults (winrm w) (Winrm.applyTags x))))
      | None => Go.Done (g, c)
      end
  | AtLocalhost | Fresh _ => Go.Done (g, c)
  end.

(** SetDefaults sets a connection *)
Definition SetDefaults (g : Globals) (c : Connection)
  : Go.run (Globals * Connection) :=
  match client c with
  | Some _ => Go.Done (g, c)
  | None =>
      let h := match configuredClient c with
               | Some h => h
               | None => defaultClient
               end in
      clientDefaults g (set_client c (Some h)) h
  end.

(** [defaults.Set(c)] on the connection: the tags, then [SetDefaults]. *)
Definition defaultsSet (g : Globals) (c : Connection)
  : Go.run (Globals * Connection * option error) :=
  match tagError w with
  | Some err => Go.Done (g, c, Some err)
  | None =>
      r <- SetDefaults g c ;;
      Go.Done (fst r, snd r, None)
  end.

(** [c.client.Connect()] *)
Definition clientConnect (g : Globals) (c : Connection) (h : Handle)
  : Go.run (Globals * Connection * option error) :=
  match h with
  | AtWinRM =>
      match WinRM c with
      | Some x =>
          r <- Winrm.Connect (os w) (hostkeys w) (net w) (winrm w) g x ;;
          match r with
          | (g, x, err) => Go.Done (g, set_WinRM c (Some x), err)
          end
      | None => Go.Panic Go.nil_dereference
      end
  | AtSSH =>
      match SSH c with
      | Some x =>
          r <- Ssh.Connect (os w) (hostkeys w) (net w) g x ;;
          match r with
          | (g, x, err) => Go.Done (g, set_SSH c (Some x), err)
          end
      | None => Go.Panic Go.nil_dereference
      end
  | AtLocalhost | Fresh _ => Go.Done (g, c, localConnect w)
  end.

(** [c.client.Exec(cmd, opts...)] *)
Definition clientExec (c : Connection) (h : Handle) (cmd : string)
           (opts : Exec.Options) : Go.run (option error) :=
  match h with
  | AtWinRM =>
      match WinRM c with
      | Some x => Winrm.Exec (winrmRemote w cmd) x cmd opts
      | None => Go.Panic Go.nil_dereference
      end
  | AtSSH =>
      match SSH c with
      | Some x =>
          r <- Ssh.Exec (sshRemote w cmd) x cmd opts ;;
          Go.Done (snd r)
      | None => Go.Panic Go.nil_dereference
      end
  | AtLocalhost | Fresh _ => Go.Done (localExec w cmd)
  end.

(** Exec runs a command on the host *)
Definition Exec (c : Connection) (cmd : string) (opts : Exec.Options)
  : Go.run (option error) :=
  match checkConnected c with
  | Some err => Go.Done (Some err)
  | None =>
      match client c with
      | None => Go.Panic Go.nil_dereference
      | Some h =>
          r <- clientExec c h cmd opts ;;
          match r with
          | Some err => Go.Done (Some (Wrap ErrCommandFailed "client exec" err))
          | None => Go.Done None
          end
      end
  end.

(** The loop of [configureSudo] over the checks. *)
Fixpoint firstPassing (c : Connection) (checks : list (string * sudofn))
  : Go.run Connection :=
  match checks with
  | [] => Go.Done c
  | (check, fn) :: rest =>
      r <- Exec c check Ssh.noOptions ;;
      if isNil r then Go.Done (set_sudofunc c (Some fn))
      else firstPassing c rest
  end.

Definition configureSudo (c : Connection) : Go.run Connection :=
  match OSVersion_ c with
  | None => Go.Panic Go.nil_dereference
  | Some v =>
      if String.eqb (ID v) "windows"
      then
        r <- Exec c sudoCheckWindows Ssh.noOptions ;;
        if isNil r then Go.Done (set_sudofunc c (Some sudoWindows))
        else Go.Done c
      else firstPassing c (sudoCheckOrder w)
  end.

(** The first statement of [Connect]: without a client, set the
    defaults. *)
Definition ensureClient (g : Globals) (c : Connection)
  : Go.run (Globals * Connection * option error) :=
  match client c with
  | None =>
      r <- defaultsSet g c ;;
      match r with
      | (g, c, Some err) =>
          Go.Done (g, c, Some (Wrap ErrValidationFailed "set defaults" err))
      | (g, c, None) => Go.Done (g, c, None)
      end
  | Some _ => Go.Done (g, c, None)
  end.

(** Connect to the host and identify the operating system and sudo
    capability *)
Definition Connect (g : Globals) (c : Connection)
  : Go.run (Globals * Connection * option error) :=
  d <- ensureClient g c ;;
  match d with
  | (g, c, Some err) => Go.Done (g, c, Some err)
  | (g, c, None) =>
      match client c with
      | None => Go.Panic Go.nil_dereference
      | Some h =>
          r <- clientConnect g c h ;;
          match r with
          | (g, c, Some err) =>
              Go.Done (g, set_client c None,
                       Some (Wrap ErrNotConnected "client connect" err))
          | (g, c, None) =>
              match OSVersion_ c with
              | None =>
                  match GetOSVersion w with
                  | inr err => Go.Done (g, c, Some err)
                  | inl o =>
                      c <- configureSudo (set_OSVersion c (Some o)) ;;
                      Go.Done (g, c, None)
                  end
              | Some _ =>
                  c <- configureSudo c ;;
                  Go.Done (g, c, None)
              end
          end
      end
  end.

(** Sudo formats a command string to be run with elevated privileges *)
Definition Sudo (c : Connection) (cmd : string) : string * option error :=
  match sudofunc c with
  | None =>
      (EmptyString,
       Some (Wrapf ErrSudoRequired
               "user is not an administrator and passwordless access elevation has not been configured"))
  | Some f => (f cmd, None)
  end.

(** [c.client.Disconnect()].  The loopback transport, which is not among
    the sources, has nothing to close. *)
Definition clientDisconnect (c : Connection) (h : Handle) : Go.run Connection :=
  match h with
  | AtWinRM =>
      match WinRM c with
      | Some x => Go.Done (set_WinRM c (Some (Winrm.Disconnect x)))
      | None => Go.Panic Go.nil_dereference
      end
  | AtSSH =>
      match SSH c with
      | Some x =>
          x <- Ssh.Disconnect x ;;
          Go.Done (set_SSH c (Some x))
      | None => Go.Panic Go.nil_dereference
      end
  | AtLocalhost | Fresh _ => Go.Done c
  end.

(** Disconnect from the host *)
Definition Disconnect (c : Connection) : Go.run Connection :=
  c <- match client c with
       | Some h => clientDisconnect c h
       | None => Go.Done c
       end ;;
  Go.Done (set_client c None).

(** [c.client.IsWindows()] *)
Definition clientIsWindows (c : Connection) (h : Handle)
  : Go.run (Connection * bool) :=
  match h with
  | AtWinRM => Go.Done (c, true)
  | AtSSH =>
      match SSH c with
      | Some x =>
          r <- Ssh.IsWindows (sshRemote w) x ;;
          Go.Done (set_SSH c (Some (fst r)), snd r)
      | None => Go.Panic Go.nil_dereference
      end
  | AtLocalhost | Fresh _ => Go.Done (c, localWindows w)
  end.

(** IsWindows returns true on windows hosts *)
Definition IsWindows (c : Connection) : Go.run (Connection * bool) :=
  match (if negb (IsConnected c) then configuredClient c else None) with
  | Some h => clientIsWindows c h
  | None =>
      match client c with
      | Some h => clientIsWindows c h
      | None => Go.Panic Go.nil_dereference
      end
  end.

(** Fsys returns a fs.FS compatible filesystem interface for accessing
    files on remote hosts *)
Definition Fsys (c : Connection) : Go.run (Connection * FSKind) :=
  match fsys c with
  | Some k => Go.Done (c, k)
  | None =>
      r <- IsWindows c ;;
      let k := if snd r then WindowsFsys else UnixFsys in
      Go.Done (set_fsys (fst r) (Some k), k)
  end.

End Dispatcher.

(** *** Upload *)

Record LocalFile : Type := {
  statSizeMode : (Z * Z) + error               (* local.Stat() *)
}.

Record UploadWorld : Type := {
  osOpen : string -> LocalFile + error;         (* os.Open *)
  (** [fsys.OpenFile(dst, ModeCreate, perm)] failing *)
  openFile : FSKind -> string -> Z -> option error;
  (** [remote.CopyFromN(local, size, shasum)]: the bytes it wrote to the
      hasher, and its error *)
  copyFromN : string -> Z -> list Byte.byte * option error;
  (** [fsys.Sha256(dst)] *)
  remoteSha256 : FSKind -> string -> string + error
}.

Section Upload.

Variable w : World.
Variable uw : UploadWorld.
(** The lower-case hexadecimal SHA-256 digest of the bytes written to
    the hasher: [fmt.Sprintf("%x", shasum.Sum(nil))]. *)
Variable sha256hex : list Byte.byte -> string.

(** Upload copies a file from a local path src to the remote host path
    dst. *)
Definition Upload (c : Connection) (src dst : string)
  : Go.run (Connection * option error) :=
  match checkConnected c with
  | Some err => Go.Done (c, Some err)
  | None =>
      match osOpen uw src with
      | inr err => Go.Done (c, Some (Wrap ErrInvalidPath EmptyString err))
      | inl local =>
          match statSizeMode local with
          | inr err =>
              Go.Done (c, Some (Wrap ErrInvalidPath ("stat local file " ++ src) err))
          | inl (size, mode) =>
              f <- Fsys w c ;;
              let (c, fsys) := f in
              match openFile uw fsys dst mode with
              | Some err =>
                  Go.Done (c, Some (Wrap ErrInvalidPath
                                      "open remote file for writing" err))
              | None =>
                  match copyFromN uw src size with
                  | (_, Some err) =>
                      Go.Done (c, Some (Wrap ErrUploadFailed
                                          "copy file to remote host" err))
                  | (written, None) =>
                      match remoteSha256 uw fsys dst with
                      | inr err =>
                          Go.Done (c, Some (Wrap ErrUploadFailed
                                              ("validate checksum of " ++ dst) err))
                      | inl remoteSum =>
                          if negb (String.eqb remoteSum (sha256hex written))
                          then Go.Done (c, Some (Wrapf ErrUploadFailed
                                                   "checksum mismatch"))
                          else Go.Done (c, None)
                      end
                  end
              end
          end
      end
  end.

End Upload.

End Conn.

(** ** connection.go: GroupParams *)

Module Params.

(** One element of [params ...any]: an [exec.Option], a slice [[]any] of
    further elements, or any other value. *)
Inductive Param (O A : Type) : Type :=
| POption (o : O)
| PArg (a : A)
| PSlice (vv : list (Param O A)).
Arguments POption {O A} o.
Arguments PArg {O A} a.
Arguments PSlice {O A} vv.

(** The body of the loop of [GroupParams] for one element [v]: what it
    appends to [opts] and to [args].  The call on a slice is the call of
    [GroupParams] on its elements. *)
Fixpoint groupValue {O A : Type} (v : Param O A) : list O * list A :=
  match v with
  | PSlice vv =>
      (fix each (params : list (Param O A)) : list O * list A :=
         match params with
         | [] => ([], [])
         | v :: rest =>
             let (opts, args) := groupValue v in
             let (opts', args') := each rest in
             ((opts ++ opts')%list, (args ++ args')%list)
         end) vv
  | POption vv => ([vv], [])
  | PArg vv => ([], [vv])
  end.

(** GroupParams separates exec.Options from other sprintf templating args *)
Fixpoint GroupParams {O A : Type} (params : list (Param O A)) : list O * list A :=
  match params with
  | [] => ([], [])
  | v :: rest =>
      let (opts, args) := groupValue v in
      let (opts', args') := GroupParams rest in
      ((opts ++ opts')%list, (args ++ args')%list)
  end.

(** The elements of the parameters, slices opened, in order. *)
Fixpoint leaves {O A : Type} (v : Param O A) : list (O + A) :=
  match v with
  | PSlice vv =>
      (fix each (params : list (Param O A)) : list (O + A) :=
         match params with
         | [] => []
         | v :: rest => (leaves v ++ each rest)%list
         end) vv
  | POption o => [inl o]
  | PArg a => [inr a]
  end.

Definition allLeaves {O A : Type} (params : list (Param O A)) : list (O + A) :=
  flat_map leaves params.

Definition optionsOf {O A : Type} (l : list (O + A)) : list O :=
  flat_map (fun x => match x with inl o => [o] | inr _ => [] end) l.

Definition argsOf {O A : Type} (l : list (O + A)) : list A :=
  flat_map (fun x => match x with inl _ => [] | inr a => [a] end) l.

End Params.

(** ** ssh.go: the signer of a public key

    A signer of the agent stands for the wire form of its public key, the
    only thing [pubkeySigner] reads of it. *)

Module SshAuth.

Fixpoint firstMatch (signers : list string) (key : string) : option string :=
  match signers with
  | [] => None
  | s :: rest => if String.eqb key s then Some s else firstMatch rest key
  end.

Definition pubkeySigner (signers : list string) (key : string)
  : option Ssh.AuthMethod * option error :=
  if Nat.eqb (List.length signers) 0
  then (None, Some (Wrapf ErrCantConnect "signer not found for public key"))
  else
    match firstMatch signers key with
    | Some s => (Some (Ssh.PublicKeys [s]), None)
    | None =>
        (None,
         Some (Wrapf ErrAuthFailed
                 "the provided key is a public key and is not known by agent"))
    end.

End SshAuth.

(** ** ssh.go: ExecInteractive *)

Module Interactive.

(** What the terminal and the session answer. [getSize] is the pair
    [term.GetSize] returns: the width, then the height. *)
Record Script : Type := {
  newSession : option error;
  makeRaw : option error;
  getSize : (Z * Z) + error;
  requestPty : option error;
  stdinPipe : option error;
  run : option error;                 (* session.Shell() or session.Start(cmd) *)
  wait : option error
}.




End Interactive.

(** ** connection.go: ExecStreams *)

Module Streams.

(** The waiter a transport hands back: the started SSH session, the WinRM
    command, or the waiter of the loopback transport, which is not among
    the sources and is known by what its [Wait] returns. *)
Inductive Waiter : Type :=
| SessionWaiter (x : Ssh.Exit)
| CommandWaiter (c : Winrm.Command)
| LocalWaiter (r : option error).

Definition Wait (wt : Waiter) : option error :=
  match wt with
  | SessionWaiter x => Ssh.sessionWait x
  | CommandWaiter c => Winrm.Wait c
  | LocalWaiter r => r
  end.

Section Dispatch.

Variable w : Conn.World.
(** [ExecStreams] of the loopback transport. *)
Variable localStreams : string -> option Waiter * option error.

(** [c.client.ExecStreams(cmd, stdin, stdout, stderr, opts...)] *)
Definition clientExecStreams (c : Conn.Connection) (h : Conn.Handle)
           (cmd : string) (opts : Exec.Options)
  : Go.run (option Waiter * option error) :=
  match h with
  | Conn.AtWinRM =>
      match Conn.WinRM c with
      | Some x =>
          match Winrm.ExecStreams (Conn.winrmRemote w cmd) x cmd opts with
          | (Some cm, err) => Go.Done (Some (CommandWaiter cm), err)
          | (None, err) => Go.Done (None, err)
          end
      | None => Go.Panic Go.nil_dereference
      end
  | Conn.AtSSH =>
      match Conn.SSH c with
      | Some x =>
          match Ssh.ExecStreams (Conn.sshRemote w cmd) x cmd opts with
          | (Some ex, err) => Go.Done (Some (SessionWaiter ex), err)
          | (None, err) => Go.Done (None, err)
          end
      | None => Go.Panic Go.nil_dereference
      end
  | Conn.AtLocalhost | Conn.Fresh _ => Go.Done (localStreams cmd)
  end.

(** ExecStreams executes a command on the remote host and uses the passed
    in streams for stdin, stdout and stderr. *)
Definition ExecStreams (c : Conn.Connection) (cmd : string) (opts : Exec.Options)
  : Go.run (option Waiter * option error) :=
  match Conn.checkConnected c with
  | Some _ => Go.Done (None, Some (Wrapf ErrNotConnected "exec streams"))
  | None =>
      match Conn.client c with
      | None => Go.Panic Go.nil_dereference
      | Some h =>
          r <- clientExecStreams c h cmd opts ;;
          match r with
          | (_, Some err) =>
              Go.Done (None, Some (Wrap ErrCommandFailed "exec (with streams)" err))
          | (waiter, None) => Go.Done (waiter, None)
          end
      end
  end.

End Dispatch.

End Streams.

(** ** Notions used to state the properties *)


(** [expandAndValidatePath] accepts the path: it returns no error. *)
Definition validates (w : Os.World) (path : string) : bool :=
  match expandAndValidatePath w path with
  | Go.Done (_, None) => true
  | _ => false
  end.

(** [expandPath] refuses the path with an error. *)
Definition refused (w : Os.World) (path : string) : Prop :=
  exists rest err, expandPath w path = Go.Done (rest, Some err).

(** A PTY request is among the session calls. *)
Definition requestsPty (calls : list Ssh.SessionCall) : Prop :=
  exists term h w modes, In (Ssh.RequestPty term h w modes) calls.

(** The terminal a PTY request asks for: of the parameters of
    [Session.RequestPty(term, h, w, termmodes)], [w] is sent as the number
    of columns and [h] as the number of rows. *)
Definition ptyColumns (call : Ssh.SessionCall) : option Z :=
  match call with
  | Ssh.RequestPty _ _ w _ => Some w
  | _ => None
  end.

Definition ptyRows (call : Ssh.SessionCall) : option Z :=
  match call with
  | Ssh.RequestPty _ h _ _ => Some h
  | _ => None
  end.

(** The transport a connected WinRM client talks through. *)
Definition transportOf (c : Winrm.WinRM) : option WinrmLib.Transporter :=
  option_map Winrm.http (Winrm.client c).

(** The expansions of the paths that [expandAndValidatePath] accepts, in
    order. *)
Definition accepted (w : Os.World) (paths : list string) : list string :=
  flat_map (fun p => match expandAndValidatePath w p with
                     | Go.Done (expanded, None) => [expanded]
                     | _ => []
                     end) paths.

(** [Stat] finds something at the path that is not a directory. *)
Definition regularFile (w : Os.World) (path : string) : Prop :=
  exists info, Os.Stat w path = inl info /\ Os.IsDir info = false.

(** The candidate identity files of a host without an explicit key: those
    of the SSH configuration, or the conventional ones. *)
Definition candidates (w : Os.World) (c : Ssh.SSH) : list string :=
  match Ssh.keypathsFromConfig w c with
  | [] => defaultKeypaths
  | paths => paths
  end.

Definition space : ascii := " ".

(** ** Sample surroundings

    A home directory [/home/u] that holds one key file, [.ssh/id_rsa].  The
    SSH configuration names that key and a missing one as identity files of
    every host, and [knownHosts] as the known-hosts files. *)

Definition noSuchFile : error := Foreign "no such file or directory".

Definition sampleOs (knownHostsEnv : option string) (knownHosts : list string)
  : Os.World :=
  {| Os.LookupEnv := fun name =>
       if String.eqb name "HOME" then Some "/home/u"
       else if String.eqb name "SSH_KNOWN_HOSTS" then knownHostsEnv
       else None;
     Os.UserHomeDir := inl "/home/u";
     Os.Stat := fun path =>
       if String.eqb path "/home/u/.ssh/id_rsa" then inl {| Os.IsDir := false |}
       else if String.eqb path "/home/u/.ssh" then inl {| Os.IsDir := true |}
       else inr noSuchFile;
     Os.ReadFile := fun path =>
       if String.eqb path "/etc/winrm/client.pem" then inl [Byte.x2d; Byte.x2d]
       else inr noSuchFile;
     Os.SSHConfigGetAll := fun host key =>
       if String.eqb key "IdentityFile" then ["~/.ssh/id_rsa"; "~/.ssh/id_missing"]
       else if String.eqb key "UserKnownHostsFile" then knownHosts
       else [] |}.

Definition sampleHostkeys : Ssh.HostkeyWorld :=
  {| Ssh.DefaultKnownHostsPath := "~/.ssh/known_hosts";
     Ssh.knownHostsFile := fun _ _ => None |}.

Definition sampleSSH (hostKey : string) : Ssh.SSH :=
  Ssh.mkSSH "10.0.0.1" "root" 22 None hostKey None false false false None [].

(** A session that runs the command, writes [stderr] lines and leaves with
    [status]. *)
Definition sshScript (stderr : list string) (status : Z) : Ssh.Script :=
  {| Ssh.newSession := None; Ssh.requestPty := None; Ssh.start := None;
     Ssh.writeStdin := None; Ssh.stdoutLines := []; Ssh.stderrLines := stderr;
     Ssh.stderrScanErr := None; Ssh.exit := Ssh.ExitStatus status |}.

Definition winrmScript (stderr : list string) (code : Z) : Winrm.Script :=
  {| Winrm.createShell := None; Winrm.execute := None; Winrm.stdoutLines := [];
     Winrm.stderrLines := stderr; Winrm.stderrScanErr := None;
     Winrm.exitCode := code |}.

(** A connected SSH transport, with what it knows of the remote OS. *)
Definition sshConnected (know windows : bool) : Ssh.SSH :=
  Ssh.mkSSH "10.0.0.1" "root" 22 None EmptyString None windows know true
            (Some {| Ssh.ServerVersion := "SSH-2.0-OpenSSH_9.6" |}) [].

Definition withStdin (data : string) (allow : bool) : Exec.Options :=
  {| Exec.Stdin := data; Exec.AllowWinStderr := allow;
     Exec.Writer := false; Exec.Command := fun cmd => (cmd, None) |}.

(** A WinRM host description: NTLM asked for, HTTPS on, a client
    certificate on disk. *)
Definition sampleWinRM (ntlm https : bool) (certPath : string) : Winrm.WinRM :=
  Winrm.mkWinRM "10.0.0.2" "Administrator" 5986 "secret" https false ntlm
                EmptyString certPath EmptyString EmptyString None [] [] [] None.

Definition sampleNet : Ssh.NetWorld :=
  {| Ssh.tagError := None; Ssh.agentSigners := ["agent-key"];
     Ssh.keyAuth := fun path => inl (Ssh.PublicKeys [path]);
     Ssh.dial := fun _ => inl {| Ssh.ServerVersion := "SSH-2.0-OpenSSH_9.6" |};
     Ssh.bastionDial := fun _ => None;
     Ssh.newClientConn := fun _ => inl {| Ssh.ServerVersion := "SSH-2.0-OpenSSH_9.6" |} |}.

Definition sampleWinrmWorld : Winrm.World :=
  {| Winrm.homedirExpand := fun path => inl path;
     Winrm.newClient := fun _ _ => None;
     Winrm.probe := None |}.

(** A connected WinRM transport. *)
Definition winrmConnected : Winrm.WinRM :=
  Winrm.mkWinRM "10.0.0.2" "Administrator" 5985 "secret" false false false
                EmptyString EmptyString EmptyString EmptyString None [] [] []
                (Some {| Winrm.endpoint :=
                           {| Winrm.epHost := "10.0.0.2"; Winrm.epPort := 5985;
                              Winrm.epHTTPS := false; Winrm.epInsecure := false;
                              Winrm.epTLSServerName := EmptyString;
                              Winrm.epTimeoutSeconds := 60;
                              Winrm.epCACert := []; Winrm.epCert := [];
                              Winrm.epKey := [] |};
                         Winrm.params := WinrmLib.DefaultParameters;
                         Winrm.http := WinrmLib.ClientRequest |}).

(** The surroundings of a connection: every remote command leaves with
    [status] after writing [stderr]; the OS probe answers [probe]. *)
Definition sampleWorld (stderr : list string) (status : Z)
           (probe : Conn.OSVersion + error) : Conn.World :=
  {| Conn.os := sampleOs None [];
     Conn.hostkeys := sampleHostkeys;
     Conn.net := sampleNet;
     Conn.winrm := sampleWinrmWorld;
     Conn.tagError := None;
     Conn.sshRemote := fun _ => sshScript stderr status;
     Conn.winrmRemote := fun _ => winrmScript stderr status;
     Conn.localConnect := None;
     Conn.localExec := fun _ => None;
     Conn.localWindows := false;
     Conn.GetOSVersion := probe;
     Conn.sudoCheckOrder := sudoChecks |}.

(** A connection over an SSH transport that is connected. *)
Definition overSSH (x : Ssh.SSH) : Conn.Connection :=
  Conn.mkConnection None (Some x) None None (Some Conn.AtSSH) None None.

(** A host described by its SSH transport alone, before any call. *)
Definition describedBySSH (x : Ssh.SSH) : Conn.Connection :=
  Conn.mkConnection None (Some x) None None None None None.

(** A connection over a WinRM transport. *)
Definition overWinRM (x : Winrm.WinRM) (h : option Conn.Handle) : Conn.Connection :=
  Conn.mkConnection (Some x) None None None h None None.

(** An upload whose remote side reports [remoteSum] for the file. *)
Definition sampleUpload (remoteSum : string) : Conn.UploadWorld :=
  {| Conn.osOpen := fun _ => inl {| Conn.statSizeMode := inl (0%Z, 420%Z) |};
     Conn.openFile := fun _ _ _ => None;
     Conn.copyFromN := fun _ _ => ([], None);
     Conn.remoteSha256 := fun _ _ => inl remoteSum |}.

(** The SHA-256 digest of the empty input, in hexadecimal. *)
Definition emptyDigest : string :=
  "e3b0c44298fc1c149afbf4c8996fb92427ae41e4649b934ca495991b7852b855".

Definition probeFailure : error := Foreign "unable to determine host os".

(** The check passes on the connection: [Exec] of it returns nil. *)
Definition passes (w : Conn.World) (c : Conn.Connection) (check : string) : bool :=
  match Conn.Exec w c check Ssh.noOptions with
  | Go.Done None => true
  | _ => false
  end.

(** The rewriter of the first check that passes, in the given order. *)
Definition firstPass (w : Conn.World) (c : Conn.Connection)
           (checks : list (string * sudofn)) : option sudofn :=
  option_map snd (find (fun cf => passes w c (fst cf)) checks).

(** The checks [configureSudo] runs for an OS. *)
Definition checksFor (w : Conn.World) (v : Conn.OSVersion)
  : list (string * sudofn) :=
  if String.eqb (Conn.ID v) "windows"
  then [(sudoCheckWindows, sudoWindows)]
  else Conn.sudoCheckOrder w.

(** A network on which no dial succeeds. *)
Definition unreachableNet : Ssh.NetWorld :=
  {| Ssh.tagError := None; Ssh.agentSigners := ["agent-key"];
     Ssh.keyAuth := fun path => inl (Ssh.PublicKeys [path]);
     Ssh.dial := fun _ => inr (Foreign "connection refused");
     Ssh.bastionDial := fun _ => Some (Foreign "connection refused");
     Ssh.newClientConn := fun _ => inr (Foreign "connection refused") |}.

Definition unreachableWorld : Conn.World :=
  {| Conn.os := sampleOs None [];
     Conn.hostkeys := sampleHostkeys;
     Conn.net := unreachableNet;
     Conn.winrm := sampleWinrmWorld;
     Conn.tagError := None;
     Conn.sshRemote := fun _ => sshScript [] 0;
     Conn.winrmRemote := fun _ => winrmScript [] 0;
     Conn.localConnect := None;
     Conn.localExec := fun _ => None;
     Conn.localWindows := false;
     Conn.GetOSVersion := inl {| Conn.ID := "linux" |};
     Conn.sudoCheckOrder := sudoChecks |}.

(** A network on which every handshake meets a changed host key. *)
Definition mismatchNet : Ssh.NetWorld :=
  {| Ssh.tagError := None; Ssh.agentSigners := ["agent-key"];
     Ssh.keyAuth := fun path => inl (Ssh.PublicKeys [path]);
     Ssh.dial := fun _ => inr (Sentinel ErrHostKeyMismatch);
     Ssh.bastionDial := fun _ => None;
     Ssh.newClientConn := fun _ => inr (Sentinel ErrHostKeyMismatch) |}.


(** * Properties *)

(** ** The sudo rewriter *)

Section SudoFacts.







End SudoFacts.




(** Scenario S4 of the specification, on the code. *)
Example sudoSudo_S4 :
  sudoSudo "FOO=1 BAR=2 ls /root" = "sudo -s FOO=1 BAR=2 -- ls /root".
Proof. reflexivity. Qed.

(** A part with an unsafe byte is wrapped. *)
Example sudoSudo_wraps_unsafe :
  sudoSudo "A=1 echo 'x y'" = "sudo -s A=1 -- echo 'x y'".
Proof. reflexivity. Qed.

(** Without a leading assignment the command is passed on as it is. *)
Example sudoSudo_plain :
  sudoSudo "ls 'x y'" = "sudo -s -- ls 'x y'".
Proof. reflexivity. Qed.

(** ** Path expansion *)

Section PathFacts.

Variable w : Os.World.

Lemma expandPath_empty :
  expandPath w EmptyString = Go.Panic Go.index_out_of_range.
Proof. reflexivity. Qed.

Lemma expandPath_total (path : string) :
  path <> EmptyString -> exists r, expandPath w path = Go.Done r.
Proof.
  intros Hne. destruct path as [|c0 rest]; [contradiction|].
  unfold expandPath. simpl Go.byteAt. simpl Go.bind.
  destruct (negb (Ascii.eqb c0 tilde)); [eexists; reflexivity|].
  destruct rest as [|c1 rest]; simpl; [eexists; reflexivity|].
  destruct (negb (Ascii.eqb c1 slash)); [eexists; reflexivity|].
  destruct homeDir as [home [err|]]; eexists; reflexivity.
Qed.

Lemma length_zero (path : string) :
  Nat.eqb (String.length path) 0 = true <-> path = EmptyString.
Proof.
  destruct path; simpl; split; intros H; try reflexivity; discriminate.
Qed.

(** [expandAndValidatePath] always returns, and with an error it returns
    the empty string. *)
Lemma expandAndValidatePath_returns (path : string) :
  exists r, expandAndValidatePath w path = Go.Done r
            /\ (snd r <> None -> fst r = EmptyString).
Proof.
  unfold expandAndValidatePath.
  destruct (Nat.eqb (String.length path) 0) eqn:E.
  - eexists; split; [reflexivity|reflexivity].
  - assert (Hne : path <> EmptyString).
    { intros ->. discriminate. }
    destruct (expandPath_total path Hne) as [[p [err|]] ->]; simpl.
    + eexists; split; reflexivity.
    + destruct (Os.Stat w p) as [stat|err].
      * destruct (Os.IsDir stat); eexists; split;
          try reflexivity; simpl; congruence.
      * eexists; split; reflexivity.
Qed.

Lemma validates_false (path : string) :
  validates w path = false ->
  exists err, expandAndValidatePath w path = Go.Done (EmptyString, Some err).
Proof.
  unfold validates.
  destruct (expandAndValidatePath_returns path) as [[p [err|]] [-> Hval]];
    intros H; [|discriminate].
  simpl in Hval. rewrite Hval by discriminate. eexists; reflexivity.
Qed.

Lemma validates_true (path : string) :
  validates w path = true ->
  exists p, expandAndValidatePath w path = Go.Done (p, None).
Proof.
  unfold validates.
  destruct (expandAndValidatePath w path) as [[p [err|]]|]; intros H;
    try discriminate.
  eexists; reflexivity.
Qed.

Lemma collectDummy_appends_failures (files : list string) :
  forall paths,
    collectDummy w files paths =
    Go.Done (paths ++ map (fun _ => EmptyString)
                          (filter (fun p => negb (validates w p)) files))%list.
Proof.
  induction files as [|keyPath rest IH]; intros paths; simpl.
  - rewrite app_nil_r. reflexivity.
  - destruct (validates w keyPath) eqn:V; simpl.
    + destruct (validates_true _ V) as [p ->]. simpl. apply IH.
    + destruct (validates_false _ V) as [err ->]. simpl.
      rewrite IH, <- app_assoc. reflexivity.
Qed.

(** The loop over the known-hosts entries. *)
Lemma firstExpandable_skips (skipped rest : list string) :
  Forall (refused w) skipped ->
  Ssh.firstExpandable w (skipped ++ rest) = Ssh.firstExpandable w rest.
Proof.
  induction 1 as [|f more [p [err Hf]] _ IH]; simpl; [reflexivity|].
  rewrite Hf. simpl. exact IH.
Qed.

Lemma firstExpandable_none (files : list string) :
  Forall (refused w) files ->
  Ssh.firstExpandable w files = Go.Done EmptyString.
Proof.
  intros H. rewrite <- (app_nil_r files).
  rewrite firstExpandable_skips by assumption. reflexivity.
Qed.

Lemma firstExpandable_finds (skipped more : list string) (f exp : string) :
  Forall (refused w) skipped ->
  expandPath w f = Go.Done (exp, None) ->
  Ssh.firstExpandable w (skipped ++ f :: more) = Go.Done exp.
Proof.
  intros Hs Hf. rewrite firstExpandable_skips by assumption.
  simpl. rewrite Hf. reflexivity.
Qed.

Lemma firstExpandable_empty_entry (skipped more : list string) :
  Forall (refused w) skipped ->
  Ssh.firstExpandable w (skipped ++ EmptyString :: more)
  = Go.Panic Go.index_out_of_range.
Proof.
  intros Hs. rewrite firstExpandable_skips by assumption. reflexivity.
Qed.

End PathFacts.

Lemma isEmpty_true (s : string) : s = EmptyString -> Go.isEmpty s = true.
Proof. intros ->. reflexivity. Qed.

Lemma isEmpty_false (s : string) : s <> EmptyString -> Go.isEmpty s = false.
Proof. destruct s; [contradiction|reflexivity]. Qed.

(** C10.  [expandPath] reads the first byte of its argument before anything
    else: on the empty string it panics, on any other string it returns a
    path or an error.  [expandAndValidatePath] refuses the empty string
    before it calls [expandPath] and so always returns.  [hostkeyCallback]
    hands each known-hosts entry and the default path to [expandPath] with no
    such test: an empty entry reached by the loop, or an empty default path
    when no entry expands, panics. *)
Theorem expandPath_partial_on_empty :
  forall (w : Os.World),
    expandPath w EmptyString = Go.Panic Go.index_out_of_range
    /\ (forall path, path <> EmptyString ->
          exists r, expandPath w path = Go.Done r)
    /\ expandAndValidatePath w EmptyString
       = Go.Done (EmptyString, Some (Wrapf ErrInvalidPath "path is empty"))
    /\ (forall path, exists r, expandAndValidatePath w path = Go.Done r)
    /\ (forall (hw : Ssh.HostkeyWorld) (c : Ssh.SSH) skipped more,
          Ssh.HostKey c = EmptyString ->
          Ssh.KnownHostsPathFromEnv w = None ->
          Shlex.Split (Go.Join (Ssh.getConfigAll w c "UserKnownHostsFile") " ")
          = ((skipped ++ EmptyString :: more)%list, None) ->
          Forall (refused w) skipped ->
          Ssh.hostkeyCallback w hw c = Go.Panic Go.index_out_of_range)
    /\ (forall (hw : Ssh.HostkeyWorld) (c : Ssh.SSH) files,
          Ssh.HostKey c = EmptyString ->
          Ssh.KnownHostsPathFromEnv w = None ->
          Shlex.Split (Go.Join (Ssh.getConfigAll w c "UserKnownHostsFile") " ")
          = (files, None) ->
          Forall (refused w) files ->
          Ssh.DefaultKnownHostsPath hw = EmptyString ->
          Ssh.hostkeyCallback w hw c = Go.Panic Go.index_out_of_range).
Proof.
  intros w. split; [reflexivity|]. split; [apply expandPath_total|].
  split; [reflexivity|]. split.
  { intros path. destruct (expandAndValidatePath_returns w path) as [r [H _]].
    exists r; exact H. }
  split.
  - intros hw c skipped more Hkey Henv Hsplit Hskip.
    unfold Ssh.hostkeyCallback. rewrite (isEmpty_true _ Hkey). simpl negb. cbv iota.
    rewrite Henv, Hsplit, firstExpandable_empty_entry by assumption. reflexivity.
  - intros hw c files Hkey Henv Hsplit Hall Hdef.
    unfold Ssh.hostkeyCallback. rewrite (isEmpty_true _ Hkey). simpl negb. cbv iota.
    rewrite Henv, Hsplit, firstExpandable_none by assumption.
    simpl. rewrite Hdef. reflexivity.
Qed.

(** A known-hosts entry written as two apostrophes is an empty word for the
    lexer, and the host key policy panics on it. *)
Lemma expandPath_partial_on_empty_witness :
  Shlex.Split "''" = ([EmptyString], None)
  /\ Ssh.hostkeyCallback (sampleOs None ["''"]) sampleHostkeys
       (sampleSSH EmptyString)
     = Go.Panic Go.index_out_of_range.
Proof.
  split; [reflexivity|].
  destruct (expandPath_partial_on_empty (sampleOs None ["''"]))
    as (_ & _ & _ & _ & H & _).
  apply (H sampleHostkeys (sampleSSH EmptyString) [] []);
    [reflexivity|reflexivity|reflexivity|constructor].
Defined.

(** ** The global defaults *)

(** C9 on the code.  [initGlobalDefaults] appends to [dummyhostKeyPaths] one
    empty string for each identity file of the dummy host that fails to
    expand or validate, and nothing for a file that validates: the test on
    [err] is the opposite of the one in [SetDefaults].  With the sample
    configuration, whose first identity file exists and whose second one is
    missing, the set ends as one empty string and the existing key
    [/home/u/.ssh/id_rsa] is not in it. *)
Theorem initGlobalDefaults_appends_on_failure :
  (forall (w : Os.World) (g : Globals),
      initGlobalDefaults w g =
      Go.Done
        {| dummyhostKeyPaths :=
             (dummyhostKeyPaths g
                ++ map (fun _ => EmptyString)
                     (filter (fun p => negb (validates w p))
                        (Os.SSHConfigGetAll w hopefullyNonexistentHost
                           "IdentityFile")))%list;
           globalOnce := globalOnce g;
           winrmDefaultParameters := winrmDefaultParameters g |})
  /\ validates (sampleOs None []) "~/.ssh/id_rsa" = true
  /\ validates (sampleOs None []) "~/.ssh/id_missing" = false
  /\ initGlobalDefaults (sampleOs None []) processStart
     = Go.Done {| dummyhostKeyPaths := [EmptyString]; globalOnce := false;
                  winrmDefaultParameters := WinrmLib.DefaultParameters |}.
Proof.
  split; [|repeat split; reflexivity].
  intros w g. unfold initGlobalDefaults.
  rewrite collectDummy_appends_failures. reflexivity.
Qed.

(** [SetDefaults] appends on success: the sibling loop. *)
Example usable_appends_on_success :
  Ssh.usable (sampleOs None []) ["~/.ssh/id_rsa"; "~/.ssh/id_missing"] []
  = Go.Done ["/home/u/.ssh/id_rsa"].
Proof. reflexivity. Qed.

(** The once-guard: a second [globalOnce.Do] leaves the set alone. *)
Lemma globalOnceDo_once (w : Os.World) (g g1 : Globals) :
  globalOnceDo w g = Go.Done g1 ->
  globalOnce g1 = true /\ globalOnceDo w g1 = Go.Done g1.
Proof.
  unfold globalOnceDo, Go.onceDo. destruct g as [paths done params]; simpl.
  destruct done; simpl.
  - intros H; inversion H; subst; simpl. split; reflexivity.
  - destruct (initGlobalDefaults w _) as [g'|msg] eqn:E; simpl; intros H;
      inversion H; subst; simpl. split; reflexivity.
Qed.

(** ** Host key policy *)

(** C5.  The callback of [hostkeyCallback], by precedence.
    - A literal host key: the static callback on that key.
    - Else [SSH_KNOWN_HOSTS] present: empty, the insecure-ignore callback;
      not empty, the known-hosts-file callback on that path.
    - Else the first entry of [UserKnownHostsFile] that [expandPath]
      accepts, when its expansion is not the empty string.
    - Else (the entries do not split, none expands, or the first that
      expands gives the empty string) the expanded default path.
    The known-hosts-file callback is on the given path and carries the
    permissive flag of [StrictHostkeyChecking]. *)
Theorem hostkeyCallback_precedence :
  forall (w : Os.World) (hw : Ssh.HostkeyWorld) (c : Ssh.SSH),
    let permissive :=
      Ssh.permissiveOf (Ssh.getConfigAll w c "StrictHostkeyChecking") in
    let entries :=
      Shlex.Split (Go.Join (Ssh.getConfigAll w c "UserKnownHostsFile") " ") in
    let onDefault :=
      Go.bind (expandPath w (Ssh.DefaultKnownHostsPath hw))
        (fun r => match r with
                  | (_, Some err) => Go.Done (None, Some err)
                  | (defaultPath, None) =>
                      Go.Done (Ssh.knownhostsCallback hw defaultPath permissive)
                  end) in
    (Ssh.HostKey c <> EmptyString ->
     Ssh.hostkeyCallback w hw c
     = Go.Done (Some (Ssh.StaticKeyCallback (Ssh.HostKey c)), None))
    /\ (Ssh.HostKey c = EmptyString ->
        Ssh.KnownHostsPathFromEnv w = Some EmptyString ->
        Ssh.hostkeyCallback w hw c
        = Go.Done (Some Ssh.InsecureIgnoreHostKeyCallback, None))
    /\ (forall path,
          Ssh.HostKey c = EmptyString ->
          Ssh.KnownHostsPathFromEnv w = Some path ->
          path <> EmptyString ->
          Ssh.hostkeyCallback w hw c
          = Go.Done (Ssh.knownhostsCallback hw path permissive))
    /\ (forall skipped f more exp,
          Ssh.HostKey c = EmptyString ->
          Ssh.KnownHostsPathFromEnv w = None ->
          entries = ((skipped ++ f :: more)%list, None) ->
          Forall (refused w) skipped ->
          expandPath w f = Go.Done (exp, None) ->
          (exp <> EmptyString ->
           Ssh.hostkeyCallback w hw c
           = Go.Done (Ssh.knownhostsCallback hw exp permissive))
          /\ (exp = EmptyString -> Ssh.hostkeyCallback w hw c = onDefault))
    /\ (Ssh.HostKey c = EmptyString ->
        Ssh.KnownHostsPathFromEnv w = None ->
        snd entries <> None \/ Forall (refused w) (fst entries) ->
        Ssh.hostkeyCallback w hw c = onDefault)
    /\ (forall path p,
          Ssh.knownHostsFile hw path p = None ->
          Ssh.knownhostsCallback hw path p
          = (Some (Ssh.KnownHostsFileCallback path p), None))
    /\ (forall defaultPath,
          expandPath w (Ssh.DefaultKnownHostsPath hw) = Go.Done (defaultPath, None) ->
          onDefault = Go.Done (Ssh.knownhostsCallback hw defaultPath permissive)).
Proof.
  intros w hw c permissive entries onDefault.
  assert (Hstart : Ssh.HostKey c = EmptyString ->
                   Ssh.KnownHostsPathFromEnv w = None ->
                   forall khPath,
                     match entries with
                     | (files, None) => Ssh.firstExpandable w files
                     | (_, Some _) => Go.Done EmptyString
                     end = Go.Done khPath ->
                     Ssh.hostkeyCallback w hw c =
                     if negb (Go.isEmpty khPath)
                     then Go.Done (Ssh.knownhostsCallback hw khPath permissive)
                     else onDefault).
  { intros Hkey Henv khPath Hloop. unfold Ssh.hostkeyCallback.
    rewrite (isEmpty_true _ Hkey). simpl negb. cbv iota.
    rewrite Henv. fold entries. rewrite Hloop. reflexivity. }
  split; [|split; [|split; [|split; [|split; [|split]]]]].
  - intros Hkey. unfold Ssh.hostkeyCallback.
    rewrite (isEmpty_false _ Hkey). reflexivity.
  - intros Hkey Henv. unfold Ssh.hostkeyCallback.
    rewrite (isEmpty_true _ Hkey), Henv. reflexivity.
  - intros path Hkey Henv Hpath. unfold Ssh.hostkeyCallback.
    rewrite (isEmpty_true _ Hkey), Henv, (isEmpty_false _ Hpath). reflexivity.
  - intros skipped f more exp Hkey Henv Hentries Hskip Hf.
    assert (Hloop : match entries with
                    | (files, None) => Ssh.firstExpandable w files
                    | (_, Some _) => Go.Done EmptyString
                    end = Go.Done exp).
    { rewrite Hentries. apply firstExpandable_finds; assumption. }
    rewrite (Hstart Hkey Henv exp Hloop). split; intros Hexp.
    + rewrite (isEmpty_false _ Hexp). reflexivity.
    + rewrite (isEmpty_true _ Hexp). reflexivity.
  - intros Hkey Henv Hnone. rewrite (Hstart Hkey Henv EmptyString); [reflexivity|].
    destruct entries as [files [err|]]; [reflexivity|].
    destruct Hnone as [Hnone|Hnone]; [contradiction|].
    apply firstExpandable_none; assumption.
  - intros path p Hok. unfold Ssh.knownhostsCallback. rewrite Hok. reflexivity.
  - intros defaultPath Hdef. unfold onDefault. rewrite Hdef. reflexivity.
Qed.

(** The four rows on the sample surroundings: a literal key; the variable
    set, empty and not; a configured file after an entry that does not
    expand; nothing configured. *)
Lemma hostkeyCallback_precedence_witness :
  Ssh.hostkeyCallback (sampleOs (Some "/env/kh") ["~/cfg_kh"]) sampleHostkeys
    (sampleSSH "ssh-ed25519 AAAA")
  = Go.Done (Some (Ssh.StaticKeyCallback "ssh-ed25519 AAAA"), None)
  /\ Ssh.hostkeyCallback (sampleOs (Some EmptyString) ["~/cfg_kh"]) sampleHostkeys
       (sampleSSH EmptyString)
     = Go.Done (Some Ssh.InsecureIgnoreHostKeyCallback, None)
  /\ Ssh.hostkeyCallback (sampleOs (Some "/env/kh") ["~/cfg_kh"]) sampleHostkeys
       (sampleSSH EmptyString)
     = Go.Done (Some (Ssh.KnownHostsFileCallback "/env/kh" false), None)
  /\ Ssh.hostkeyCallback (sampleOs None ["~bob/kh ~/cfg_kh"; "/etc/kh"])
       sampleHostkeys (sampleSSH EmptyString)
     = Go.Done (Some (Ssh.KnownHostsFileCallback "/home/u/cfg_kh" false), None)
  /\ Ssh.hostkeyCallback (sampleOs None []) sampleHostkeys (sampleSSH EmptyString)
     = Go.Done (Some (Ssh.KnownHostsFileCallback "/home/u/.ssh/known_hosts" false),
                None).
Proof.
  split; [|split; [|split; [|split]]].
  - apply (hostkeyCallback_precedence
             (sampleOs (Some "/env/kh") ["~/cfg_kh"]) sampleHostkeys
             (sampleSSH "ssh-ed25519 AAAA")).
    discriminate.
  - apply (hostkeyCallback_precedence
             (sampleOs (Some EmptyString) ["~/cfg_kh"]) sampleHostkeys
             (sampleSSH EmptyString)); reflexivity.
  - destruct (hostkeyCallback_precedence
                (sampleOs (Some "/env/kh") ["~/cfg_kh"]) sampleHostkeys
                (sampleSSH EmptyString)) as (_ & _ & H & _).
    rewrite (H "/env/kh"); [reflexivity|reflexivity|reflexivity|discriminate].
  - destruct (hostkeyCallback_precedence
                (sampleOs None ["~bob/kh ~/cfg_kh"; "/etc/kh"]) sampleHostkeys
                (sampleSSH EmptyString)) as (_ & _ & _ & H & _).
    assert (Hskip : Forall (refused (sampleOs None ["~bob/kh ~/cfg_kh"; "/etc/kh"]))
                           ["~bob/kh"]).
    { repeat constructor. eexists; eexists; reflexivity. }
    apply (proj1 (H ["~bob/kh"] "~/cfg_kh" ["/etc/kh"] "/home/u/cfg_kh"
                    eq_refl eq_refl eq_refl Hskip eq_refl)).
    discriminate.
  - destruct (hostkeyCallback_precedence
                (sampleOs None []) sampleHostkeys
                (sampleSSH EmptyString)) as (_ & _ & _ & _ & H & _).
    rewrite H; [reflexivity|reflexivity|reflexivity|right; constructor].
Defined.

(** ** The exec engine *)

Section ExecFacts.

Lemma stderrPump_lines (lines : list string) (scanErr : option error) :
  lines <> [] -> Ssh.stderrPump lines scanErr = true.
Proof.
  intros Hne. unfold Ssh.stderrPump.
  destruct scanErr; [reflexivity|].
  destruct lines as [|l rest]; [contradiction|]. simpl. clear Hne.
  induction rest as [|l' rest IH]; simpl; [reflexivity|exact IH].
Qed.

Lemma stderrPump_silent : Ssh.stderrPump [] None = false.
Proof. reflexivity. Qed.

Lemma sessionWait_nonzero (n : Z) :
  n <> 0%Z ->
  Ssh.sessionWait (Ssh.ExitStatus n)
  = Some (Foreign ("Process exited with status " ++ Go.Itoa n)).
Proof. intros Hn. destruct n; [contradiction|reflexivity|reflexivity]. Qed.

Lemma length_positive (s : string) :
  s <> EmptyString ->
  Nat.eqb (String.length s) 0 = false /\ Nat.ltb 0 (String.length s) = true.
Proof. destruct s; [contradiction|split; reflexivity]. Qed.

End ExecFacts.

(** Splits on what the options and the transport say, then evaluates the
    session. *)
Ltac session_cases c o :=
  destruct (Ssh.knowOs c), (Ssh.isWindows c), (Exec.AllowWinStderr o),
    (Exec.Stdin o); simpl.

(** C2.  An SSH [Exec] whose session opens, starts, takes the stdin payload
    and ends with exit status zero, after at least one line on stderr:
    on a host known to be Windows with [AllowWinStderr] off the result is the
    command-failed error [data in stderr]; with [AllowWinStderr] on, or on a
    host that is not Windows or whose OS is not known, the result is nil. *)
Theorem ssh_exec_windows_stderr :
  forall (s : Ssh.Script) (c : Ssh.SSH) (cmd cmd' : string)
         (o : Exec.Options) (cl : Ssh.Client),
    Ssh.client c = Some cl ->
    Ssh.newSession s = None ->
    Exec.Command o cmd = (cmd', None) ->
    Ssh.requestPty s = None ->
    Ssh.start s = None ->
    Ssh.writeStdin s = None ->
    Ssh.exit s = Ssh.ExitStatus 0 ->
    Ssh.stderrLines s <> [] ->
    (Ssh.knowOs c = true -> Ssh.isWindows c = true ->
     Exec.AllowWinStderr o = false ->
     exists calls e,
       Ssh.Exec s c cmd o = Go.Done (calls, Some e)
       /\ e = Wrapf ErrCommandFailed "data in stderr"
       /\ Is e ErrCommandFailed = true)
    /\ (Exec.AllowWinStderr o = true \/ Ssh.isWindows c = false
        \/ Ssh.knowOs c = false ->
        exists calls, Ssh.Exec s c cmd o = Go.Done (calls, None)).
Proof.
  intros s c cmd cmd' o cl Hcl Hns Hcmd Hpty Hstart Hwrite Hexit Hlines.
  unfold Ssh.Exec, Ssh.inSession.
  rewrite Hcl, Hns, Hcmd, Hpty, Hstart, Hwrite, Hexit.
  rewrite (stderrPump_lines _ _ Hlines).
  split.
  - intros Hk Hw Ha. rewrite Hk, Hw, Ha.
    destruct (Exec.Stdin o); simpl; do 2 eexists; repeat split; reflexivity.
  - intros Hor. session_cases c o; try (eexists; reflexivity);
      destruct Hor as [H|[H|H]]; discriminate.
Qed.

(** On a known Windows host, a zero exit with one stderr line fails; with
    the option on, it does not. *)
Lemma ssh_exec_windows_stderr_witness :
  (exists calls e,
      Ssh.Exec (sshScript ["warning"] 0) (sshConnected true true) "dir"
        (withStdin EmptyString false) = Go.Done (calls, Some e)
      /\ e = Wrapf ErrCommandFailed "data in stderr"
      /\ Is e ErrCommandFailed = true)
  /\ (exists calls,
        Ssh.Exec (sshScript ["warning"] 0) (sshConnected true true) "dir"
          (withStdin EmptyString true) = Go.Done (calls, None)).
Proof.
  split.
  - apply (ssh_exec_windows_stderr (sshScript ["warning"] 0)
             (sshConnected true true) "dir" "dir" (withStdin EmptyString false)
             {| Ssh.ServerVersion := "SSH-2.0-OpenSSH_9.6" |});
      try reflexivity; discriminate.
  - apply (ssh_exec_windows_stderr (sshScript ["warning"] 0)
             (sshConnected true true) "dir" "dir" (withStdin EmptyString true)
             {| Ssh.ServerVersion := "SSH-2.0-OpenSSH_9.6" |});
      try reflexivity; try discriminate.
    left; reflexivity.
Defined.

(** C3 on the code.  An SSH [Exec] whose session opens and whose command
    builds asks the session for a PTY exactly when the OS is known, is not
    Windows, and the options carry no stdin payload; the request names the
    terminal [xterm] and the one mode [ECHO] = 0.  This much of the claim
    holds.  The size does not: [RequestPty] takes the height before the
    width, and [Exec] passes [ptyWidth] = 80 where the height goes and
    [ptyHeight] = 40 where the width goes.  Every PTY request of [Exec] is
    for 40 columns and 80 rows, not for the 80 columns and 40 rows the two
    constants name. *)
Theorem ssh_exec_pty_swaps_dimensions :
  forall (s : Ssh.Script) (c : Ssh.SSH) (cmd cmd' : string)
         (o : Exec.Options) (cl : Ssh.Client),
    Ssh.client c = Some cl ->
    Ssh.newSession s = None ->
    Exec.Command o cmd = (cmd', None) ->
    exists calls r,
      Ssh.Exec s c cmd o = Go.Done (calls, r)
      /\ (requestsPty calls <->
          Ssh.knowOs c = true /\ Ssh.isWindows c = false
          /\ Exec.Stdin o = EmptyString)
      /\ (forall term h w modes,
            In (Ssh.RequestPty term h w modes) calls ->
            term = "xterm" /\ modes = [(Ssh.ECHO, 0%Z)]
            /\ ptyRows (Ssh.RequestPty term h w modes) = Some Ssh.ptyWidth
            /\ ptyColumns (Ssh.RequestPty term h w modes) = Some Ssh.ptyHeight
            /\ ptyRows (Ssh.RequestPty term h w modes) = Some 80%Z
            /\ ptyColumns (Ssh.RequestPty term h w modes) = Some 40%Z
            /\ ptyColumns (Ssh.RequestPty term h w modes) <> Some Ssh.ptyWidth
            /\ ptyRows (Ssh.RequestPty term h w modes) <> Some Ssh.ptyHeight).
Proof.
  intros s c cmd cmd' o cl Hcl Hns Hcmd.
  unfold Ssh.Exec, Ssh.inSession, requestsPty.
  rewrite Hcl, Hns, Hcmd.
  destruct (Ssh.requestPty s), (Ssh.start s), (Ssh.writeStdin s),
    (Ssh.sessionWait (Ssh.exit s)),
    (Ssh.stderrPump (Ssh.stderrLines s) (Ssh.stderrScanErr s));
    session_cases c o;
    (do 2 eexists; split; [reflexivity|]);
    (split; [split|]);
    try (intros (term & h & w0 & modes & Hin); simpl in Hin;
         repeat (destruct Hin as [Hin|Hin]; try discriminate Hin);
         try contradiction; repeat split; reflexivity);
    try (intros (Hk & Hw & Hs); discriminate);
    try (intros _; exists "xterm", Ssh.ptyWidth, Ssh.ptyHeight, [(Ssh.ECHO, 0%Z)];
         simpl; right; left; reflexivity);
    try (intros term h w0 modes Hin; simpl in Hin;
         repeat (destruct Hin as [Hin|Hin]; try discriminate Hin);
         try contradiction; inversion Hin; subst;
         repeat split; try reflexivity; discriminate).
Qed.

(** [Exec("ls")] on a connected Unix host whose OS is known, with no
    stdin: the PTY asked for has 40 columns and 80 rows. *)
Lemma ssh_exec_pty_swaps_dimensions_witness :
  exists calls r,
    Ssh.Exec (sshScript [] 0) (sshConnected true false) "ls"
      (withStdin EmptyString false) = Go.Done (calls, r)
    /\ In (Ssh.RequestPty "xterm" 80 40 [(Ssh.ECHO, 0%Z)]) calls
    /\ ptyColumns (Ssh.RequestPty "xterm" 80 40 [(Ssh.ECHO, 0%Z)]) = Some 40%Z
    /\ ptyRows (Ssh.RequestPty "xterm" 80 40 [(Ssh.ECHO, 0%Z)]) = Some 80%Z.
Proof.
  destruct (ssh_exec_pty_swaps_dimensions (sshScript [] 0)
              (sshConnected true false) "ls" "ls" (withStdin EmptyString false)
              {| Ssh.ServerVersion := "SSH-2.0-OpenSSH_9.6" |}
              eq_refl eq_refl eq_refl)
    as (calls & r & Hrun & Hiff & Hargs).
  exists calls, r. split; [exact Hrun|].
  destruct (proj2 Hiff) as (term & h & w & modes & Hin).
  { repeat split; reflexivity. }
  destruct (Hargs _ _ _ _ Hin) as (-> & -> & Hrows & Hcols & _).
  simpl in Hrows, Hcols. inversion Hrows; inversion Hcols; subst.
  split; [exact Hin|]. split; reflexivity.
Defined.

(** Whatever the transport returns from [Exec], the dispatcher returns as
    command-failed. *)
Lemma Conn_Exec_wraps (w : Conn.World) (c : Conn.Connection) (h : Conn.Handle)
      (cmd : string) (o : Exec.Options) (err : error) :
  Conn.IsConnected c = true ->
  Conn.client c = Some h ->
  Conn.clientExec w c h cmd o = Go.Done (Some err) ->
  Conn.Exec w c cmd o = Go.Done (Some (Wrap ErrCommandFailed "client exec" err)).
Proof.
  intros Hconn Hh Hexec. unfold Conn.Exec, Conn.checkConnected.
  rewrite Hconn, Hh. simpl. rewrite Hexec. reflexivity.
Qed.

(** C8, as the code has it by design.  A non-zero exit status, positive or
    negative, is an error on these paths:
    - the waiter of WinRM [ExecStreams] returns command-failed for every exit
      code other than zero;
    - SSH [Exec] returns the error of the session wait wrapped as
      [ssh session wait], which is not itself command-failed; the
      dispatcher's [Exec] wraps it, as it wraps every error of a transport,
      as command-failed. *)
Theorem nonzero_exit_is_error :
  (forall (s : Winrm.Script) (c : Winrm.WinRM) (cmd : string)
          (o : Exec.Options) (waiter : Winrm.Command),
      Winrm.ExecStreams s c cmd o = (Some waiter, None) ->
      Winrm.exitCode s <> 0%Z ->
      exists e, Winrm.Wait waiter = Some e /\ Is e ErrCommandFailed = true)
  /\ (forall (w : Conn.World) (x : Ssh.SSH) (cmd cmd' : string)
             (o : Exec.Options) (cl : Ssh.Client) (n : Z),
         let s := Conn.sshRemote w cmd in
         Ssh.client x = Some cl ->
         Ssh.newSession s = None ->
         Exec.Command o cmd = (cmd', None) ->
         Ssh.requestPty s = None ->
         Ssh.start s = None ->
         Ssh.writeStdin s = None ->
         Ssh.exit s = Ssh.ExitStatus n ->
         n <> 0%Z ->
         exists calls cause,
           Ssh.sessionWait (Ssh.ExitStatus n) = Some cause
           /\ Ssh.Exec s x cmd o
              = Go.Done (calls, Some (Errorf "ssh session wait" cause))
           /\ Is (Errorf "ssh session wait" cause) ErrCommandFailed = false
           /\ Conn.Exec w (overSSH x) cmd o
              = Go.Done (Some (Wrap ErrCommandFailed "client exec"
                                 (Errorf "ssh session wait" cause)))
           /\ Is (Wrap ErrCommandFailed "client exec"
                    (Errorf "ssh session wait" cause)) ErrCommandFailed = true).
Proof.
  split.
  - intros s c cmd o waiter Hstreams Hcode.
    assert (Hw : Winrm.cmdExitCode waiter = Winrm.exitCode s).
    { unfold Winrm.ExecStreams in Hstreams.
      destruct (Winrm.client c); [|discriminate].
      destruct (Exec.Command o cmd) as [cmd' [err|]]; [discriminate|].
      destruct (Winrm.createShell s); [discriminate|].
      destruct (Winrm.execute s); [discriminate|].
      inversion Hstreams; reflexivity. }
    unfold Winrm.Wait. rewrite Hw.
    destruct (Z.eqb_spec (Winrm.exitCode s) 0); [contradiction|].
    simpl. eexists; split; reflexivity.
  - intros w x cmd cmd' o cl n s Hcl Hns Hcmd Hpty Hstart Hwrite Hexit Hn.
    assert (Hrun : exists calls,
               Ssh.Exec s x cmd o
               = Go.Done (calls,
                          Some (Errorf "ssh session wait"
                                  (Foreign ("Process exited with status "
                                              ++ Go.Itoa n))))).
    { unfold Ssh.Exec, Ssh.inSession.
      rewrite Hcl, Hns, Hcmd, Hpty, Hstart, Hwrite, Hexit.
      rewrite (sessionWait_nonzero n Hn).
      session_cases x o; eexists; reflexivity. }
    destruct Hrun as [calls Hrun].
    exists calls, (Foreign ("Process exited with status " ++ Go.Itoa n)).
    split; [apply sessionWait_nonzero; assumption|].
    split; [exact Hrun|]. split; [reflexivity|]. split; [|reflexivity].
    apply (Conn_Exec_wraps w (overSSH x) Conn.AtSSH).
    + unfold Conn.IsConnected, Ssh.IsConnected; simpl. unfold Ssh.IsConnected.
      rewrite Hcl. reflexivity.
    + reflexivity.
    + simpl. fold s. rewrite Hrun. reflexivity.
Qed.

(** Exit code 3 and exit code -1 at the waiter, exit status 3 over SSH. *)
Lemma nonzero_exit_is_error_witness :
  (exists e, Winrm.Wait {| Winrm.cmdExitCode := 3 |} = Some e
             /\ Is e ErrCommandFailed = true)
  /\ (exists e, Winrm.Wait {| Winrm.cmdExitCode := -1 |} = Some e
                /\ Is e ErrCommandFailed = true)
  /\ (exists e, Conn.Exec (sampleWorld [] 3 (inl {| Conn.ID := "linux" |}))
                  (overSSH (sshConnected true false)) "exit 3" Ssh.noOptions
                = Go.Done (Some e)
                /\ Is e ErrCommandFailed = true).
Proof.
  destruct nonzero_exit_is_error as (Hwait & Hssh).
  split; [|split].
  - apply (Hwait (winrmScript [] 3) winrmConnected "exit 3" Ssh.noOptions);
      [reflexivity|discriminate].
  - apply (Hwait (winrmScript [] (-1)) winrmConnected "exit -1" Ssh.noOptions);
      [reflexivity|discriminate].
  - destruct (Hssh (sampleWorld [] 3 (inl {| Conn.ID := "linux" |}))
                (sshConnected true false) "exit 3" "exit 3" Ssh.noOptions
                {| Ssh.ServerVersion := "SSH-2.0-OpenSSH_9.6" |} 3%Z)
      as (calls & cause & _ & _ & _ & Hconn & His);
      try reflexivity; try discriminate.
    eexists; split; [exact Hconn|exact His].
Defined.

(** C8 as written fails for SSH [Exec]: on exit status 1 it returns an
    error that is not command-failed. *)
Lemma nonzero_exit_not_always_command_failed :
  exists calls e,
    Ssh.Exec (sshScript [] 1) (sshConnected true false) "false"
      Ssh.noOptions = Go.Done (calls, Some e)
    /\ Is e ErrCommandFailed = false.
Proof.
  do 2 eexists; split; reflexivity.
Qed.

(** ** The WinRM transport *)

(** Unfolds the sequencing and splits on every scrutinee of the hypothesis,
    dropping the branches that contradict it. *)
Ltac split_run H :=
  unfold Go.bind in H;
  repeat match type of H with
         | context [match ?x with _ => _ end] =>
             destruct x eqn:?; try discriminate H
         end.

Section WinrmFacts.

Variable w : Os.World.
Variable hw : Ssh.HostkeyWorld.
Variable nw : Ssh.NetWorld.
Variable ww : Winrm.World.

Lemma loadCertificates_ok (c c1 : Winrm.WinRM) :
  Winrm.loadCertificates w c = (c1, None) ->
  Winrm.UseNTLM c1 = Winrm.UseNTLM c
  /\ Winrm.UseHTTPS c1 = Winrm.UseHTTPS c
  /\ Winrm.readIf w (Winrm.CertPath c) = (Winrm.cert c1, None).
Proof.
  unfold Winrm.loadCertificates. cbn [Winrm.CACertPath Winrm.CertPath
    Winrm.KeyPath Winrm.set_material].
  destruct (Winrm.readIf w (Winrm.CACertPath c)) as [ca [e|]]; [discriminate|].
  destruct (Winrm.readIf w (Winrm.CertPath c)) as [crt [e|]]; [discriminate|].
  destruct (Winrm.readIf w (Winrm.KeyPath c)) as [k [e|]]; [discriminate|].
  intros H; inversion H; subst; simpl. repeat split; reflexivity.
Qed.

(** What the client talks through once [decorate] has assigned: the
    client-certificate transport over HTTPS with a certificate, else the
    NTLM transport when asked for, else what the decorator found in place
    makes, the plain transport without one. *)
Lemma decorate_transport (c : Winrm.WinRM) (params : WinrmLib.Parameters) :
  match WinrmLib.TransportDecorator (Winrm.decorate c params) with
  | Some t => t
  | None => WinrmLib.ClientRequest
  end =
  if Winrm.UseHTTPS c && Winrm.nonEmpty (Winrm.cert c)
  then WinrmLib.ClientAuthRequest
  else if Winrm.UseNTLM c then WinrmLib.ClientNTLM
       else match WinrmLib.TransportDecorator params with
            | Some t => t
            | None => WinrmLib.ClientRequest
            end.
Proof.
  unfold Winrm.decorate.
  destruct (Winrm.UseNTLM c), (Winrm.UseHTTPS c && Winrm.nonEmpty (Winrm.cert c));
    reflexivity.
Qed.

Lemma globalOnceDo_keeps_parameters (g g1 : Globals) :
  globalOnceDo w g = Go.Done g1 ->
  winrmDefaultParameters g1 = winrmDefaultParameters g.
Proof.
  unfold globalOnceDo, Go.onceDo, initGlobalDefaults.
  destruct (globalOnce g); simpl.
  - intros H; inversion H; reflexivity.
  - destruct (collectDummy w _ _); simpl; intros H; inversion H; reflexivity.
Qed.

Lemma defaultsSet_keeps_parameters (g g1 : Globals) (c c1 : Ssh.SSH)
      (r : option error) :
  Ssh.defaultsSet w nw g c = Go.Done (g1, c1, r) ->
  winrmDefaultParameters g1 = winrmDefaultParameters g.
Proof.
  unfold Ssh.defaultsSet, Ssh.SetDefaults.
  destruct (Ssh.tagError nw); [intros H; inversion H; reflexivity|].
  destruct (globalOnceDo w g) as [g2|] eqn:Hg; simpl; [|discriminate].
  destruct (Go.onceDo _ _ _) as [[done c2]|]; simpl; [|discriminate].
  intros H; inversion H; subst. eapply globalOnceDo_keeps_parameters; eassumption.
Qed.

(** The SSH transport, bastions included, never assigns through
    [winrm.DefaultParameters]. *)
Lemma Ssh_Connect_keeps_parameters :
  forall (c : Ssh.SSH) (g g1 : Globals) (c1 : Ssh.SSH) (r : option error),
    Ssh.Connect w hw nw g c = Go.Done (g1, c1, r) ->
    winrmDefaultParameters g1 = winrmDefaultParameters g.
Proof.
  fix IH 1.
  intros [addr user port kp hk bastion win know once cl kps] g g1 c1 r.
  cbn [Ssh.Connect].
  destruct (Ssh.defaultsSet w nw g _) as [[[g2 c2] d]|] eqn:Hd; simpl;
    [|discriminate].
  pose proof (defaultsSet_keeps_parameters _ _ _ _ _ Hd) as Hkeep.
  destruct d as [err|]; [intros H; inversion H; subst; exact Hkeep|].
  destruct (Ssh.clientConfig w hw nw c2) as [[cfg [err|]]|]; simpl;
    try discriminate; [intros H; inversion H; subst; exact Hkeep|].
  destruct bastion as [b|].
  - destruct (Ssh.Connect w hw nw g2 b) as [[[g3 b3] br]|] eqn:Hb; simpl;
      [|discriminate].
    pose proof (IH b _ _ _ _ Hb) as Hkeep'.
    intros H.
    assert (Hg : g1 = g3) by (split_run H; inversion H; reflexivity).
    subst g1. congruence.
  - intros H.
    assert (Hg : g1 = g2) by (split_run H; inversion H; reflexivity).
    subst g1. exact Hkeep.
Qed.

Lemma Connect_transport (g g' : Globals) (c c' : Winrm.WinRM) :
  Winrm.Connect w hw nw ww g c = Go.Done (g', c', None) ->
  exists cl,
    Winrm.client c' = Some cl
    /\ Winrm.http cl =
       (if Winrm.UseHTTPS c && Winrm.nonEmpty (Winrm.cert c')
        then WinrmLib.ClientAuthRequest
        else if Winrm.UseNTLM c then WinrmLib.ClientNTLM
             else match WinrmLib.TransportDecorator (winrmDefaultParameters g) with
                  | Some t => t
                  | None => WinrmLib.ClientRequest
                  end)
    /\ Winrm.readIf w (Winrm.CertPath c) = (Winrm.cert c', None)
    /\ Winrm.params cl = winrmDefaultParameters g'.
Proof.
  unfold Winrm.Connect.
  destruct (Winrm.loadCertificates w c) as [c1 [e|]] eqn:Hload;
    [discriminate|].
  destruct (loadCertificates_ok _ _ Hload) as (Hntlm & Hhttps & Hcert).
  rewrite <- Hntlm, <- Hhttps, Hcert. clear Hload Hntlm Hhttps Hcert.
  unfold Winrm.NewClientWithParameters.
  destruct (Winrm.Bastion c1) as [bastion|]; simpl.
  - destruct (Ssh.Connect w hw nw g bastion) as [[[g1 b1] [e|]]|] eqn:Hb; simpl;
      try discriminate.
    pose proof (Ssh_Connect_keeps_parameters _ _ _ _ _ Hb) as Hkeep.
    destruct (Winrm.newClient ww _ _); [discriminate|].
    destruct (Winrm.probe ww); [discriminate|].
    intros H; inversion H; subst; simpl.
    eexists; split; [reflexivity|]. simpl.
    rewrite decorate_transport. simpl. rewrite Hkeep.
    repeat split; reflexivity.
  - destruct (Winrm.newClient ww _ _); [discriminate|].
    destruct (Winrm.probe ww); [discriminate|].
    intros H; inversion H; subst; simpl.
    eexists; split; [reflexivity|]. simpl.
    rewrite decorate_transport. repeat split; reflexivity.
Qed.

Lemma Connect_connected (g g' : Globals) (c c' : Winrm.WinRM) :
  Winrm.Connect w hw nw ww g c = Go.Done (g', c', None) ->
  Winrm.IsConnected c' = true.
Proof.
  intros H. destruct (Connect_transport _ _ _ _ H) as (cl & Hcl & _).
  unfold Winrm.IsConnected. rewrite Hcl. reflexivity.
Qed.

End WinrmFacts.

(** C6, as the code has it.  A WinRM [Connect] that succeeds leaves a client
    with one transport.  It is the client-certificate transport when HTTPS
    is on and the certificate read from [CertPath] is not empty, whether or
    not NTLM was asked for; otherwise the NTLM transport when [UseNTLM] is
    set.  With neither, the client talks through what the decorator of the
    library's default parameters makes at that moment: the plain transport
    when they carry none, as at the start of the process. *)
Theorem winrm_transport_choice :
  forall (w : Os.World) (hw : Ssh.HostkeyWorld) (nw : Ssh.NetWorld)
         (ww : Winrm.World) (g g' : Globals) (c c' : Winrm.WinRM),
    Winrm.Connect w hw nw ww g c = Go.Done (g', c', None) ->
    Winrm.readIf w (Winrm.CertPath c) = (Winrm.cert c', None)
    /\ (exists t, transportOf c' = Some t)
    /\ (Winrm.UseHTTPS c = true -> Winrm.nonEmpty (Winrm.cert c') = true ->
        transportOf c' = Some WinrmLib.ClientAuthRequest)
    /\ (Winrm.UseNTLM c = true ->
        Winrm.UseHTTPS c = false \/ Winrm.nonEmpty (Winrm.cert c') = false ->
        transportOf c' = Some WinrmLib.ClientNTLM)
    /\ (Winrm.UseNTLM c = false ->
        Winrm.UseHTTPS c = false \/ Winrm.nonEmpty (Winrm.cert c') = false ->
        transportOf c' =
        Some match WinrmLib.TransportDecorator (winrmDefaultParameters g) with
             | Some t => t
             | None => WinrmLib.ClientRequest
             end)
    /\ winrmDefaultParameters processStart = WinrmLib.DefaultParameters
    /\ WinrmLib.TransportDecorator WinrmLib.DefaultParameters = None.
Proof.
  intros w hw nw ww g g' c c' Hconn.
  destruct (Connect_transport w hw nw ww g g' c c' Hconn)
    as (cl & Hcl & Hhttp & Hcert & _).
  split; [exact Hcert|].
  assert (Ht : transportOf c' = Some (Winrm.http cl)).
  { unfold transportOf. rewrite Hcl. reflexivity. }
  rewrite Ht, Hhttp.
  split; [eexists; reflexivity|].
  split; [intros -> ->; reflexivity|].
  split; [|split; [|split; reflexivity]].
  - intros -> [-> | ->]; [reflexivity|].
    rewrite andb_false_r. reflexivity.
  - intros -> [-> | ->]; [reflexivity|].
    rewrite andb_false_r. reflexivity.
Qed.

(** In a fresh process: NTLM alone gives the NTLM transport; NTLM with HTTPS
    and a client certificate gives the client-certificate transport; neither
    gives the plain transport. *)
Lemma winrm_transport_choice_witness :
  (exists g' c',
      Winrm.Connect (sampleOs None []) sampleHostkeys sampleNet sampleWinrmWorld
        processStart (sampleWinRM true false EmptyString) = Go.Done (g', c', None)
      /\ transportOf c' = Some WinrmLib.ClientNTLM)
  /\ (exists g' c',
        Winrm.Connect (sampleOs None []) sampleHostkeys sampleNet sampleWinrmWorld
          processStart (sampleWinRM true true "/etc/winrm/client.pem")
        = Go.Done (g', c', None)
        /\ transportOf c' = Some WinrmLib.ClientAuthRequest)
  /\ (exists g' c',
        Winrm.Connect (sampleOs None []) sampleHostkeys sampleNet sampleWinrmWorld
          processStart (sampleWinRM false false EmptyString)
        = Go.Done (g', c', None)
        /\ transportOf c' = Some WinrmLib.ClientRequest).
Proof.
  split; [|split].
  - do 2 eexists. split; [reflexivity|].
    apply (winrm_transport_choice (sampleOs None []) sampleHostkeys sampleNet
             sampleWinrmWorld processStart _
             (sampleWinRM true false EmptyString) _ eq_refl);
      [reflexivity|left; reflexivity].
  - do 2 eexists. split; [reflexivity|].
    apply (winrm_transport_choice (sampleOs None []) sampleHostkeys sampleNet
             sampleWinrmWorld processStart _
             (sampleWinRM true true "/etc/winrm/client.pem") _ eq_refl);
      reflexivity.
  - do 2 eexists. split; [reflexivity|].
    apply (winrm_transport_choice (sampleOs None []) sampleHostkeys sampleNet
             sampleWinrmWorld processStart _
             (sampleWinRM false false EmptyString) _ eq_refl);
      [reflexivity|left; reflexivity].
Defined.

(** C6 as written fails: with NTLM asked for, HTTPS on and a client
    certificate loaded, the client does not talk through the NTLM
    transport. *)
Lemma winrm_ntlm_does_not_take_precedence :
  exists g' c',
    Winrm.Connect (sampleOs None []) sampleHostkeys sampleNet sampleWinrmWorld
      processStart (sampleWinRM true true "/etc/winrm/client.pem")
    = Go.Done (g', c', None)
    /\ Winrm.UseNTLM c' = true
    /\ Winrm.UseHTTPS c' = true
    /\ Winrm.nonEmpty (Winrm.cert c') = true
    /\ transportOf c' = Some WinrmLib.ClientAuthRequest
    /\ transportOf c' <> Some WinrmLib.ClientNTLM.
Proof.
  do 2 eexists. split; [reflexivity|].
  simpl. repeat split; discriminate.
Qed.

(** What a [Connect] assigns through [winrm.DefaultParameters] stays: the
    decorator and the dialer it leaves are those the next [Connect] in the
    process starts from.  After a host with NTLM, a host that asks for
    neither NTLM nor a certificate gets a client that talks NTLM. *)
Lemma Connect_assigns_default_parameters :
  (forall (w : Os.World) (hw : Ssh.HostkeyWorld) (nw : Ssh.NetWorld)
          (ww : Winrm.World) (g g' : Globals) (c c' : Winrm.WinRM) (cl : Winrm.Client),
      Winrm.Connect w hw nw ww g c = Go.Done (g', c', None) ->
      Winrm.client c' = Some cl ->
      winrmDefaultParameters g' = Winrm.params cl
      /\ WinrmLib.TransportDecorator (winrmDefaultParameters g') =
         (if Winrm.UseHTTPS c && Winrm.nonEmpty (Winrm.cert c')
          then Some WinrmLib.ClientAuthRequest
          else if Winrm.UseNTLM c then Some WinrmLib.ClientNTLM
               else WinrmLib.TransportDecorator (winrmDefaultParameters g)))
  /\ exists g1 c1 g2 c2,
      Winrm.Connect (sampleOs None []) sampleHostkeys sampleNet sampleWinrmWorld
        processStart (sampleWinRM true false EmptyString) = Go.Done (g1, c1, None)
      /\ Winrm.Connect (sampleOs None []) sampleHostkeys sampleNet sampleWinrmWorld
           g1 (sampleWinRM false false EmptyString) = Go.Done (g2, c2, None)
      /\ transportOf c2 = Some WinrmLib.ClientNTLM.
Proof.
  split.
  - intros w hw nw ww g g' c c' cl Hconn Hcl.
    destruct (Connect_transport w hw nw ww g g' c c' Hconn)
      as (cl' & Hcl' & _ & _ & Hparams).
    rewrite Hcl in Hcl'. inversion Hcl'; subst cl'. clear Hcl'.
    split; [symmetry; exact Hparams|].
    revert Hconn. unfold Winrm.Connect.
    destruct (Winrm.loadCertificates w c) as [c1 [e|]] eqn:Hload;
      [discriminate|].
    destruct (loadCertificates_ok _ _ _ Hload) as (Hntlm & Hhttps & _).
    rewrite <- Hntlm, <- Hhttps. clear Hntlm Hhttps Hload.
    unfold Winrm.NewClientWithParameters, Winrm.decorate.
    destruct (Winrm.Bastion c1) as [bastion|]; simpl.
    + destruct (Ssh.Connect w hw nw g bastion) as [[[g1 b1] [e|]]|] eqn:Hb; simpl;
        try discriminate.
      pose proof (Ssh_Connect_keeps_parameters _ _ _ _ _ _ _ _ Hb) as Hkeep.
      destruct (Winrm.newClient ww _ _); [discriminate|].
      destruct (Winrm.probe ww); [discriminate|].
      intros H; inversion H; subst; simpl. rewrite Hkeep.
      destruct (Winrm.UseNTLM c1), (Winrm.UseHTTPS c1 && Winrm.nonEmpty (Winrm.cert c1));
        reflexivity.
    + destruct (Winrm.newClient ww _ _); [discriminate|].
      destruct (Winrm.probe ww); [discriminate|].
      intros H; inversion H; subst; simpl.
      destruct (Winrm.UseNTLM c1), (Winrm.UseHTTPS c1 && Winrm.nonEmpty (Winrm.cert c1));
        reflexivity.
  - do 4 eexists. split; [reflexivity|]. split; reflexivity.
Qed.

(** ** The dispatcher *)

Section ConnFacts.

Variable w : Conn.World.

(** A transport whose [Connect] returned nil is connected. *)
Lemma Ssh_Connect_connected (g g' : Globals) (x x' : Ssh.SSH) :
  Ssh.Connect (Conn.os w) (Conn.hostkeys w) (Conn.net w) g x
  = Go.Done (g', x', None) ->
  Ssh.IsConnected x' = true.
Proof.
  destruct x as [addr user port kp hk bastion win know once cl kps].
  simpl. intros H. split_run H; inversion H; subst; reflexivity.
Qed.

Lemma clientConnect_connected (g g1 : Globals) (c c1 : Conn.Connection)
      (h : Conn.Handle) :
  Conn.clientConnect w g c h = Go.Done (g1, c1, None) ->
  Conn.client c1 = Conn.client c /\ Conn.clientIsConnected c1 h = true.
Proof.
  unfold Conn.clientConnect.
  destruct h as [| | |l].
  - destruct (Conn.WinRM c) as [x|]; [|discriminate].
    destruct (Winrm.Connect _ _ _ _ g x) as [[[g2 x2] e]|] eqn:Hx; simpl;
      [|discriminate].
    intros H; inversion H; subst. simpl. split; [reflexivity|].
    eapply Connect_connected; eassumption.
  - intros H; inversion H; subst. split; reflexivity.
  - destruct (Conn.SSH c) as [x|]; [|discriminate].
    destruct (Ssh.Connect _ _ _ g x) as [[[g2 x2] e]|] eqn:Hx; simpl;
      [|discriminate].
    intros H; inversion H; subst. simpl. split; [reflexivity|].
    eapply Ssh_Connect_connected; eassumption.
  - intros H; inversion H; subst. split; reflexivity.
Qed.

End ConnFacts.

(** C7 on the code.  When the transport connects and the OS probe then
    fails, [Connect] returns the probe's error and leaves the client handle
    in place: [IsConnected] is true after the failed [Connect].  (When the
    transport's own [Connect] fails the handle is cleared, see
    [Connect_transport_failure_clears].) *)
Theorem Connect_probe_failure_keeps_client :
  forall (w : Conn.World) (g g0 g1 : Globals) (c c0 c1 : Conn.Connection)
         (h : Conn.Handle) (err : error),
    Conn.ensureClient w g c = Go.Done (g0, c0, None) ->
    Conn.client c0 = Some h ->
    Conn.clientConnect w g0 c0 h = Go.Done (g1, c1, None) ->
    Conn.OSVersion_ c1 = None ->
    Conn.GetOSVersion w = inr err ->
    Conn.Connect w g c = Go.Done (g1, c1, Some err)
    /\ Conn.client c1 = Some h
    /\ Conn.IsConnected c1 = true.
Proof.
  intros w g g0 g1 c c0 c1 h err Hensure Hh Hconn Hos Hprobe.
  destruct (clientConnect_connected w _ _ _ _ _ Hconn) as [Hclient Hlive].
  split; [|split].
  - unfold Conn.Connect. rewrite Hensure. simpl.
    rewrite Hh, Hconn. simpl. rewrite Hos, Hprobe. reflexivity.
  - rewrite Hclient. exact Hh.
  - unfold Conn.IsConnected. rewrite Hclient, Hh. exact Hlive.
Qed.

(** A WinRM host that answers, and an OS probe that does not. *)
Lemma Connect_probe_failure_keeps_client_witness :
  exists g1 c1,
    Conn.Connect (sampleWorld [] 0 (inr probeFailure)) processStart
      (overWinRM (sampleWinRM false false EmptyString) None)
    = Go.Done (g1, c1, Some probeFailure)
    /\ Conn.client c1 = Some Conn.AtWinRM
    /\ Conn.IsConnected c1 = true.
Proof.
  do 2 eexists.
  eapply (Connect_probe_failure_keeps_client
            (sampleWorld [] 0 (inr probeFailure)) processStart);
    reflexivity.
Defined.

(** The sibling path: when the transport's [Connect] fails the handle is
    cleared and the error is not-connected. *)
Lemma Connect_transport_failure_clears :
  forall (w : Conn.World) (g g0 g1 : Globals) (c c0 c1 : Conn.Connection)
         (h : Conn.Handle) (err : error),
    Conn.ensureClient w g c = Go.Done (g0, c0, None) ->
    Conn.client c0 = Some h ->
    Conn.clientConnect w g0 c0 h = Go.Done (g1, c1, Some err) ->
    Conn.Connect w g c
    = Go.Done (g1, Conn.set_client c1 None,
               Some (Wrap ErrNotConnected "client connect" err))
    /\ Conn.IsConnected (Conn.set_client c1 None) = false.
Proof.
  intros w g g0 g1 c c0 c1 h err Hensure Hh Hconn.
  split; [|reflexivity].
  unfold Conn.Connect. rewrite Hensure. simpl. rewrite Hh, Hconn. reflexivity.
Qed.

(** ** Upload *)

(** C4 on the code.  An [Upload] on a connected host whose local file opens
    and whose copy succeeds returns nil when the remote digest equals the
    digest of the bytes written to the hasher.  When the digests differ it
    returns upload-failed with the text [checksum mismatch]: the kind of a
    failed copy, not [ErrChecksumMismatch]. *)
Theorem Upload_mismatch_is_upload_failed :
  forall (w : Conn.World) (uw : Conn.UploadWorld)
         (sha256hex : list Byte.byte -> string)
         (c c' : Conn.Connection) (src dst : string) (local : Conn.LocalFile)
         (size mode : Z) (k : Conn.FSKind) (written : list Byte.byte)
         (remoteSum : string),
    Conn.IsConnected c = true ->
    Conn.osOpen uw src = inl local ->
    Conn.statSizeMode local = inl (size, mode) ->
    Conn.Fsys w c = Go.Done (c', k) ->
    Conn.openFile uw k dst mode = None ->
    Conn.copyFromN uw src size = (written, None) ->
    Conn.remoteSha256 uw k dst = inl remoteSum ->
    (remoteSum = sha256hex written ->
     Conn.Upload w uw sha256hex c src dst = Go.Done (c', None))
    /\ (remoteSum <> sha256hex written ->
        exists e,
          Conn.Upload w uw sha256hex c src dst = Go.Done (c', Some e)
          /\ e = Wrapf ErrUploadFailed "checksum mismatch"
          /\ Is e ErrUploadFailed = true
          /\ Is e ErrChecksumMismatch = false).
Proof.
  intros w uw sha256hex c c' src dst local size mode k written remoteSum
         Hconn Hopen Hstat Hfs Hfile Hcopy Hsum.
  unfold Conn.Upload, Conn.checkConnected.
  rewrite Hconn, Hopen, Hstat, Hfs. simpl.
  rewrite Hfile, Hcopy, Hsum.
  split; intros Hcmp.
  - rewrite (proj2 (String.eqb_eq _ _) Hcmp). reflexivity.
  - rewrite (proj2 (String.eqb_neq _ _) Hcmp). simpl.
    eexists; repeat split; reflexivity.
Qed.

(** An empty file whose remote side reports a digest of zeros. *)
Lemma Upload_mismatch_is_upload_failed_witness :
  exists c' e,
    Conn.Upload (sampleWorld [] 0 (inl {| Conn.ID := "windows" |}))
      (sampleUpload "0000") (fun _ => emptyDigest)
      (overWinRM winrmConnected (Some Conn.AtWinRM)) "/tmp/local" "C:/remote"
    = Go.Done (c', Some e)
    /\ e = Wrapf ErrUploadFailed "checksum mismatch"
    /\ Is e ErrUploadFailed = true
    /\ Is e ErrChecksumMismatch = false.
Proof.
  destruct (Upload_mismatch_is_upload_failed
              (sampleWorld [] 0 (inl {| Conn.ID := "windows" |}))
              (sampleUpload "0000") (fun _ => emptyDigest)
              (overWinRM winrmConnected (Some Conn.AtWinRM))
              (Conn.set_fsys (overWinRM winrmConnected (Some Conn.AtWinRM))
                 (Some Conn.WindowsFsys))
              "/tmp/local" "C:/remote"
              {| Conn.statSizeMode := inl (0%Z, 420%Z) |}
              0%Z 420%Z Conn.WindowsFsys [] "0000"
              eq_refl eq_refl eq_refl eq_refl eq_refl eq_refl eq_refl)
    as [_ Hbad].
  destruct Hbad as (e & Hrun & Hrest); [discriminate|].
  eexists; exists e. split; [exact Hrun|exact Hrest].
Defined.


(** * Further properties of the code *)

(** ** Paths and identity files *)

(** X1.  With [HOME] set, [expandPath] maps the lone tilde to the home
    directory and [~/rest] to the home directory followed by [/rest]; a tilde
    followed by anything but a slash is refused as not implemented; a path
    that does not start with a tilde comes back as it is. *)
Theorem expandPath_tilde_rules :
  forall (w : Os.World) (home : string),
    Os.LookupEnv w "HOME" = Some home ->
    expandPath w "~" = Go.Done (home, None)
    /\ (forall rest,
          expandPath w (String tilde (String slash rest))
          = Go.Done (home ++ String slash rest, None))
    /\ (forall c rest,
          c <> slash ->
          exists e,
            expandPath w (String tilde (String c rest))
            = Go.Done (EmptyString, Some e)
            /\ Is e ErrNotImplemented = true)
    /\ (forall c rest,
          c <> tilde ->
          expandPath w (String c rest) = Go.Done (String c rest, None)).
Proof.
  intros w home Hhome.
  assert (Hdir : homeDir w = (home, None)).
  { unfold homeDir. rewrite Hhome. reflexivity. }
  split; [|split; [|split]].
  - unfold expandPath. simpl. exact (f_equal _ Hdir).
  - intros rest. unfold expandPath. simpl. rewrite Hdir. reflexivity.
  - intros c rest Hc. unfold expandPath. simpl.
    rewrite (proj2 (Ascii.eqb_neq c slash) Hc). simpl.
    eexists; split; reflexivity.
  - intros c rest Hc. unfold expandPath. simpl.
    rewrite (proj2 (Ascii.eqb_neq c tilde) Hc). reflexivity.
Qed.

Lemma expandPath_tilde_rules_witness :
  expandPath (sampleOs None []) "~" = Go.Done ("/home/u", None)
  /\ expandPath (sampleOs None []) "~/.ssh/id_rsa"
     = Go.Done ("/home/u/.ssh/id_rsa", None)
  /\ (exists e, expandPath (sampleOs None []) "~bob/x"
                = Go.Done (EmptyString, Some e)
                /\ Is e ErrNotImplemented = true)
  /\ expandPath (sampleOs None []) "/etc/key" = Go.Done ("/etc/key", None).
Proof.
  destruct (expandPath_tilde_rules (sampleOs None []) "/home/u" eq_refl)
    as (H1 & H2 & H3 & H4).
  split; [exact H1|]. split; [exact (H2 ".ssh/id_rsa")|].
  split; [apply (H3 "b"%char "ob/x"); discriminate|].
  apply (H4 "/"%char "etc/key"); discriminate.
Defined.

(** X2.  [expandAndValidatePath] always returns.  A path it accepts is not
    empty, is the expansion of the argument, and names something that is not
    a directory.  With an error the returned path is empty and the error is
    of kind invalid-path, not-implemented or OS. *)
Theorem expandAndValidatePath_result :
  forall (w : Os.World) (path : string),
  exists p r,
    expandAndValidatePath w path = Go.Done (p, r)
    /\ match r with
       | None =>
           path <> EmptyString
           /\ expandPath w path = Go.Done (p, None)
           /\ regularFile w p
       | Some e =>
           p = EmptyString
           /\ (Is e ErrInvalidPath || Is e ErrNotImplemented || Is e ErrOS = true)
       end.
Proof.
  intros w path. unfold expandAndValidatePath.
  destruct path as [|c0 rest]; simpl.
  { do 2 eexists; split; [reflexivity|]. split; reflexivity. }
  assert (Hexp : exists r, expandPath w (String c0 rest) = Go.Done r
                           /\ match snd r with
                              | Some e =>
                                  Is e ErrNotImplemented || Is e ErrOS = true
                              | None => True
                              end).
  { unfold expandPath, homeDir. simpl.
    destruct (negb (Ascii.eqb c0 tilde)); [eexists; split; [reflexivity|exact I]|].
    destruct rest as [|c1 rest]; simpl;
      [|destruct (negb (Ascii.eqb c1 slash)); [eexists; split; reflexivity|]];
      destruct (Os.LookupEnv w "HOME");
      try (eexists; split; [reflexivity|exact I]);
      destruct (Os.UserHomeDir w);
      eexists; (split; [reflexivity|]); simpl;
      first [exact I|apply orb_true_r|reflexivity]. }
  destruct Hexp as [[p [e|]] [-> Hkind]]; simpl in *.
  - do 2 eexists; split; [reflexivity|]. split; [reflexivity|].
    rewrite <- orb_assoc, Hkind. apply orb_true_r.
  - destruct (Os.Stat w p) as [info|err] eqn:Hstat.
    + destruct (Os.IsDir info) eqn:Hdir.
      * do 2 eexists; split; [reflexivity|]. split; reflexivity.
      * do 2 eexists; split; [reflexivity|].
        split; [discriminate|]. split; [reflexivity|].
        exists info; split; assumption.
    + do 2 eexists; split; [reflexivity|]. split; reflexivity.
Qed.

Section IdentityFacts.

Variable w : Os.World.

Lemma inList_In (s : string) (b : list string) :
  inList s b = true <-> In s b.
Proof.
  unfold inList. rewrite existsb_exists. split.
  - intros (x & Hin & Heq). apply String.eqb_eq in Heq. subst; assumption.
  - intros Hin. exists s; split; [assumption|apply String.eqb_refl].
Qed.

Lemma usable_accepts (paths : list string) :
  forall found,
    Ssh.usable w paths found = Go.Done (found ++ accepted w paths)%list.
Proof.
  induction paths as [|p rest IH]; intros found; simpl.
  - rewrite app_nil_r. reflexivity.
  - destruct (expandAndValidatePath_returns w p) as [[e [err|]] [Hrun _]];
      rewrite Hrun; simpl.
    + apply IH.
    + rewrite IH, <- app_assoc. reflexivity.
Qed.

Lemma accepted_regular (paths : list string) :
  Forall (regularFile w) (accepted w paths).
Proof.
  induction paths as [|p rest IH]; simpl; [constructor|].
  apply Forall_app; split; [|exact IH].
  destruct (expandAndValidatePath_result w p) as (e & r & Hrun & Hr).
  rewrite Hrun. destruct r; [constructor|].
  destruct Hr as (_ & _ & Hreg). repeat constructor; assumption.
Qed.

Lemma globalOnceDo_returns (g : Globals) :
  exists g1, globalOnceDo w g = Go.Done g1.
Proof.
  unfold globalOnceDo, Go.onceDo. destruct (globalOnce g); simpl.
  - eexists; reflexivity.
  - unfold initGlobalDefaults. rewrite collectDummy_appends_failures. simpl.
    eexists; reflexivity.
Qed.

Lemma set_once_set_once (c : Ssh.SSH) (a b : bool) :
  Ssh.set_once (Ssh.set_once c a) b = Ssh.set_once c b.
Proof. reflexivity. Qed.

Lemma resolveIdentity_returns (g : Globals) (c : Ssh.SSH) :
  exists c1, Ssh.resolveIdentity w g c = Go.Done c1.
Proof.
  unfold Ssh.resolveIdentity.
  assert (Hcfg : forall c0 : Ssh.SSH,
             exists c1,
               (found <- Ssh.usable w
                           match Ssh.keypathsFromConfig w (Ssh.set_KeyPath c0 None) with
                           | [] => (Ssh.keypathsFromConfig w (Ssh.set_KeyPath c0 None)
                                      ++ defaultKeypaths)%list
                           | _ :: _ => Ssh.keypathsFromConfig w (Ssh.set_KeyPath c0 None)
                           end (Ssh.keyPaths (Ssh.set_KeyPath c0 None)) ;;
                match findUniq (Ssh.keyPaths
                                  (Ssh.set_keyPaths (Ssh.set_KeyPath c0 None) found))
                        (dummyhostKeyPaths g) with
                | (uniq, true) =>
                    Go.Done (Ssh.set_KeyPath
                               (Ssh.set_keyPaths (Ssh.set_KeyPath c0 None) found)
                               (Some uniq))
                | (_, false) =>
                    Go.Done (Ssh.set_keyPaths (Ssh.set_KeyPath c0 None) found)
                end) = Go.Done c1).
  { intros c0. rewrite usable_accepts. simpl.
    destruct (findUniq _ _) as [u [|]]; eexists; reflexivity. }
  destruct (Ssh.KeyPath c) as [kp|]; [|apply Hcfg].
  destruct (Go.isEmpty kp); [apply Hcfg|].
  destruct (expandAndValidatePath_returns w kp) as [[e [err|]] [Hrun _]];
    rewrite Hrun; simpl; eexists; reflexivity.
Qed.

End IdentityFacts.

(** X3.  [findUniq a b] finds the first element of [a] that is not in [b]:
    when it says found, everything before the element is in [b] and the
    element is not; when it says not found, every element of [a] is in [b]
    and the string it returns is empty. *)
Theorem findUniq_first_outside :
  forall (a b : list string),
    match findUniq a b with
    | (s, true) =>
        exists before after,
          a = (before ++ s :: after)%list
          /\ Forall (fun x => In x b) before
          /\ ~ In s b
    | (s, false) => s = EmptyString /\ Forall (fun x => In x b) a
    end.
Proof.
  intros a b. induction a as [|x rest IH]; simpl.
  - split; [reflexivity|constructor].
  - destruct (inList x b) eqn:Hx.
    + apply inList_In in Hx.
      destruct (findUniq rest b) as [s [|]].
      * destruct IH as (before & after & -> & Hall & Hout).
        exists (x :: before), after. repeat split; try assumption.
        constructor; assumption.
      * destruct IH as [-> Hall]. split; [reflexivity|constructor; assumption].
    + exists [], rest. repeat split; [constructor|].
      intros Hin. apply inList_In in Hin. congruence.
Qed.

(** X4.  [SSH.SetDefaults] always returns, and a second call changes
    nothing: both once-guards are up after the first. *)
Theorem SetDefaults_runs_once :
  forall (w : Os.World) (g : Globals) (c : Ssh.SSH),
  exists g1 c1,
    Ssh.SetDefaults w g c = Go.Done (g1, c1)
    /\ globalOnce g1 = true
    /\ Ssh.once c1 = true
    /\ Ssh.SetDefaults w g1 c1 = Go.Done (g1, c1).
Proof.
  intros w g c. unfold Ssh.SetDefaults.
  destruct (globalOnceDo_returns w g) as [g1 Hg].
  destruct (globalOnceDo_once w g g1 Hg) as [Hup Hagain].
  rewrite Hg. simpl.
  assert (Hc : exists c1,
             Go.onceDo (Ssh.once c) (Ssh.resolveIdentity w g1) c = Go.Done (true, c1)).
  { unfold Go.onceDo. destruct (Ssh.once c); [eexists; reflexivity|].
    destruct (resolveIdentity_returns w g1 c) as [c1 ->]. eexists; reflexivity. }
  destruct Hc as [c1 Hc]. rewrite Hc. simpl.
  exists g1, (Ssh.set_once c1 true).
  split; [reflexivity|]. split; [exact Hup|]. split; [reflexivity|].
  rewrite Hagain. simpl. reflexivity.
Qed.

(** X5.  With an explicit, non-empty [KeyPath] the first [SetDefaults] keeps
    the [KeyPath] as given, valid or not, and adds to the key paths the
    expansion of that one path when it validates; the SSH configuration and
    the conventional paths are not consulted. *)
Theorem SetDefaults_explicit_key :
  forall (w : Os.World) (g : Globals) (c : Ssh.SSH) (kp : string),
    Ssh.once c = false ->
    Ssh.KeyPath c = Some kp ->
    kp <> EmptyString ->
    exists g1 c1,
      Ssh.SetDefaults w g c = Go.Done (g1, c1)
      /\ Ssh.KeyPath c1 = Some kp
      /\ Ssh.keyPaths c1 = (Ssh.keyPaths c ++ accepted w [kp])%list
      /\ Forall (regularFile w) (accepted w [kp]).
Proof.
  intros w g c kp Honce Hkp Hne.
  assert (Hreg := accepted_regular w [kp]).
  remember (accepted w [kp]) as acc eqn:Hacc.
  unfold accepted in Hacc. simpl in Hacc. rewrite app_nil_r in Hacc.
  unfold Ssh.SetDefaults.
  destruct (globalOnceDo_returns w g) as [g1 ->]. simpl.
  unfold Go.onceDo. rewrite Honce. unfold Ssh.resolveIdentity.
  rewrite Hkp, (isEmpty_false _ Hne).
  exists g1.
  destruct (expandAndValidatePath_returns w kp) as [[e [err|]] [Hrun _]];
    rewrite Hrun in *; simpl; subst acc;
    (eexists; split; [reflexivity|]); simpl;
    (split; [exact Hkp|]); (split; [|exact Hreg]).
  - rewrite app_nil_r; reflexivity.
  - reflexivity.
Qed.

Lemma SetDefaults_explicit_key_witness :
  exists g1 c1,
    Ssh.SetDefaults (sampleOs None []) processStart
      (Ssh.set_KeyPath (sampleSSH EmptyString) (Some "~/.ssh/id_rsa"))
    = Go.Done (g1, c1)
    /\ Ssh.KeyPath c1 = Some "~/.ssh/id_rsa"
    /\ Ssh.keyPaths c1 = ["/home/u/.ssh/id_rsa"].
Proof.
  destruct (SetDefaults_explicit_key (sampleOs None []) processStart
              (Ssh.set_KeyPath (sampleSSH EmptyString) (Some "~/.ssh/id_rsa"))
              "~/.ssh/id_rsa" eq_refl eq_refl)
    as (g1 & c1 & Hrun & Hkp & Hpaths & _); [discriminate|].
  exists g1, c1. split; [exact Hrun|]. split; [exact Hkp|exact Hpaths].
Defined.

(** X6.  Without an explicit key the first [SetDefaults] adds, in order, the
    expansions of the candidate identity files that validate (those of the
    SSH configuration, else the conventional ones), each of them a file that
    is not a directory, and sets [KeyPath] to the first key path outside the
    global defaults, or leaves it unset when there is none. *)
Theorem SetDefaults_from_config :
  forall (w : Os.World) (g : Globals) (c : Ssh.SSH),
    Ssh.once c = false ->
    Ssh.KeyPath c = None \/ Ssh.KeyPath c = Some EmptyString ->
    exists g1 c1,
      Ssh.SetDefaults w g c = Go.Done (g1, c1)
      /\ Ssh.keyPaths c1 = (Ssh.keyPaths c ++ accepted w (candidates w c))%list
      /\ Forall (regularFile w) (accepted w (candidates w c))
      /\ Ssh.KeyPath c1 =
         match findUniq (Ssh.keyPaths c1) (dummyhostKeyPaths g1) with
         | (uniq, true) => Some uniq
         | (_, false) => None
         end.
Proof.
  intros w g c Honce Hkp. unfold Ssh.SetDefaults.
  destruct (globalOnceDo_returns w g) as [g1 ->]. simpl.
  unfold Go.onceDo. rewrite Honce.
  assert (Hbody :
            exists c1,
              Ssh.resolveIdentity w g1 c = Go.Done c1
              /\ Ssh.keyPaths c1 = (Ssh.keyPaths c ++ accepted w (candidates w c))%list
              /\ Ssh.KeyPath c1 =
                 match findUniq (Ssh.keyPaths c1) (dummyhostKeyPaths g1) with
                 | (uniq, true) => Some uniq
                 | (_, false) => None
                 end).
  { unfold Ssh.resolveIdentity.
    assert (Hcand :
              match Ssh.keypathsFromConfig w (Ssh.set_KeyPath c None) with
              | [] => (Ssh.keypathsFromConfig w (Ssh.set_KeyPath c None)
                         ++ defaultKeypaths)%list
              | _ :: _ => Ssh.keypathsFromConfig w (Ssh.set_KeyPath c None)
              end = candidates w c).
    { unfold candidates.
      change (Ssh.keypathsFromConfig w (Ssh.set_KeyPath c None))
        with (Ssh.keypathsFromConfig w c).
      destruct (Ssh.keypathsFromConfig w c); reflexivity. }
    destruct Hkp as [Hkp|Hkp]; rewrite Hkp; simpl Go.isEmpty; cbv iota;
      rewrite Hcand, usable_accepts; simpl;
      destruct (findUniq (Ssh.keyPaths c ++ accepted w (candidates w c))
                         (dummyhostKeyPaths g1)) as [u [|]] eqn:Hu;
      eexists; (split; [reflexivity|]); simpl; rewrite Hu; split; reflexivity. }
  destruct Hbody as (c1 & -> & Hpaths & Hhint). simpl.
  exists g1, (Ssh.set_once c1 true). split; [reflexivity|].
  destruct c1; simpl in *. split; [exact Hpaths|].
  split; [apply accepted_regular|exact Hhint].
Qed.

Lemma SetDefaults_from_config_witness :
  exists g1 c1,
    Ssh.SetDefaults (sampleOs None []) processStart (sampleSSH EmptyString)
    = Go.Done (g1, c1)
    /\ Ssh.keyPaths c1 = ["/home/u/.ssh/id_rsa"]
    /\ Ssh.KeyPath c1 = Some "/home/u/.ssh/id_rsa".
Proof.
  destruct (SetDefaults_from_config (sampleOs None []) processStart
              (sampleSSH EmptyString) eq_refl (or_introl eq_refl))
    as (g1 & c1 & Hrun & Hpaths & _ & Hhint).
  exists g1, c1. split; [exact Hrun|]. split; [exact Hpaths|].
  rewrite Hhint, Hpaths.
  assert (Hg : g1 = {| dummyhostKeyPaths := [EmptyString]; globalOnce := true;
                       winrmDefaultParameters := WinrmLib.DefaultParameters |}).
  { vm_compute in Hrun. inversion Hrun. reflexivity. }
  rewrite Hg. reflexivity.
Defined.

(** ** The sudo rewriter and the lexer *)

Section LexerFacts.

Lemma append_nil (s : string) : s ++ EmptyString = s.
Proof. induction s as [|c s IH]; simpl; [reflexivity|rewrite IH; reflexivity]. Qed.

Lemma append_assoc (a b c : string) : (a ++ b) ++ c = a ++ b ++ c.
Proof. induction a as [|x a IH]; simpl; [reflexivity|rewrite IH; reflexivity]. Qed.

Lemma push_append (v : string) (c : ascii) (s : string) :
  Shlex.push v c ++ s = v ++ String c s.
Proof. unfold Shlex.push. rewrite append_assoc. reflexivity. Qed.

(** A safe byte is an ordinary rune for the lexer. *)
Lemma safeByte_unknown (c : ascii) :
  Shellescape.safeByte c = true ->
  Shlex.ClassifyRune c = Shlex.unknownRuneClass.
Proof.
  destruct c as [[] [] [] [] [] [] [] []]; vm_compute; intros H;
    first [reflexivity|discriminate H].
Qed.

Lemma classify_apostrophe (c : ascii) :
  Shlex.ClassifyRune c = Shlex.nonEscapingQuoteRuneClass ->
  c = Shellescape.apostrophe.
Proof.
  destruct c as [[] [] [] [] [] [] [] []]; vm_compute; intros H;
    first [reflexivity|discriminate H].
Qed.

Lemma scan_word_step (c : ascii) (v : string) (ws : list string) (rest : string) :
  Shellescape.safeByte c = true ->
  Shlex.scan Shlex.inWordState v ws (String c rest)
  = Shlex.scan Shlex.inWordState (Shlex.push v c) ws rest.
Proof.
  intros Hsafe. simpl. rewrite (safeByte_unknown c Hsafe). reflexivity.
Qed.

Lemma scan_start_step (c : ascii) (v : string) (ws : list string) (rest : string) :
  Shellescape.safeByte c = true ->
  Shlex.scan Shlex.startState v ws (String c rest)
  = Shlex.scan Shlex.inWordState (String c EmptyString) ws rest.
Proof.
  intros Hsafe. simpl. rewrite (safeByte_unknown c Hsafe). reflexivity.
Qed.

Lemma scan_quoting_step (c : ascii) (v : string) (ws : list string) (rest : string) :
  c <> Shellescape.apostrophe ->
  Shlex.scan Shlex.quotingState v ws (String c rest)
  = Shlex.scan Shlex.quotingState (Shlex.push v c) ws rest.
Proof.
  intros Hc. simpl.
  destruct (Shlex.ClassifyRune c) eqn:E; try reflexivity.
  apply classify_apostrophe in E. contradiction.
Qed.

(** A word of safe bytes is read as it stands. *)
Lemma scan_safe_word (s : string) :
  forall v ws rest,
    Shellescape.MatchString s = false ->
    Shlex.scan Shlex.inWordState v ws (s ++ rest)
    = Shlex.scan Shlex.inWordState (v ++ s) ws rest.
Proof.
  induction s as [|c s IH]; intros v ws rest Hsafe.
  - simpl. rewrite append_nil. reflexivity.
  - simpl in Hsafe. apply orb_false_elim in Hsafe. destruct Hsafe as [Hc Hs].
    apply negb_false_iff in Hc.
    change (String c s ++ rest) with (String c (s ++ rest)).
    rewrite scan_word_step by assumption.
    rewrite IH by assumption. rewrite push_append. reflexivity.
Qed.

(** Between apostrophes, the escaped text is read back as the text. *)
Lemma scan_quoted_body (s : string) :
  forall v ws rest,
    Shlex.scan Shlex.quotingState v ws
      (Go.ReplaceAllByte s Shellescape.apostrophe Shellescape.escapedApostrophe
         ++ String Shellescape.apostrophe rest)
    = Shlex.scan Shlex.inWordState (v ++ s) ws rest.
Proof.
  induction s as [|c s IH]; intros v ws rest.
  - simpl. rewrite append_nil. reflexivity.
  - simpl Go.ReplaceAllByte. rewrite append_assoc.
    destruct (Ascii.eqb_spec c Shellescape.apostrophe) as [->|Hc].
    + change (Shlex.scan Shlex.quotingState v ws
                (Shellescape.escapedApostrophe ++
                 Go.ReplaceAllByte s Shellescape.apostrophe
                   Shellescape.escapedApostrophe
                 ++ String Shellescape.apostrophe rest))
        with (Shlex.scan Shlex.quotingState
                (Shlex.push v Shellescape.apostrophe) ws
                (Go.ReplaceAllByte s Shellescape.apostrophe
                   Shellescape.escapedApostrophe
                 ++ String Shellescape.apostrophe rest)).
      rewrite IH, push_append. reflexivity.
    + change (String c EmptyString ++
              Go.ReplaceAllByte s Shellescape.apostrophe
                Shellescape.escapedApostrophe
              ++ String Shellescape.apostrophe rest)
        with (String c (Go.ReplaceAllByte s Shellescape.apostrophe
                          Shellescape.escapedApostrophe
                        ++ String Shellescape.apostrophe rest)).
      rewrite scan_quoting_step by assumption.
      rewrite IH, push_append. reflexivity.
Qed.

(** The lexer reads a quoted word back as the word. *)
Lemma scan_Quote (p : string) (ws : list string) (rest : string) :
  Shlex.scan Shlex.startState EmptyString ws (Shellescape.Quote p ++ rest)
  = Shlex.scan Shlex.inWordState p ws rest.
Proof.
  unfold Shellescape.Quote. destruct p as [|c p]; [reflexivity|].
  simpl Go.isEmpty. cbv iota.
  destruct (Shellescape.MatchString (String c p)) eqn:Hm.
  - rewrite append_assoc.
    change (Shlex.scan Shlex.startState EmptyString ws
              ("'" ++ (Go.ReplaceAllByte (String c p) Shellescape.apostrophe
                         Shellescape.escapedApostrophe ++ "'") ++ rest))
      with (Shlex.scan Shlex.quotingState EmptyString ws
              ((Go.ReplaceAllByte (String c p) Shellescape.apostrophe
                  Shellescape.escapedApostrophe ++ "'") ++ rest)).
    rewrite append_assoc.
    change ("'" ++ rest) with (String Shellescape.apostrophe rest).
    rewrite scan_quoted_body. reflexivity.
  - simpl in Hm. apply orb_false_elim in Hm. destruct Hm as [Hc Hp].
    apply negb_false_iff in Hc.
    change (String c p ++ rest) with (String c (p ++ rest)).
    rewrite scan_start_step by assumption.
    rewrite scan_safe_word by assumption. reflexivity.
Qed.

Lemma Join_cons (p q : string) (rest : list string) (sep : string) :
  Go.Join (p :: q :: rest) sep = p ++ sep ++ Go.Join (q :: rest) sep.
Proof. reflexivity. Qed.

(** Quoted words joined by spaces and followed by a space are read back, one
    word each. *)
Lemma scan_quoted_words_then (ps : list string) :
  forall ws t,
    Shlex.scan Shlex.startState EmptyString ws
      (Go.Join (map Shellescape.Quote ps) " " ++ String space t)
    = Shlex.scan Shlex.startState EmptyString (ws ++ ps)%list t.
Proof.
  induction ps as [|p ps IH]; intros ws t.
  - simpl. rewrite app_nil_r. reflexivity.
  - destruct ps as [|q ps].
    + simpl map. simpl Go.Join. rewrite scan_Quote. reflexivity.
    + simpl map. rewrite Join_cons, !append_assoc.
      rewrite scan_Quote.
      change (" " ++ Go.Join (Shellescape.Quote q :: map Shellescape.Quote ps) " "
                  ++ String space t)
        with (String space (Go.Join (map Shellescape.Quote (q :: ps)) " "
                              ++ String space t)).
      change (Shlex.scan Shlex.inWordState p ws
                (String space (Go.Join (map Shellescape.Quote (q :: ps)) " "
                                 ++ String space t)))
        with (Shlex.scan Shlex.startState EmptyString (ws ++ [p])%list
                (Go.Join (map Shellescape.Quote (q :: ps)) " " ++ String space t)).
      rewrite IH, <- app_assoc. reflexivity.
Qed.

(** The same at the end of the input. *)
Lemma scan_quoted_words_end (ps : list string) :
  forall ws,
    Shlex.scan Shlex.startState EmptyString ws
      (Go.Join (map Shellescape.Quote ps) " ")
    = ((ws ++ ps)%list, None).
Proof.
  induction ps as [|p ps IH]; intros ws.
  - simpl. rewrite app_nil_r. reflexivity.
  - destruct ps as [|q ps].
    + simpl map. simpl Go.Join.
      rewrite <- (append_nil (Shellescape.Quote p)), scan_Quote. reflexivity.
    + simpl map. rewrite Join_cons.
      rewrite scan_Quote.
      change (Shlex.scan Shlex.inWordState p ws
                (" " ++ Go.Join (Shellescape.Quote q :: map Shellescape.Quote ps) " "))
        with (Shlex.scan Shlex.startState EmptyString (ws ++ [p])%list
                (Go.Join (map Shellescape.Quote (q :: ps)) " ")).
      rewrite IH, <- app_assoc. reflexivity.
Qed.

End LexerFacts.

(** X7.  The lexer undoes the quoting of [sudoSudo]: when the command splits
    into words and begins with an assignment, the rewritten command splits
    into [sudo], [-s], the assignments, [--] and the remaining words, each
    word as it was. *)
Theorem sudoSudo_keeps_words :
  forall (cmd : string) (parts : list string),
    Shlex.Split cmd = (parts, None) ->
    envPrefix parts 0 0 <> 0 ->
    Shlex.Split (sudoSudo cmd)
    = ((["sudo"; "-s"] ++ firstn (envPrefix parts 0 0) parts
          ++ ["--"] ++ skipn (envPrefix parts 0 0) parts)%list, None).
Proof.
  intros cmd parts Hsplit Hidx.
  unfold sudoSudo. rewrite Hsplit.
  destruct (Nat.eqb (envPrefix parts 0 0) 0) eqn:E.
  { apply Nat.eqb_eq in E. contradiction. }
  rewrite firstn_map, skipn_map. unfold Shlex.Split.
  change (Shlex.scan Shlex.startState EmptyString []
            ("sudo -s " ++
             Go.Join (map Shellescape.Quote (firstn (envPrefix parts 0 0) parts)) " "
             ++ " -- "
             ++ Go.Join (map Shellescape.Quote (skipn (envPrefix parts 0 0) parts)) " "))
    with (Shlex.scan Shlex.startState EmptyString ["sudo"; "-s"]
            (Go.Join (map Shellescape.Quote (firstn (envPrefix parts 0 0) parts)) " "
             ++ String space
                  ("-- " ++ Go.Join (map Shellescape.Quote
                                       (skipn (envPrefix parts 0 0) parts)) " "))).
  rewrite scan_quoted_words_then.
  change (Shlex.scan Shlex.startState EmptyString
            (["sudo"; "-s"] ++ firstn (envPrefix parts 0 0) parts)%list
            ("-- " ++ Go.Join (map Shellescape.Quote
                                 (skipn (envPrefix parts 0 0) parts)) " "))
    with (Shlex.scan Shlex.startState EmptyString
            ((["sudo"; "-s"] ++ firstn (envPrefix parts 0 0) parts) ++ ["--"])%list
            (Go.Join (map Shellescape.Quote
                        (skipn (envPrefix parts 0 0) parts)) " ")).
  rewrite scan_quoted_words_end, <- !app_assoc. reflexivity.
Qed.

Lemma sudoSudo_keeps_words_witness :
  Shlex.Split (sudoSudo "A=1 echo 'it is' x\ y")
  = (["sudo"; "-s"; "A=1"; "--"; "echo"; "it is"; "x y"], None).
Proof.
  apply (sudoSudo_keeps_words "A=1 echo 'it is' x\ y"
           ["A=1"; "echo"; "it is"; "x y"]); [reflexivity|discriminate].
Defined.

(** X8.  When the command does not lex, has no word, or its first word has
    no equals sign, [sudoSudo] puts [sudo -s --] before the command and
    leaves the command as it is, unquoted. *)
Theorem sudoSudo_passes_plain_command :
  forall (cmd : string) (parts : list string) (err : option error),
    Shlex.Split cmd = (parts, err) ->
    err <> None \/ parts = []
    \/ (exists p rest, parts = p :: rest /\ Go.Contains p "=" = false) ->
    sudoSudo cmd = "sudo -s -- " ++ cmd.
Proof.
  intros cmd parts err Hsplit Hcase. unfold sudoSudo. rewrite Hsplit.
  destruct err as [e|]; [reflexivity|].
  destruct Hcase as [Herr|[->|(p & rest & -> & Hp)]].
  - contradiction.
  - reflexivity.
  - simpl. rewrite Hp. reflexivity.
Qed.

Lemma sudoSudo_passes_plain_command_witness :
  sudoSudo "ls 'my dir'" = "sudo -s -- ls 'my dir'"
  /\ sudoSudo "A=1 echo 'open" = "sudo -s -- A=1 echo 'open".
Proof.
  split.
  - apply (sudoSudo_passes_plain_command "ls 'my dir'" ["ls"; "my dir"] None);
      [reflexivity|].
    right; right. exists "ls", ["my dir"]. split; reflexivity.
  - apply (sudoSudo_passes_plain_command "A=1 echo 'open" ["A=1"; "echo"]
             (Some Shlex.errQuote)); [reflexivity|].
    left; discriminate.
Defined.

(** ** The WinRM transport, further *)

(** [WinRM.SetDefaults] promotes the default port 5985 to 5986 when
    HTTPS is on and leaves every other port alone: afterwards an HTTPS host
    is never on port 5985, a second call changes the port no more, and the
    flags it reads are as before. *)
Theorem winrm_SetDefaults_port :
  forall (ww : Winrm.World) (c : Winrm.WinRM),
    let c1 := Winrm.SetDefaults ww c in
    (Winrm.UseHTTPS c1 = true -> Winrm.Port c1 <> 5985%Z)
    /\ (Winrm.Port c = 5985%Z -> Winrm.UseHTTPS c = true -> Winrm.Port c1 = 5986%Z)
    /\ (Winrm.Port c <> 5985%Z \/ Winrm.UseHTTPS c = false ->
        Winrm.Port c1 = Winrm.Port c)
    /\ Winrm.Port (Winrm.SetDefaults ww c1) = Winrm.Port c1
    /\ Winrm.UseHTTPS c1 = Winrm.UseHTTPS c
    /\ Winrm.UseNTLM c1 = Winrm.UseNTLM c
    /\ Winrm.client c1 = Winrm.client c.
Proof.
  intros ww c c1. subst c1. unfold Winrm.SetDefaults. simpl.
  destruct (Z.eqb_spec (Winrm.Port c) 5985) as [Hp|Hp];
    destruct (Winrm.UseHTTPS c) eqn:Hs; simpl;
    try (destruct (Z.eqb_spec (Winrm.Port c) 5985); [|]);
    repeat split; intros;
    try solve [reflexivity | congruence | lia | discriminate
               | intuition (try congruence; try lia)].
Qed.

Section WinrmMore.

Variable w : Os.World.
Variable hw : Ssh.HostkeyWorld.
Variable nw : Ssh.NetWorld.
Variable ww : Winrm.World.

Lemma loadCertificates_cases (c : Winrm.WinRM) :
  exists c1 r,
    Winrm.loadCertificates w c = (c1, r)
    /\ Winrm.client c1 = Winrm.client c
    /\ Winrm.Bastion c1 = Winrm.Bastion c
    /\ Winrm.UseHTTPS c1 = Winrm.UseHTTPS c
    /\ Winrm.UseNTLM c1 = Winrm.UseNTLM c
    /\ match r with
       | None =>
           Winrm.readIf w (Winrm.CACertPath c) = (Winrm.caCert c1, None)
           /\ Winrm.readIf w (Winrm.CertPath c) = (Winrm.cert c1, None)
           /\ Winrm.readIf w (Winrm.KeyPath c) = (Winrm.key c1, None)
       | Some e =>
           Is e ErrInvalidPath = true
           /\ (snd (Winrm.readIf w (Winrm.CACertPath c)) <> None
               \/ snd (Winrm.readIf w (Winrm.CertPath c)) <> None
               \/ snd (Winrm.readIf w (Winrm.KeyPath c)) <> None)
       end.
Proof.
  unfold Winrm.loadCertificates.
  cbn [Winrm.CACertPath Winrm.CertPath Winrm.KeyPath Winrm.set_material].
  destruct (Winrm.readIf w (Winrm.CACertPath c)) as [ca [e|]];
    [do 2 eexists; split; [reflexivity|]; simpl; repeat split;
     left; discriminate|].
  destruct (Winrm.readIf w (Winrm.CertPath c)) as [crt [e|]];
    [do 2 eexists; split; [reflexivity|]; simpl; repeat split;
     right; left; discriminate|].
  destruct (Winrm.readIf w (Winrm.KeyPath c)) as [k [e|]];
    [do 2 eexists; split; [reflexivity|]; simpl; repeat split;
     right; right; discriminate|].
  do 2 eexists; split; [reflexivity|]; simpl; repeat split.
Qed.

End WinrmMore.

(** X9.  [loadCertificates] reads the three files in the order CA
    certificate, certificate, key.  On success each piece of material is
    what its file holds, and is empty for an empty path whatever was loaded
    before.  It fails exactly when one of the named files cannot be read,
    with an invalid-path error.  The client and the flags are untouched. *)
Theorem loadCertificates_material :
  forall (w : Os.World) (c : Winrm.WinRM),
  exists c1 r,
    Winrm.loadCertificates w c = (c1, r)
    /\ Winrm.client c1 = Winrm.client c
    /\ match r with
       | None =>
           Winrm.readIf w (Winrm.CACertPath c) = (Winrm.caCert c1, None)
           /\ Winrm.readIf w (Winrm.CertPath c) = (Winrm.cert c1, None)
           /\ Winrm.readIf w (Winrm.KeyPath c) = (Winrm.key c1, None)
           /\ (Winrm.CertPath c = EmptyString -> Winrm.cert c1 = [])
       | Some e =>
           Is e ErrInvalidPath = true
           /\ (snd (Winrm.readIf w (Winrm.CACertPath c)) <> None
               \/ snd (Winrm.readIf w (Winrm.CertPath c)) <> None
               \/ snd (Winrm.readIf w (Winrm.KeyPath c)) <> None)
       end.
Proof.
  intros w c.
  destruct (loadCertificates_cases w c) as (c1 & r & Hrun & Hcl & _ & _ & _ & Hr).
  exists c1, r. split; [exact Hrun|]. split; [exact Hcl|].
  destruct r as [e|]; [exact Hr|].
  destruct Hr as (Hca & Hcert & Hkey). repeat split; try assumption.
  intros Hempty. rewrite Hempty in Hcert. unfold Winrm.readIf in Hcert.
  simpl in Hcert. inversion Hcert. reflexivity.
Qed.

(** X10.  A WinRM [Connect] without a bastion always returns.  It returns
    nil exactly when the certificates load, the client is built and the
    probe command runs without error; the client is then set.  With any
    error the client is what it was before.  The package variables of the
    SSH transport are not touched, nor is the dialer of the library's
    default parameters; when the certificates do not load, nothing is. *)
Theorem winrm_Connect_outcome :
  forall (w : Os.World) (hw : Ssh.HostkeyWorld) (nw : Ssh.NetWorld)
         (ww : Winrm.World) (g : Globals) (c : Winrm.WinRM),
    Winrm.Bastion c = None ->
    exists g1 c1 r,
      Winrm.Connect w hw nw ww g c = Go.Done (g1, c1, r)
      /\ dummyhostKeyPaths g1 = dummyhostKeyPaths g
      /\ globalOnce g1 = globalOnce g
      /\ WinrmLib.Dial (winrmDefaultParameters g1)
         = WinrmLib.Dial (winrmDefaultParameters g)
      /\ match r with
         | None =>
             snd (Winrm.loadCertificates w c) = None
             /\ Winrm.probe ww = None
             /\ Winrm.IsConnected c1 = true
         | Some e =>
             Winrm.client c1 = Winrm.client c
             /\ (snd (Winrm.loadCertificates w c) = None ->
                 Winrm.probe ww = None ->
                 exists ep params, Winrm.newClient ww ep params <> None)
             /\ (snd (Winrm.loadCertificates w c) <> None ->
                 Is e ErrCantConnect = true /\ Is e ErrInvalidPath = true
                 /\ g1 = g)
         end.
Proof.
  intros w hw nw ww g c Hb. unfold Winrm.Connect.
  destruct (loadCertificates_cases w c)
    as (c1 & r & Hrun & Hcl & Hbast & _ & _ & Hr).
  rewrite Hrun. destruct r as [e|].
  - do 3 eexists; split; [reflexivity|]. simpl.
    do 3 (split; [reflexivity|]).
    split; [exact Hcl|]. split; [intros H; discriminate H|].
    intros _. destruct Hr as [Hkind _]. split; [reflexivity|].
    simpl. rewrite Hkind. split; reflexivity.
  - assert (Hdial : forall p, WinrmLib.Dial (Winrm.decorate c1 p) = WinrmLib.Dial p).
    { intros p. unfold Winrm.decorate.
      destruct (Winrm.UseNTLM c1), (Winrm.UseHTTPS c1 && Winrm.nonEmpty (Winrm.cert c1));
        reflexivity. }
    rewrite Hbast, Hb. simpl. unfold Winrm.NewClientWithParameters.
    destruct (Winrm.newClient ww _ _) as [e|] eqn:Hnew.
    + do 3 eexists; split; [reflexivity|]. simpl.
      do 2 (split; [reflexivity|]). split; [apply Hdial|].
      split; [exact Hcl|]. split; [|intros H; contradiction].
      intros _ _. do 2 eexists. rewrite Hnew. discriminate.
    + destruct (Winrm.probe ww) as [e|] eqn:Hprobe.
      * do 3 eexists; split; [reflexivity|]. simpl.
        do 2 (split; [reflexivity|]). split; [apply Hdial|].
        split; [exact Hcl|]. split; [intros _ H; discriminate H|].
        intros H; contradiction.
      * do 3 eexists; split; [reflexivity|]. simpl.
        do 2 (split; [reflexivity|]). split; [apply Hdial|]. repeat split.
Qed.

Lemma winrm_Connect_outcome_witness :
  exists c1,
    Winrm.Connect (sampleOs None []) sampleHostkeys sampleNet sampleWinrmWorld
      processStart (sampleWinRM false true "/etc/winrm/missing.pem")
    = Go.Done (processStart, c1, Some (Wrap ErrCantConnect "failed to load certificates"
                                         (Wrap ErrInvalidPath "load cert" noSuchFile)))
    /\ Winrm.client c1 = None.
Proof.
  destruct (winrm_Connect_outcome (sampleOs None []) sampleHostkeys sampleNet
              sampleWinrmWorld processStart
              (sampleWinRM false true "/etc/winrm/missing.pem") eq_refl)
    as (g1 & c1 & r & Hrun & _ & _ & _ & Hr).
  exists c1.
  assert (Hr' : r = Some (Wrap ErrCantConnect "failed to load certificates"
                            (Wrap ErrInvalidPath "load cert" noSuchFile))
                /\ g1 = processStart).
  { vm_compute in Hrun. inversion Hrun. split; reflexivity. }
  destruct Hr' as [-> ->]. split; [exact Hrun|]. destruct Hr as [Hcl _]. exact Hcl.
Defined.



Section WinrmExecFacts.

Lemma stderrPump_quiet (lines : list string) (scanErr : option error) :
  Ssh.stderrPump lines scanErr = false <-> lines = [] /\ scanErr = None.
Proof.
  split.
  - intros H. destruct lines as [|l rest].
    + destruct scanErr; [discriminate|]. split; reflexivity.
    + rewrite stderrPump_lines in H by discriminate. discriminate.
  - intros [-> ->]. reflexivity.
Qed.

End WinrmExecFacts.

(** X12.  WinRM [Exec] on a connected transport always returns.  It returns
    nil exactly when the shell opens, the command starts, the exit code is
    not above zero, and either [AllowWinStderr] is on or stderr gave no line
    and no scanner error.  Once the command has started, every error it
    returns is command-failed. *)
Theorem winrm_Exec_outcome :
  forall (s : Winrm.Script) (c : Winrm.WinRM) (cmd : string)
         (o : Exec.Options) (cl : Winrm.Client),
    Winrm.client c = Some cl ->
    exists r,
      Winrm.Exec s c cmd o = Go.Done r
      /\ (r = None <->
          Winrm.createShell s = None /\ Winrm.execute s = None
          /\ (Winrm.exitCode s <= 0)%Z
          /\ (Exec.AllowWinStderr o = true
              \/ (Winrm.stderrLines s = [] /\ Winrm.stderrScanErr s = None)))
      /\ (forall e, r = Some e ->
                    Winrm.createShell s = None -> Winrm.execute s = None ->
                    Is e ErrCommandFailed = true).
Proof.
  intros s c cmd o cl Hcl. unfold Winrm.Exec. rewrite Hcl.
  destruct (Winrm.createShell s) as [e1|].
  { eexists; split; [reflexivity|]. split.
    - split; [discriminate|]. intros (H & _); discriminate.
    - intros e _ H; discriminate. }
  destruct (Winrm.execute s) as [e2|].
  { eexists; split; [reflexivity|]. split.
    - split; [discriminate|]. intros (_ & H & _); discriminate.
    - intros e _ _ H; discriminate. }
  destruct (Z.ltb_spec 0 (Winrm.exitCode s)) as [Hpos|Hle].
  { eexists; split; [reflexivity|]. split.
    - split; [discriminate|]. intros (_ & _ & H & _); lia.
    - intros e H _ _. inversion H; reflexivity. }
  destruct (Exec.AllowWinStderr o) eqn:Ha; simpl.
  { eexists; split; [reflexivity|]. split.
    - split; [|reflexivity]. intros _. repeat split; try assumption.
      left; reflexivity.
    - intros e H; discriminate. }
  destruct (Ssh.stderrPump (Winrm.stderrLines s) (Winrm.stderrScanErr s)) eqn:Hp.
  - eexists; split; [reflexivity|]. split.
    + split; [discriminate|]. intros (_ & _ & _ & [H|H]); [discriminate|].
      apply stderrPump_quiet in H. congruence.
    + intros e H _ _. inversion H; reflexivity.
  - eexists; split; [reflexivity|]. split.
    + split; [|reflexivity]. intros _. repeat split; try assumption.
      right. apply stderrPump_quiet. assumption.
    + intros e H; discriminate.
Qed.

Lemma winrm_Exec_outcome_witness :
  Winrm.Exec (winrmScript ["err"] 0) winrmConnected "cmd /c echo err 1>&2"
    (withStdin EmptyString false)
  = Go.Done (Some (Wrapf ErrCommandFailed "received data in stderr"))
  /\ Winrm.Exec (winrmScript ["err"] 0) winrmConnected "cmd /c echo err 1>&2"
       (withStdin EmptyString true)
     = Go.Done None.
Proof.
  destruct (winrm_Exec_outcome (winrmScript ["err"] 0) winrmConnected
              "cmd /c echo err 1>&2" (withStdin EmptyString false) _ eq_refl)
    as (r1 & Hrun1 & _).
  destruct (winrm_Exec_outcome (winrmScript ["err"] 0) winrmConnected
              "cmd /c echo err 1>&2" (withStdin EmptyString true) _ eq_refl)
    as (r2 & Hrun2 & Hnil & _).
  split.
  - rewrite Hrun1. vm_compute in Hrun1. inversion Hrun1. reflexivity.
  - rewrite Hrun2. f_equal. apply Hnil.
    split; [reflexivity|]. split; [reflexivity|].
    split; [simpl; lia|left; reflexivity].
Defined.

(** ** The SSH exec engine, further *)

(** Evaluates the session after splitting on what the options and the
    transport say and on each answer of the session that is consulted. *)
Ltac run_session s c o :=
  destruct (Ssh.knowOs c), (Ssh.isWindows c), (Exec.AllowWinStderr o),
    (Exec.Stdin o); simpl;
  unfold Ssh.andThen, Ssh.check, Ssh.call, Ssh.ret, Ssh.throw;
  repeat match goal with
         | |- context [match ?x with _ => _ end] =>
             match x with
             | Ssh.requestPty s => destruct x eqn:?
             | Ssh.start s => destruct x eqn:?
             | Ssh.writeStdin s => destruct x eqn:?
             | Ssh.sessionWait _ => destruct x eqn:?
             | Ssh.stderrPump _ _ => destruct x eqn:?
             end; simpl
         end.

Ltac no_such_call :=
  let H := fresh in
  intros H; simpl in H;
  repeat (destruct H as [H|H]; try discriminate H); try contradiction.

(** X13.  SSH [Exec] on a connected transport always returns.  It returns
    nil exactly when the session opens, the command builds, the PTY is
    granted if one is asked for, the command starts, the stdin payload, if
    any, is written, the session ends with exit status zero, and, on a host
    known to be Windows with [AllowWinStderr] off, stderr gave no line and no
    scanner error. *)
Theorem ssh_Exec_outcome :
  forall (s : Ssh.Script) (c : Ssh.SSH) (cmd : string)
         (o : Exec.Options) (cl : Ssh.Client),
    Ssh.client c = Some cl ->
    exists calls r,
      Ssh.Exec s c cmd o = Go.Done (calls, r)
      /\ (r = None <->
          Ssh.newSession s = None
          /\ snd (Exec.Command o cmd) = None
          /\ (Ssh.knowOs c = true -> Ssh.isWindows c = false ->
              Exec.Stdin o = EmptyString -> Ssh.requestPty s = None)
          /\ Ssh.start s = None
          /\ (Exec.Stdin o <> EmptyString -> Ssh.writeStdin s = None)
          /\ Ssh.sessionWait (Ssh.exit s) = None
          /\ (Ssh.knowOs c = true -> Ssh.isWindows c = true ->
              Exec.AllowWinStderr o = false ->
              Ssh.stderrLines s = [] /\ Ssh.stderrScanErr s = None)).
Proof.
  intros s c cmd o cl Hcl. unfold Ssh.Exec. rewrite Hcl.
  destruct (Ssh.newSession s) as [e|].
  { do 2 eexists; split; [reflexivity|]. split; [discriminate|].
    intros (H & _); discriminate. }
  unfold Ssh.inSession.
  destruct (Exec.Command o cmd) as [cmd' [e|]]; simpl snd.
  { do 2 eexists; split; [reflexivity|]. split; [discriminate|].
    intros (_ & H & _); discriminate. }
  destruct (Ssh.knowOs c), (Ssh.isWindows c), (Exec.AllowWinStderr o),
    (Exec.Stdin o); simpl;
    unfold Ssh.andThen, Ssh.check, Ssh.call, Ssh.ret, Ssh.throw;
    repeat match goal with
           | |- context [match ?x with _ => _ end] =>
               match x with
               | Ssh.requestPty s => destruct x eqn:?
               | Ssh.start s => destruct x eqn:?
               | Ssh.writeStdin s => destruct x eqn:?
               | Ssh.sessionWait _ => destruct x eqn:?
               | Ssh.stderrPump _ _ => destruct x eqn:?
               end; simpl
           end;
    (do 2 eexists; split; [reflexivity|]); split;
    try (intros Hr; discriminate Hr);
    try (intros _; repeat split; intros; try reflexivity; try congruence;
         match goal with
         | Hp : Ssh.stderrPump _ _ = false |- _ =>
             apply stderrPump_quiet in Hp; tauto
         end);
    try (intros _; reflexivity);
    intros (_ & _ & Hpty & Hst & Hwr & Hwait & Hquiet);
    try congruence;
    try (specialize (Hpty eq_refl eq_refl eq_refl); congruence);
    try (assert (Hw := Hwr ltac:(discriminate)); congruence);
    try (specialize (Hquiet eq_refl eq_refl eq_refl);
         apply stderrPump_quiet in Hquiet; congruence).
Qed.

(** X14.  An SSH [Exec] closes the session it opened, once and last: when
    the session opens, the calls are [NewSession], then calls that neither
    open nor close a session, then [Close], whatever fails in between.  When
    the session does not open, nothing else is called. *)
Theorem ssh_Exec_closes_session :
  forall (s : Ssh.Script) (c : Ssh.SSH) (cmd : string)
         (o : Exec.Options) (cl : Ssh.Client),
    Ssh.client c = Some cl ->
    (Ssh.newSession s = None ->
     exists between r,
       Ssh.Exec s c cmd o
       = Go.Done ((Ssh.NewSession :: between ++ [Ssh.Close])%list, r)
       /\ ~ In Ssh.NewSession between /\ ~ In Ssh.Close between)
    /\ (forall err,
          Ssh.newSession s = Some err ->
          Ssh.Exec s c cmd o
          = Go.Done ([Ssh.NewSession], Some (Errorf "ssh new session" err))).
Proof.
  intros s c cmd o cl Hcl. unfold Ssh.Exec. rewrite Hcl. split.
  - intros Hns. rewrite Hns.
    exists (fst (Ssh.inSession s c cmd o)),
           (Ssh.returned (snd (Ssh.inSession s c cmd o))).
    split; [destruct (Ssh.inSession s c cmd o); reflexivity|].
    unfold Ssh.inSession.
    destruct (Exec.Command o cmd) as [cmd' [e|]].
    + split; intros H; exact H.
    + run_session s c o; split; no_such_call.
  - intros err Hns. rewrite Hns. reflexivity.
Qed.

Lemma ssh_Exec_closes_session_witness :
  exists between r,
    Ssh.Exec (sshScript [] 1) (sshConnected true false) "false" Ssh.noOptions
    = Go.Done ((Ssh.NewSession :: between ++ [Ssh.Close])%list, r)
    /\ ~ In Ssh.NewSession between /\ ~ In Ssh.Close between.
Proof.
  apply (ssh_Exec_closes_session (sshScript [] 1) (sshConnected true false)
           "false" Ssh.noOptions {| Ssh.ServerVersion := "SSH-2.0-OpenSSH_9.6" |}
           eq_refl).
  reflexivity.
Defined.

Section CallOrder.

Context {A : Type}.

Lemma cons_split (x y : A) (l before after : list A) :
  x :: l = (before ++ y :: after)%list ->
  (before = [] /\ x = y /\ l = after)
  \/ (exists rest, before = x :: rest /\ l = (rest ++ y :: after)%list).
Proof.
  destruct before as [|b rest]; simpl; intros H; inversion H; subst.
  - left. repeat split.
  - right. exists rest. split; reflexivity.
Qed.

End CallOrder.

(** Walks a list of calls given as [before ++ y :: after], keeping the
    positions at which [y] can stand. *)
Ltac walk H :=
  repeat match type of H with
         | _ :: _ = (_ ++ _ :: _)%list =>
             let Hx := fresh "Hx" in
             let H' := fresh "H" in
             let rest := fresh "rest" in
             destruct (cons_split _ _ _ _ _ H)
               as [(-> & Hx & <-) | (rest & -> & H')];
             [try discriminate Hx | clear H; rename H' into H]
         | [] = (_ ++ _ :: _)%list =>
             exfalso; exact (app_cons_not_nil _ _ _ H)
         end.

(** X15.  What an SSH [Exec] does with stdin, in the order of the session
    calls.  The payload is written only when it is not empty, as given, and
    never in a session for which a PTY was asked.  Whatever is written is
    written after the command was started and before stdin is closed or the
    session waited for.  The session is waited for only after stdin was
    closed, and after the payload, if there is one, was written; stdin is
    not closed again after the wait. *)
Theorem ssh_Exec_stdin_discipline :
  forall (s : Ssh.Script) (c : Ssh.SSH) (cmd : string)
         (o : Exec.Options) (cl : Ssh.Client),
    Ssh.client c = Some cl ->
    exists calls r,
      Ssh.Exec s c cmd o = Go.Done (calls, r)
      /\ (forall data,
            In (Ssh.WriteStdin data) calls ->
            data = Exec.Stdin o /\ data <> EmptyString
            /\ ~ requestsPty calls
            /\ Ssh.start s = None)
      /\ (forall before data after,
            calls = (before ++ Ssh.WriteStdin data :: after)%list ->
            (exists started, In (Ssh.Start started) before)
            /\ ~ In Ssh.CloseStdin before
            /\ ~ In Ssh.Wait before)
      /\ (forall before after,
            calls = (before ++ Ssh.Wait :: after)%list ->
            In Ssh.CloseStdin before /\ ~ In Ssh.CloseStdin after
            /\ (Exec.Stdin o <> EmptyString ->
                In (Ssh.WriteStdin (Exec.Stdin o)) before))
      /\ (Exec.Stdin o <> EmptyString -> Ssh.start s = None ->
          snd (Exec.Command o cmd) = None -> Ssh.newSession s = None ->
          In (Ssh.WriteStdin (Exec.Stdin o)) calls).
Proof.
  intros s c cmd o cl Hcl. unfold Ssh.Exec. rewrite Hcl.
  destruct (Ssh.newSession s) as [e|].
  { do 2 eexists; split; [reflexivity|].
    split; [intros data; no_such_call|].
    split; [intros before data after H; walk H|].
    split; [intros before after H; walk H|].
    intros _ _ _ H; discriminate H. }
  unfold Ssh.inSession.
  destruct (Exec.Command o cmd) as [cmd' [e|]]; simpl snd.
  { do 2 eexists; split; [reflexivity|].
    split; [intros data; no_such_call|].
    split; [intros before data after H; simpl in H; walk H|].
    split; [intros before after H; simpl in H; walk H|].
    intros _ _ H; discriminate H. }
  unfold requestsPty.
  run_session s c o;
    (do 2 eexists; split; [reflexivity|]);
    (split; [intros data Hin; simpl in Hin;
             repeat (destruct Hin as [Hin|Hin]; try discriminate Hin);
             try contradiction;
             inversion Hin; subst data;
             (split; [reflexivity|]); (split; [discriminate|]);
             (split; [|reflexivity]);
             intros (term & h & w0 & modes & Hpty); simpl in Hpty;
             repeat (destruct Hpty as [Hpty|Hpty]; try discriminate Hpty);
             contradiction
            |]);
    (split; [intros before data after H; simpl in H; walk H;
             (split; [eexists; simpl; eauto|]);
             split; simpl; intros Hin;
             repeat (destruct Hin as [Hin|Hin]; try discriminate Hin);
             contradiction
            |]);
    (split; [intros before after H; simpl in H; walk H;
             (split; [simpl; tauto|]);
             (split; [simpl; intros Hin;
                      repeat (destruct Hin as [Hin|Hin]; try discriminate Hin);
                      contradiction|]);
             intros Hne; try (exfalso; apply Hne; reflexivity); simpl; tauto
            |]);
    intros Hne Hst _ _; try (exfalso; apply Hne; reflexivity);
    try discriminate Hst; simpl; tauto.
Qed.

Section IsWindowsFacts.

Lemma Exec_returns (s : Ssh.Script) (c : Ssh.SSH) (cmd : string)
      (o : Exec.Options) (cl : Ssh.Client) :
  Ssh.client c = Some cl ->
  exists calls r, Ssh.Exec s c cmd o = Go.Done (calls, r).
Proof.
  intros Hcl. unfold Ssh.Exec. rewrite Hcl.
  destruct (Ssh.newSession s); [do 2 eexists; reflexivity|].
  destruct (Ssh.inSession s c cmd o). do 2 eexists; reflexivity.
Qed.

End IsWindowsFacts.

(** X16.  [SSH.IsWindows] always returns and remembers its answer.  With a
    client, the transport knows the OS afterwards: a server version that
    mentions Windows settles it without running a command, otherwise the
    answer is whether [cmd.exe /c exit 0] ran without error.  A second call
    returns the same answer and changes nothing.  Without a client it
    reports the stored flag and learns nothing. *)
Theorem ssh_IsWindows_caches :
  forall (remote : string -> Ssh.Script) (c : Ssh.SSH),
  exists c1 b,
    Ssh.IsWindows remote c = Go.Done (c1, b)
    /\ Ssh.isWindows c1 = b
    /\ Ssh.IsWindows remote c1 = Go.Done (c1, b)
    /\ (Ssh.client c <> None -> Ssh.knowOs c1 = true)
    /\ (Ssh.client c = None \/ Ssh.knowOs c = true ->
        c1 = c /\ b = Ssh.isWindows c)
    /\ (forall cl,
          Ssh.client c = Some cl -> Ssh.knowOs c = false ->
          Go.Contains (Ssh.ServerVersion cl) "Windows" = true -> b = true).
Proof.
  intros remote c. unfold Ssh.IsWindows at 1.
  destruct (Ssh.knowOs c) eqn:Hk.
  { exists c, (Ssh.isWindows c). split; [reflexivity|]. split; [reflexivity|].
    split; [unfold Ssh.IsWindows; rewrite Hk; reflexivity|].
    split; [intros _; exact Hk|]. split; [intros _; split; reflexivity|].
    intros cl _ H; discriminate H. }
  destruct (Ssh.client c) as [cl|] eqn:Hcl.
  2:{ exists c, (Ssh.isWindows c). split; [reflexivity|]. split; [reflexivity|].
      split; [unfold Ssh.IsWindows; rewrite Hk, Hcl; reflexivity|].
      split; [intros H; contradiction|]. split; [intros _; split; reflexivity|].
      intros cl H; discriminate H. }
  destruct (Go.Contains (Ssh.ServerVersion cl) "Windows") eqn:Hv.
  - exists (Ssh.set_os c true true), true.
    split; [reflexivity|]. split; [reflexivity|]. split; [reflexivity|].
    split; [reflexivity|]. split; [intros [H|H]; discriminate H|].
    intros; reflexivity.
  - destruct (Exec_returns (remote "cmd.exe /c exit 0") c "cmd.exe /c exit 0"
                Ssh.noOptions cl Hcl) as (calls & r & Hrun).
    rewrite Hrun. simpl.
    exists (Ssh.set_os c (isNil r) true), (isNil r).
    split; [reflexivity|]. split; [reflexivity|]. split; [reflexivity|].
    split; [reflexivity|]. split; [intros [H|H]; discriminate H|].
    intros cl' Hcl' _ Hv'. inversion Hcl'; subst cl'. congruence.
Qed.

(** ** The dispatcher, further *)

Section DispatchFacts.

Variable w : Conn.World.

Lemma Winrm_Exec_returns (s : Winrm.Script) (x : Winrm.WinRM) (cmd : string)
      (o : Exec.Options) :
  Winrm.IsConnected x = true ->
  exists r, Winrm.Exec s x cmd o = Go.Done r.
Proof.
  unfold Winrm.IsConnected, Winrm.Exec.
  destruct (Winrm.client x); [intros _|discriminate].
  destruct (Winrm.createShell s); [eexists; reflexivity|].
  destruct (Winrm.execute s); [eexists; reflexivity|].
  destruct (Z.ltb 0 (Winrm.exitCode s)); [eexists; reflexivity|].
  destruct (negb (Exec.AllowWinStderr o) && _); eexists; reflexivity.
Qed.

Lemma clientExec_returns (c : Conn.Connection) (h : Conn.Handle)
      (cmd : string) (o : Exec.Options) :
  Conn.clientIsConnected c h = true ->
  exists r, Conn.clientExec w c h cmd o = Go.Done r.
Proof.
  unfold Conn.clientIsConnected, Conn.clientExec.
  destruct h as [| | |l]; try (intros _; eexists; reflexivity).
  - destruct (Conn.WinRM c) as [x|]; [|discriminate].
    apply Winrm_Exec_returns.
  - destruct (Conn.SSH c) as [x|]; [|discriminate].
    unfold Ssh.IsConnected. destruct (Ssh.client x) as [cl|] eqn:Hcl;
      [intros _|discriminate].
    destruct (Exec_returns (Conn.sshRemote w cmd) x cmd o cl Hcl)
      as (calls & r & ->).
    eexists; reflexivity.
Qed.

Lemma Conn_Exec_returns (c : Conn.Connection) (cmd : string) (o : Exec.Options) :
  exists r,
    Conn.Exec w c cmd o = Go.Done r
    /\ (Conn.IsConnected c = false -> r = Some (Sentinel ErrNotConnected))
    /\ (Conn.IsConnected c = true ->
        forall e, r = Some e -> exists cause,
            e = Wrap ErrCommandFailed "client exec" cause).
Proof.
  unfold Conn.Exec, Conn.checkConnected.
  destruct (Conn.IsConnected c) eqn:Hconn; simpl.
  - unfold Conn.IsConnected in Hconn.
    destruct (Conn.client c) as [h|]; [|discriminate].
    destruct (clientExec_returns c h cmd o Hconn) as [[e|] ->]; simpl.
    + eexists; split; [reflexivity|]. split; [discriminate|].
      intros _ e' H; inversion H. eexists; reflexivity.
    + eexists; split; [reflexivity|]. split; [discriminate|].
      intros _ e' H; discriminate H.
  - eexists; split; [reflexivity|]. split; [reflexivity|discriminate].
Qed.

Lemma firstPassing_first (c : Conn.Connection) (checks : list (string * sudofn)) :
  Conn.firstPassing w c checks =
  Go.Done match firstPass w c checks with
          | Some fn => Conn.set_sudofunc c (Some fn)
          | None => c
          end.
Proof.
  induction checks as [|[check fn] rest IH]; simpl; [reflexivity|].
  unfold firstPass, passes. simpl.
  destruct (Conn_Exec_returns c check Ssh.noOptions) as (r & -> & _).
  simpl. destruct r as [e|]; simpl; [|reflexivity].
  rewrite IH. reflexivity.
Qed.

Lemma configureSudo_first (c : Conn.Connection) (v : Conn.OSVersion) :
  Conn.OSVersion_ c = Some v ->
  Conn.configureSudo w c =
  Go.Done match firstPass w c (checksFor w v) with
          | Some fn => Conn.set_sudofunc c (Some fn)
          | None => c
          end.
Proof.
  intros Hv. unfold Conn.configureSudo, checksFor. rewrite Hv.
  destruct (String.eqb (Conn.ID v) "windows").
  - unfold firstPass, passes. simpl.
    destruct (Conn_Exec_returns c sudoCheckWindows Ssh.noOptions) as (r & -> & _).
    simpl. destruct r; reflexivity.
  - apply firstPassing_first.
Qed.

End DispatchFacts.

(** X17.  The dispatcher's [Exec] always returns: on a connection that is
    not connected it returns not-connected without reaching the transport;
    on a connected one it returns nil or the transport's error wrapped as
    command-failed, with every kind of the cause still detectable. *)
Theorem Conn_Exec_guarded :
  forall (w : Conn.World) (c : Conn.Connection) (cmd : string) (o : Exec.Options),
  exists r,
    Conn.Exec w c cmd o = Go.Done r
    /\ (Conn.IsConnected c = false -> r = Some (Sentinel ErrNotConnected))
    /\ (Conn.IsConnected c = true ->
        forall e, r = Some e ->
                  Is e ErrCommandFailed = true
                  /\ exists cause,
                      e = Wrap ErrCommandFailed "client exec" cause
                      /\ forall k, Is cause k = true -> Is e k = true).
Proof.
  intros w c cmd o.
  destruct (Conn_Exec_returns w c cmd o) as (r & Hrun & Hoff & Hon).
  exists r. split; [exact Hrun|]. split; [exact Hoff|].
  intros Hc e He. destruct (Hon Hc e He) as [cause ->].
  split; [reflexivity|]. exists cause. split; [reflexivity|].
  intros k Hk. simpl. rewrite Hk. apply orb_true_r.
Qed.

(** X19.  [configureSudo], once the OS is known, always returns.  On
    Windows it runs the one administrator check; elsewhere it runs the
    checks in the order the runtime walks the map.  It installs the rewriter
    of the first check that [Exec] reports as passed and stops; when none
    passes, the rewriter is left as it was.  It changes nothing else. *)
Theorem configureSudo_first_passing :
  forall (w : Conn.World) (c : Conn.Connection) (v : Conn.OSVersion),
    Conn.OSVersion_ c = Some v ->
    exists c1,
      Conn.configureSudo w c = Go.Done c1
      /\ Conn.sudofunc c1 =
         match firstPass w c (checksFor w v) with
         | Some fn => Some fn
         | None => Conn.sudofunc c
         end
      /\ (forall before check fn after,
            checksFor w v = (before ++ (check, fn) :: after)%list ->
            Forall (fun cf => passes w c (fst cf) = false) before ->
            passes w c check = true ->
            Conn.sudofunc c1 = Some fn)
      /\ Conn.set_sudofunc c1 (Conn.sudofunc c) = c.
Proof.
  intros w c v Hv. rewrite (configureSudo_first w c v Hv).
  eexists; split; [reflexivity|].
  split; [destruct (firstPass w c (checksFor w v)); reflexivity|].
  split.
  - intros before check fn after Hsplit Hbefore Hpass.
    assert (Hfind : firstPass w c (checksFor w v) = Some fn).
    { unfold firstPass. rewrite Hsplit. clear Hsplit.
      induction Hbefore as [|[ch f] rest Hhead _ IH]; simpl.
      - rewrite Hpass. reflexivity.
      - simpl in Hhead. rewrite Hhead. exact IH. }
    rewrite Hfind. reflexivity.
  - destruct (firstPass w c (checksFor w v)); destruct c; reflexivity.
Qed.

Lemma configureSudo_first_passing_witness :
  exists c1,
    Conn.configureSudo (sampleWorld [] 0 (inl {| Conn.ID := "linux" |}))
      (Conn.set_OSVersion (overSSH (sshConnected true false))
         (Some {| Conn.ID := "linux" |}))
    = Go.Done c1
    /\ option_map (fun f => f "ls") (Conn.sudofunc c1) = Some "ls".
Proof.
  destruct (configureSudo_first_passing
              (sampleWorld [] 0 (inl {| Conn.ID := "linux" |}))
              (Conn.set_OSVersion (overSSH (sshConnected true false))
                 (Some {| Conn.ID := "linux" |}))
              {| Conn.ID := "linux" |} eq_refl)
    as (c1 & Hrun & _ & Hfirst & _).
  exists c1. split; [exact Hrun|].
  rewrite (Hfirst [] checkRoot sudoNoop
             [("sudo -n true", sudoSudo); ("doas -n true", sudoDoas)]);
    [reflexivity|reflexivity|constructor|reflexivity].
Defined.

(** X20.  A [Connect] that returns nil leaves the connection connected with
    the OS version set. *)
Theorem Connect_success_connected :
  forall (w : Conn.World) (g g1 : Globals) (c c1 : Conn.Connection),
    Conn.Connect w g c = Go.Done (g1, c1, None) ->
    Conn.IsConnected c1 = true /\ Conn.OSVersion_ c1 <> None.
Proof.
  intros w g g1 c c1. unfold Conn.Connect.
  destruct (Conn.ensureClient w g c) as [[[g0 c0] [e|]]|]; simpl;
    try discriminate.
  destruct (Conn.client c0) as [h|] eqn:Hh; [|discriminate].
  destruct (Conn.clientConnect w g0 c0 h) as [[[g2 c2] [e|]]|] eqn:Hconn; simpl;
    try discriminate.
  destruct (clientConnect_connected w _ _ _ _ _ Hconn) as [Hclient Hlive].
  assert (Hkeep : forall c3 v,
             Conn.OSVersion_ c3 = Some v ->
             Conn.client c3 = Some h ->
             Conn.clientIsConnected c3 h = true ->
             Go.bind (Conn.configureSudo w c3) (fun c' => Go.Done (g2, c', @None error))
             = Go.Done (g1, c1, None) ->
             Conn.IsConnected c1 = true /\ Conn.OSVersion_ c1 <> None).
  { intros c3 v Hv Hc3 Hl3. rewrite (configureSudo_first w c3 v Hv). simpl.
    intros H; inversion H; subst. unfold Conn.IsConnected.
    destruct (firstPass w c3 (checksFor w v)); simpl;
      rewrite Hc3; (split; [|rewrite Hv; discriminate]);
      destruct h; simpl in *; exact Hl3. }
  destruct (Conn.OSVersion_ c2) as [v|] eqn:Hv.
  - apply (Hkeep c2 v Hv); [rewrite Hclient; exact Hh|exact Hlive].
  - destruct (Conn.GetOSVersion w) as [ov|e]; [|discriminate].
    apply (Hkeep (Conn.set_OSVersion c2 (Some ov)) ov eq_refl).
    + simpl. rewrite Hclient; exact Hh.
    + destruct h; simpl in *; exact Hlive.
Qed.

Lemma Connect_success_connected_witness :
  exists g1 c1,
    Conn.Connect (sampleWorld [] 0 (inl {| Conn.ID := "linux" |})) processStart
      (Conn.mkConnection None (Some (sampleSSH EmptyString)) None None None None None)
    = Go.Done (g1, c1, None)
    /\ Conn.IsConnected c1 = true /\ Conn.OSVersion_ c1 <> None.
Proof.
  assert (Hrun : exists g1 c1,
             Conn.Connect (sampleWorld [] 0 (inl {| Conn.ID := "linux" |}))
               processStart
               (Conn.mkConnection None (Some (sampleSSH EmptyString)) None None
                  None None None)
             = Go.Done (g1, c1, None)).
  { do 2 eexists. vm_compute. reflexivity. }
  destruct Hrun as (g1 & c1 & Hrun). exists g1, c1. split; [exact Hrun|].
  exact (Connect_success_connected _ _ _ _ _ Hrun).
Defined.

(** X21.  When the transport's own [Connect] fails, the dispatcher's
    [Connect] clears the client handle and returns the transport's error
    wrapped as not-connected, with every kind of the cause still detectable;
    the OS is not probed and no sudo rewriter is chosen. *)
Theorem Connect_transport_failure :
  forall (w : Conn.World) (g g0 g1 : Globals) (c c0 c1 : Conn.Connection)
         (h : Conn.Handle) (err : error),
    Conn.ensureClient w g c = Go.Done (g0, c0, None) ->
    Conn.client c0 = Some h ->
    Conn.clientConnect w g0 c0 h = Go.Done (g1, c1, Some err) ->
    exists c2 e,
      Conn.Connect w g c = Go.Done (g1, c2, Some e)
      /\ Conn.client c2 = None
      /\ Conn.IsConnected c2 = false
      /\ Conn.OSVersion_ c2 = Conn.OSVersion_ c1
      /\ Conn.sudofunc c2 = Conn.sudofunc c1
      /\ Is e ErrNotConnected = true
      /\ (forall k, Is err k = true -> Is e k = true).
Proof.
  intros w g g0 g1 c c0 c1 h err Hensure Hh Hconn.
  exists (Conn.set_client c1 None), (Wrap ErrNotConnected "client connect" err).
  split.
  - unfold Conn.Connect. rewrite Hensure. simpl. rewrite Hh, Hconn. reflexivity.
  - repeat split. intros k Hk. simpl. rewrite Hk. apply orb_true_r.
Qed.

Lemma Connect_transport_failure_witness :
  exists g1 c2 e,
    Conn.Connect unreachableWorld processStart
      (Conn.mkConnection None (Some (sampleSSH EmptyString)) None None None None None)
    = Go.Done (g1, c2, Some e)
    /\ Conn.IsConnected c2 = false
    /\ Is e ErrNotConnected = true.
Proof.
  eassert (He : Conn.ensureClient unreachableWorld processStart
                  (Conn.mkConnection None (Some (sampleSSH EmptyString)) None
                     None None None None)
                = Go.Done (_, _, None)) by (vm_compute; reflexivity).
  match type of He with
  | _ = Go.Done (?g0, ?c0, None) =>
      eassert (Hc : Conn.clientConnect unreachableWorld g0 c0 Conn.AtSSH
                    = Go.Done (_, _, Some _)) by (vm_compute; reflexivity)
  end.
  destruct (Connect_transport_failure _ _ _ _ _ _ _ Conn.AtSSH _ He eq_refl Hc)
    as (c2 & e & Hrun & _ & Hoff & _ & _ & Hkind & _).
  do 2 eexists. exists e. split; [exact Hrun|]. split; assumption.
Defined.

(** X22.  [Fsys] builds the accessor once.  With one stored it returns
    that one and changes nothing.  Without one it asks [IsWindows], builds
    the Windows accessor when the answer is yes and the Unix one when it is
    no, and stores it, so that the next call returns the same.  Hence the
    Windows accessor over a connected WinRM transport, the one the stored
    OS flag names over a connected SSH transport that knows the OS, and the
    one of the local OS over the loopback transport. *)
Theorem Fsys_cached :
  forall (w : Conn.World) (c c1 : Conn.Connection) (k : Conn.FSKind),
    Conn.Fsys w c = Go.Done (c1, k) ->
    Conn.fsys c1 = Some k
    /\ Conn.Fsys w c1 = Go.Done (c1, k)
    /\ (forall stored, Conn.fsys c = Some stored -> c1 = c /\ k = stored)
    /\ (Conn.fsys c = None ->
        exists c0 windows,
          Conn.IsWindows w c = Go.Done (c0, windows)
          /\ c1 = Conn.set_fsys c0 (Some k)
          /\ k = (if windows then Conn.WindowsFsys else Conn.UnixFsys))
    /\ (Conn.fsys c = None -> Conn.client c = Some Conn.AtWinRM ->
        Conn.IsConnected c = true -> k = Conn.WindowsFsys)
    /\ (forall x,
          Conn.fsys c = None -> Conn.client c = Some Conn.AtSSH ->
          Conn.SSH c = Some x -> Ssh.IsConnected x = true ->
          Ssh.knowOs x = true ->
          k = (if Ssh.isWindows x then Conn.WindowsFsys else Conn.UnixFsys))
    /\ (Conn.fsys c = None ->
        Conn.client c = Some Conn.AtLocalhost
        \/ (exists l, Conn.client c = Some (Conn.Fresh l)) ->
        k = (if Conn.localWindows w then Conn.WindowsFsys else Conn.UnixFsys)).
Proof.
  intros w c c1 k. unfold Conn.Fsys at 1.
  destruct (Conn.fsys c) as [k0|] eqn:Hk.
  - intros H; inversion H; subst. split; [exact Hk|].
    split; [unfold Conn.Fsys; rewrite Hk; reflexivity|].
    split; [intros stored Hs; inversion Hs; split; reflexivity|].
    repeat split; intros; discriminate.
  - destruct (Conn.IsWindows w c) as [[c2 b]|] eqn:Hw; simpl; [|discriminate].
    intros H; inversion H; subst. split; [reflexivity|].
    split; [reflexivity|].
    split; [intros stored Hs; discriminate Hs|].
    split; [intros _; exists c2, b; repeat split; reflexivity|].
    split; [|split].
    + intros _ Hh Hconn. unfold Conn.IsWindows in Hw. rewrite Hconn, Hh in Hw.
      simpl in Hw. inversion Hw; reflexivity.
    + intros x _ Hh Hx Hconn Hknow.
      unfold Conn.IsWindows, Conn.IsConnected, Conn.clientIsConnected,
        Conn.clientIsWindows in Hw.
      rewrite Hh, Hx, Hconn in Hw. cbn [negb] in Hw.
      unfold Ssh.IsWindows in Hw. rewrite Hknow in Hw.
      simpl in Hw. inversion Hw; reflexivity.
    + intros _ Hh.
      unfold Conn.IsWindows, Conn.IsConnected, Conn.clientIsConnected,
        Conn.clientIsWindows in Hw.
      destruct Hh as [Hh|[l Hh]]; rewrite Hh in Hw; simpl in Hw;
        inversion Hw; reflexivity.
Qed.

Lemma Fsys_cached_witness :
  (exists c1,
      Conn.Fsys (sampleWorld [] 0 (inl {| Conn.ID := "windows" |}))
        (overWinRM winrmConnected (Some Conn.AtWinRM))
      = Go.Done (c1, Conn.WindowsFsys)
      /\ Conn.Fsys (sampleWorld [] 0 (inl {| Conn.ID := "windows" |})) c1
         = Go.Done (c1, Conn.WindowsFsys))
  /\ (exists c1,
        Conn.Fsys (sampleWorld [] 0 (inl {| Conn.ID := "linux" |}))
          (overSSH (sshConnected true false))
        = Go.Done (c1, Conn.UnixFsys)
        /\ Conn.fsys c1 = Some Conn.UnixFsys).
Proof.
  split.
  - eexists. split; [vm_compute; reflexivity|].
    eapply (Fsys_cached (sampleWorld [] 0 (inl {| Conn.ID := "windows" |}))
              (overWinRM winrmConnected (Some Conn.AtWinRM))).
    vm_compute; reflexivity.
  - eexists. split; [vm_compute; reflexivity|].
    eapply (Fsys_cached (sampleWorld [] 0 (inl {| Conn.ID := "linux" |}))
              (overSSH (sshConnected true false))).
    vm_compute; reflexivity.
Defined.

Lemma Fsys_stores (w : Conn.World) (c c1 : Conn.Connection) (k : Conn.FSKind) :
  Conn.Fsys w c = Go.Done (c1, k) -> Conn.fsys c1 = Some k.
Proof.
  unfold Conn.Fsys. destruct (Conn.fsys c) as [k0|] eqn:Hk.
  - intros H; inversion H; subst. exact Hk.
  - destruct (Conn.IsWindows w c) as [[c2 b]|]; simpl; [|discriminate].
    intros H; inversion H; subst. reflexivity.
Qed.

Ltac kind_holds :=
  simpl; first [reflexivity | apply orb_true_r].

(** X23.  The errors of [Upload], stage by stage, each with the stages
    before it passed.  Not connected: the not-connected error, and the
    connection as it was.  The local file does not open, or does not stat, or
    the remote file does not open: invalid-path around the cause.  The copy
    fails or the remote digest cannot be read: upload-failed around the
    cause.  The digests differ: upload-failed, [checksum mismatch].  The
    digests agree: nil.  And [Upload] returns nil only on a connected
    connection whose remote digest equals the digest of the bytes written to
    the hasher. *)
Theorem Upload_error_kinds :
  forall (w : Conn.World) (uw : Conn.UploadWorld)
         (sha256hex : list Byte.byte -> string)
         (c : Conn.Connection) (src dst : string),
    let upload := Conn.Upload w uw sha256hex c src dst in
    (Conn.IsConnected c = false ->
     upload = Go.Done (c, Some (Sentinel ErrNotConnected)))
    /\ (forall err,
          Conn.IsConnected c = true ->
          Conn.osOpen uw src = inr err ->
          upload = Go.Done (c, Some (Wrap ErrInvalidPath EmptyString err))
          /\ Is (Wrap ErrInvalidPath EmptyString err) ErrInvalidPath = true)
    /\ (forall local err,
          Conn.IsConnected c = true ->
          Conn.osOpen uw src = inl local ->
          Conn.statSizeMode local = inr err ->
          upload = Go.Done (c, Some (Wrap ErrInvalidPath
                                       ("stat local file " ++ src) err))
          /\ Is (Wrap ErrInvalidPath ("stat local file " ++ src) err)
                ErrInvalidPath = true)
    /\ (forall local size mode c1 k,
          Conn.IsConnected c = true ->
          Conn.osOpen uw src = inl local ->
          Conn.statSizeMode local = inl (size, mode) ->
          Conn.Fsys w c = Go.Done (c1, k) ->
          (forall err,
              Conn.openFile uw k dst mode = Some err ->
              upload = Go.Done (c1, Some (Wrap ErrInvalidPath
                                            "open remote file for writing" err))
              /\ Is (Wrap ErrInvalidPath "open remote file for writing" err)
                    ErrInvalidPath = true)
          /\ (forall written err,
                Conn.openFile uw k dst mode = None ->
                Conn.copyFromN uw src size = (written, Some err) ->
                upload = Go.Done (c1, Some (Wrap ErrUploadFailed
                                              "copy file to remote host" err))
                /\ Is (Wrap ErrUploadFailed "copy file to remote host" err)
                      ErrUploadFailed = true)
          /\ (forall written err,
                Conn.openFile uw k dst mode = None ->
                Conn.copyFromN uw src size = (written, None) ->
                Conn.remoteSha256 uw k dst = inr err ->
                upload = Go.Done (c1, Some (Wrap ErrUploadFailed
                                              ("validate checksum of " ++ dst) err))
                /\ Is (Wrap ErrUploadFailed ("validate checksum of " ++ dst) err)
                      ErrUploadFailed = true)
          /\ (forall written remoteSum,
                Conn.openFile uw k dst mode = None ->
                Conn.copyFromN uw src size = (written, None) ->
                Conn.remoteSha256 uw k dst = inl remoteSum ->
                (remoteSum <> sha256hex written ->
                 upload = Go.Done (c1, Some (Wrapf ErrUploadFailed
                                               "checksum mismatch"))
                 /\ Is (Wrapf ErrUploadFailed "checksum mismatch")
                       ErrUploadFailed = true
                 /\ Is (Wrapf ErrUploadFailed "checksum mismatch")
                       ErrInvalidPath = false)
                /\ (remoteSum = sha256hex written ->
                    upload = Go.Done (c1, None))))
    /\ (forall c1,
          upload = Go.Done (c1, None) ->
          Conn.IsConnected c = true
          /\ exists k size written,
              Conn.fsys c1 = Some k
              /\ Conn.copyFromN uw src size = (written, None)
              /\ Conn.remoteSha256 uw k dst = inl (sha256hex written)).
Proof.
  intros w uw sha256hex c src dst upload. subst upload.
  unfold Conn.Upload, Conn.checkConnected.
  split; [intros ->; reflexivity|].
  split; [intros err -> ->; split; reflexivity|].
  split; [intros local err -> -> ->; split; reflexivity|].
  split.
  - intros local size mode c1 k -> -> -> ->. simpl.
    split; [intros err ->; split; reflexivity|].
    split; [intros written err -> ->; split; reflexivity|].
    split; [intros written err -> -> ->; split; reflexivity|].
    intros written remoteSum -> -> ->. split.
    + intros Hneq. destruct (String.eqb_spec remoteSum (sha256hex written));
        [contradiction|]. repeat split.
    + intros ->. rewrite String.eqb_refl. reflexivity.
  - intros c1. destruct (Conn.IsConnected c); simpl; [|discriminate].
    destruct (Conn.osOpen uw src) as [local|e]; [|discriminate].
    destruct (Conn.statSizeMode local) as [[size mode]|e]; [|discriminate].
    destruct (Conn.Fsys w c) as [[c2 k]|] eqn:Hfs; simpl; [|discriminate].
    assert (Hk := Fsys_stores w c c2 k Hfs).
    destruct (Conn.openFile uw k dst mode) as [e|]; [discriminate|].
    destruct (Conn.copyFromN uw src size) as [written [e|]] eqn:Hcopy;
      [discriminate|].
    destruct (Conn.remoteSha256 uw k dst) as [remoteSum|e] eqn:Hsum;
      [|discriminate].
    destruct (String.eqb_spec remoteSum (sha256hex written)) as [Heq|Hneq];
      simpl; [|discriminate].
    intros H; inversion H; subst. split; [reflexivity|].
    exists k, size, written. repeat split; assumption.
Qed.

(** ** The SSH transport: Connect *)

Section SshConnectFacts.

Variable w : Os.World.
Variable hw : Ssh.HostkeyWorld.
Variable nw : Ssh.NetWorld.

Lemma resolveIdentity_keeps (g : Globals) (c c1 : Ssh.SSH) :
  Ssh.resolveIdentity w g c = Go.Done c1 ->
  Ssh.client c1 = Ssh.client c /\ Ssh.Bastion c1 = Ssh.Bastion c
  /\ Ssh.Address c1 = Ssh.Address c /\ Ssh.Port c1 = Ssh.Port c.
Proof.
  unfold Ssh.resolveIdentity. rewrite usable_accepts. simpl.
  destruct (findUniq _ _) as [u [|]];
    destruct (Ssh.KeyPath c) as [kp|]; try destruct (Go.isEmpty kp);
    try (destruct (expandAndValidatePath_returns w kp) as [[e [err|]] [-> _]];
         simpl);
    intros H; inversion H; subst; simpl; repeat split; reflexivity.
Qed.

Lemma defaultsSet_keeps (g g1 : Globals) (c c1 : Ssh.SSH) (r : option error) :
  Ssh.defaultsSet w nw g c = Go.Done (g1, c1, r) ->
  Ssh.client c1 = Ssh.client c /\ Ssh.Bastion c1 = Ssh.Bastion c.
Proof.
  unfold Ssh.defaultsSet.
  destruct (Ssh.tagError nw).
  { intros H; inversion H; subst. split; reflexivity. }
  unfold Ssh.SetDefaults.
  destruct (globalOnceDo_returns w g) as [g2 ->]. simpl.
  unfold Go.onceDo. destruct (Ssh.once c).
  - simpl. intros H; inversion H; subst. split; reflexivity.
  - destruct (Ssh.resolveIdentity w g2 (Ssh.applyTags c)) as [c2|] eqn:Hres;
      simpl; [|discriminate].
    destruct (resolveIdentity_keeps _ _ _ Hres) as (Hcl & Hb & _).
    intros H; inversion H; subst. simpl. split; assumption.
Qed.

(** One step of [Connect] on a host without a bastion. *)
Lemma Connect_direct (g : Globals) (c : Ssh.SSH) :
  Ssh.Bastion c = None ->
  Ssh.Connect w hw nw g c =
  Go.bind (Ssh.defaultsSet w nw g c)
    (fun d =>
       match d with
       | (g, c, Some err) =>
           Go.Done (g, c, Some (Wrap ErrValidationFailed "set defaults" err))
       | (g, c, None) =>
           Go.bind (Ssh.clientConfig w hw nw c)
             (fun cf =>
                match cf with
                | (_, Some err) =>
                    Go.Done (g, c, Some (Wrap ErrCantConnect "create config" err))
                | (_, None) =>
                    match Ssh.dial nw (Go.JoinHostPort (Ssh.Address c)
                                         (Go.Itoa (Ssh.Port c))) with
                    | inr err =>
                        if Is err ErrHostKeyMismatch
                        then Go.Done (g, c, Some (Wrap ErrCantConnect EmptyString err))
                        else Go.Done (g, c, Some (Errorf "ssh dial" err))
                    | inl clientDirect =>
                        Go.Done (g, Ssh.set_client c (Some clientDirect), None)
                    end
                end)
       end).
Proof.
  destruct c as [addr user port kp hk bastion win know once cl kps].
  simpl. intros ->. reflexivity.
Qed.

(** One step of [Connect] on a host behind a bastion whose own [Connect]
    failed. *)
Lemma Connect_bastion_failed (g g1 g2 : Globals) (c c1 b b2 : Ssh.SSH)
      (cfg : option Ssh.ClientConfig) (err : error) :
  Ssh.Bastion c = Some b ->
  Ssh.defaultsSet w nw g c = Go.Done (g1, c1, None) ->
  Ssh.clientConfig w hw nw c1 = Go.Done (cfg, None) ->
  Ssh.Connect w hw nw g1 b = Go.Done (g2, b2, Some err) ->
  Ssh.Connect w hw nw g c =
  Go.Done (g2, Ssh.set_Bastion c1 (Some b2),
           Some (if Is err ErrHostKeyMismatch
                 then Wrap ErrCantConnect "bastion connect" err
                 else err)).
Proof.
  destruct c as [addr user port kp hk bastion win know once cl kps].
  simpl. intros -> Hd Hcf Hb. rewrite Hd. simpl. rewrite Hcf. simpl.
  rewrite Hb. simpl. destruct (Is err ErrHostKeyMismatch); reflexivity.
Qed.

End SshConnectFacts.

(** X18.  [Disconnect] on a connection without a client, or on a
    connected one, returns.  When it returns the client handle is cleared:
    afterwards [IsConnected] is false, [Exec] returns not-connected and a
    second [Disconnect] changes nothing.  A WinRM transport loses its
    client; an SSH transport in the slot keeps its client, which
    [SSH.Disconnect] only closes.  On a connection whose handle is an SSH
    transport that has no client, as after [SetDefaults] and before
    [Connect], [Disconnect] does not return: [SSH.Disconnect] closes a nil
    client. *)
Theorem Disconnect_clears :
  forall (w : Conn.World) (c : Conn.Connection),
    (Conn.client c = None \/ Conn.IsConnected c = true ->
     exists c1, Conn.Disconnect c = Go.Done c1)
    /\ (forall c1,
          Conn.Disconnect c = Go.Done c1 ->
          Conn.client c1 = None
          /\ Conn.IsConnected c1 = false
          /\ Conn.Disconnect c1 = Go.Done c1
          /\ (forall cmd o,
                Conn.Exec w c1 cmd o = Go.Done (Some (Sentinel ErrNotConnected)))
          /\ Conn.SSH c1 = Conn.SSH c
          /\ (forall x, Conn.client c = Some Conn.AtWinRM ->
                        Conn.WinRM c = Some x ->
                        option_map Winrm.IsConnected (Conn.WinRM c1) = Some false)
          /\ (forall x, Conn.client c = Some Conn.AtSSH -> Conn.SSH c = Some x ->
                        Ssh.client x <> None))
    /\ (forall x, Conn.client c = Some Conn.AtSSH -> Conn.SSH c = Some x ->
                  Ssh.client x = None ->
                  Conn.Disconnect c = Go.Panic Go.nil_dereference)
    /\ (forall g g1 c1 x,
          Conn.client c = None -> Conn.configuredClient c = Some Conn.AtSSH ->
          Conn.SetDefaults w g c = Go.Done (g1, c1) ->
          Conn.SSH c = Some x -> Ssh.client x = None ->
          Conn.Disconnect c1 = Go.Panic Go.nil_dereference).
Proof.
  intros w c. split; [|split; [|split]].
  - unfold Conn.Disconnect, Conn.IsConnected, Conn.clientDisconnect,
      Conn.clientIsConnected, Ssh.Disconnect, Ssh.IsConnected, Winrm.IsConnected.
    intros [Hnone|Hconn].
    + rewrite Hnone. eexists; reflexivity.
    + destruct (Conn.client c) as [[| | |l]|]; try discriminate;
        try (eexists; reflexivity).
      * destruct (Conn.WinRM c) as [x|]; [|discriminate]. eexists; reflexivity.
      * destruct (Conn.SSH c) as [x|]; [|discriminate].
        destruct (Ssh.client x); [|discriminate]. eexists; reflexivity.
  - intros c1. destruct c as [wr sh lh ov cl sf fs].
    unfold Conn.Disconnect, Conn.clientDisconnect, Ssh.Disconnect. simpl.
    destruct cl as [[| | |l]|]; simpl.
    + destruct wr as [x|]; simpl; [|discriminate].
      intros H; inversion H; subst; simpl. repeat split; try reflexivity;
        intros; discriminate.
    + intros H; inversion H; subst; simpl. repeat split; try reflexivity;
        intros; discriminate.
    + destruct sh as [x|]; simpl; [|discriminate].
      destruct (Ssh.client x) eqn:Hx; simpl; [|discriminate].
      intros H; inversion H; subst; simpl. repeat split; try reflexivity;
        intros; try discriminate.
      match goal with
      | Hs : Some _ = Some _ |- _ => inversion Hs; subst; congruence
      end.
    + intros H; inversion H; subst; simpl. repeat split; try reflexivity;
        intros; discriminate.
    + intros H; inversion H; subst; simpl. repeat split; try reflexivity;
        intros; discriminate.
  - intros x Hh Hs Hx. unfold Conn.Disconnect, Conn.clientDisconnect, Ssh.Disconnect.
    rewrite Hh, Hs. simpl. rewrite Hx. reflexivity.
  - intros g g1 c1 x Hnone Hcfg. unfold Conn.SetDefaults. rewrite Hnone, Hcfg.
    unfold Conn.clientDefaults. cbn [Conn.SSH Conn.set_client].
    intros Hset Hs Hx. rewrite Hs in Hset.
    destruct (Ssh.defaultsSet _ _ g x) as [[[g2 x2] r]|] eqn:Hd; simpl in Hset;
      [|discriminate].
    inversion Hset; subst. clear Hset.
    assert (Hkeep : Ssh.client x2 = None).
    { destruct (defaultsSet_keeps _ _ _ _ _ _ _ Hd) as [Hcl _].
      rewrite Hcl. exact Hx. }
    unfold Conn.Disconnect, Conn.clientDisconnect, Ssh.Disconnect. simpl.
    rewrite Hkeep. reflexivity.
Qed.

(** A host described by its SSH transport: after [SetDefaults] the handle is
    the transport, which has no client yet, and [Disconnect] panics; the
    same host, connected, disconnects. *)
Lemma Disconnect_clears_witness :
  (exists g1 c1,
      Conn.SetDefaults (sampleWorld [] 0 (inl {| Conn.ID := "linux" |}))
        processStart (describedBySSH (sampleSSH EmptyString)) = Go.Done (g1, c1)
      /\ Conn.client c1 = Some Conn.AtSSH
      /\ Conn.Disconnect c1 = Go.Panic Go.nil_dereference)
  /\ (exists c1,
        Conn.Disconnect (overSSH (sshConnected true false)) = Go.Done c1
        /\ Conn.IsConnected c1 = false).
Proof.
  split.
  - eassert (Hset : Conn.SetDefaults (sampleWorld [] 0 (inl {| Conn.ID := "linux" |}))
                      processStart (describedBySSH (sampleSSH EmptyString))
                    = Go.Done (_, _)) by (vm_compute; reflexivity).
    do 2 eexists. split; [exact Hset|]. split; [reflexivity|].
    destruct (Disconnect_clears (sampleWorld [] 0 (inl {| Conn.ID := "linux" |}))
                (describedBySSH (sampleSSH EmptyString))) as (_ & _ & _ & Hpanic).
    exact (Hpanic _ _ _ _ eq_refl eq_refl Hset eq_refl eq_refl).
  - destruct (Disconnect_clears (sampleWorld [] 0 (inl {| Conn.ID := "linux" |}))
                (overSSH (sshConnected true false))) as (Hret & Hclear & _).
    destruct (Hret (or_intror eq_refl)) as [c1 Hrun].
    exists c1. split; [exact Hrun|].
    destruct (Hclear c1 Hrun) as (_ & Hconn & _). exact Hconn.
Defined.

(** X24.  A direct SSH [Connect] whose dial fails returns an error and
    leaves the client as it was.  A host-key mismatch comes back as
    cant-connect with the mismatch still detectable; any other dial error
    comes back wrapped as [ssh dial], not as cant-connect of its own. *)
Theorem ssh_Connect_dial_failure :
  forall (w : Os.World) (hw : Ssh.HostkeyWorld) (nw : Ssh.NetWorld)
         (g g1 : Globals) (c c1 : Ssh.SSH) (cfg : option Ssh.ClientConfig)
         (err : error),
    Ssh.Bastion c = None ->
    Ssh.defaultsSet w nw g c = Go.Done (g1, c1, None) ->
    Ssh.clientConfig w hw nw c1 = Go.Done (cfg, None) ->
    Ssh.dial nw (Go.JoinHostPort (Ssh.Address c1) (Go.Itoa (Ssh.Port c1)))
    = inr err ->
    exists e,
      Ssh.Connect w hw nw g c = Go.Done (g1, c1, Some e)
      /\ Ssh.client c1 = Ssh.client c
      /\ Is e ErrHostKeyMismatch = Is err ErrHostKeyMismatch
      /\ (Is err ErrHostKeyMismatch = true -> Is e ErrCantConnect = true)
      /\ (Is err ErrHostKeyMismatch = false -> e = Errorf "ssh dial" err).
Proof.
  intros w hw nw g g1 c c1 cfg err Hb Hd Hcf Hdial.
  destruct (defaultsSet_keeps w nw _ _ _ _ _ Hd) as [Hcl _].
  rewrite (Connect_direct w hw nw g c Hb), Hd. simpl. rewrite Hcf. simpl.
  rewrite Hdial. destruct (Is err ErrHostKeyMismatch) eqn:Hm.
  - eexists; split; [reflexivity|]. split; [exact Hcl|]. simpl. rewrite Hm.
    repeat split; intros; try reflexivity; discriminate.
  - eexists; split; [reflexivity|]. split; [exact Hcl|]. simpl. rewrite Hm.
    repeat split; intros; try reflexivity; discriminate.
Qed.

Lemma ssh_Connect_dial_failure_witness :
  exists g1 c1 e,
    Ssh.Connect (sampleOs None []) sampleHostkeys unreachableNet processStart
      (sampleSSH EmptyString) = Go.Done (g1, c1, Some e)
    /\ Ssh.client c1 = None
    /\ e = Errorf "ssh dial" (Foreign "connection refused").
Proof.
  assert (Hd : exists g1 c1,
             Ssh.defaultsSet (sampleOs None []) unreachableNet processStart
               (sampleSSH EmptyString) = Go.Done (g1, c1, None)).
  { do 2 eexists. vm_compute. reflexivity. }
  destruct Hd as (g1 & c1 & Hd).
  assert (Hc1 : Ssh.Address c1 = "10.0.0.1" /\ Ssh.Port c1 = 22%Z
                /\ Ssh.HostKey c1 = EmptyString
                /\ Ssh.keyPaths c1 = ["/home/u/.ssh/id_rsa"]
                /\ Ssh.User c1 = "root").
  { vm_compute in Hd. inversion Hd. repeat split; reflexivity. }
  destruct Hc1 as (Haddr & Hport & Hhk & Hkeys & Huser).
  assert (Hcf : exists cfg,
             Ssh.clientConfig (sampleOs None []) sampleHostkeys unreachableNet c1
             = Go.Done (cfg, None)).
  { unfold Ssh.clientConfig, Ssh.hostkeyCallback, Ssh.getConfigAll.
    rewrite Hhk, Hkeys, Haddr, Hport, Huser. eexists. vm_compute. reflexivity. }
  destruct Hcf as (cfg & Hcf).
  destruct (ssh_Connect_dial_failure (sampleOs None []) sampleHostkeys
              unreachableNet processStart g1 (sampleSSH EmptyString) c1 cfg
              (Foreign "connection refused") eq_refl Hd Hcf)
    as (e & Hrun & Hcl & _ & _ & He).
  { rewrite Haddr, Hport. reflexivity. }
  exists g1, c1, e. split; [exact Hrun|]. split; [exact Hcl|].
  apply He. reflexivity.
Defined.

(** X25.  Behind a bastion, when the bastion's own [Connect] fails, the
    target's [Connect] fails without dialing.  A host-key mismatch of the
    bastion comes back as cant-connect with the mismatch still detectable;
    any other error of the bastion comes back as it is. *)
Theorem ssh_Connect_bastion_failure :
  forall (w : Os.World) (hw : Ssh.HostkeyWorld) (nw : Ssh.NetWorld)
         (g g1 g2 : Globals) (c c1 b b2 : Ssh.SSH)
         (cfg : option Ssh.ClientConfig) (err : error),
    Ssh.Bastion c = Some b ->
    Ssh.defaultsSet w nw g c = Go.Done (g1, c1, None) ->
    Ssh.clientConfig w hw nw c1 = Go.Done (cfg, None) ->
    Ssh.Connect w hw nw g1 b = Go.Done (g2, b2, Some err) ->
    exists e,
      Ssh.Connect w hw nw g c
      = Go.Done (g2, Ssh.set_Bastion c1 (Some b2), Some e)
      /\ Ssh.client (Ssh.set_Bastion c1 (Some b2)) = Ssh.client c
      /\ Is e ErrHostKeyMismatch = Is err ErrHostKeyMismatch
      /\ (Is err ErrHostKeyMismatch = true -> Is e ErrCantConnect = true)
      /\ (Is err ErrHostKeyMismatch = false -> e = err).
Proof.
  intros w hw nw g g1 g2 c c1 b b2 cfg err Hb Hd Hcf Hbast.
  destruct (defaultsSet_keeps w nw _ _ _ _ _ Hd) as [Hcl _].
  rewrite (Connect_bastion_failed w hw nw g g1 g2 c c1 b b2 cfg err Hb Hd Hcf Hbast).
  eexists; split; [reflexivity|]. split; [exact Hcl|].
  destruct (Is err ErrHostKeyMismatch) eqn:Hm; simpl; rewrite ?Hm;
    repeat split; intros; try reflexivity; discriminate.
Qed.



Lemma ssh_Connect_bastion_failure_witness :
  exists g2 c2 e,
    Ssh.Connect (sampleOs None []) sampleHostkeys mismatchNet processStart
      (Ssh.set_Bastion (sampleSSH EmptyString) (Some (sampleSSH EmptyString)))
    = Go.Done (g2, c2, Some e)
    /\ Is e ErrHostKeyMismatch = true
    /\ Is e ErrCantConnect = true.
Proof.
  eassert (Hd : Ssh.defaultsSet (sampleOs None []) mismatchNet processStart
                  (Ssh.set_Bastion (sampleSSH EmptyString)
                     (Some (sampleSSH EmptyString)))
                = Go.Done (_, _, None)) by (vm_compute; reflexivity).
  match type of Hd with
  | _ = Go.Done (?g1, ?c1, None) =>
      eassert (Hcf : Ssh.clientConfig (sampleOs None []) sampleHostkeys
                       mismatchNet c1 = Go.Done (_, None))
        by (vm_compute; reflexivity);
      eassert (Hb : Ssh.Connect (sampleOs None []) sampleHostkeys mismatchNet g1
                      (sampleSSH EmptyString) = Go.Done (_, _, Some _))
        by (vm_compute; reflexivity)
  end.
  destruct (ssh_Connect_bastion_failure _ _ _ _ _ _
              (Ssh.set_Bastion (sampleSSH EmptyString) (Some (sampleSSH EmptyString)))
              _ (sampleSSH EmptyString) _ _ _ eq_refl Hd Hcf Hb)
    as (e & Hrun & _ & Hm & Hc & _).
  do 2 eexists. exists e. split; [exact Hrun|].
  split; [rewrite Hm; reflexivity|apply Hc; reflexivity].
Defined.

(** ** GroupParams *)

Section ParamFacts.

Variables O A : Type.

Lemma optionsOf_app (l1 l2 : list (O + A)) :
  Params.optionsOf (l1 ++ l2) = (Params.optionsOf l1 ++ Params.optionsOf l2)%list.
Proof. apply flat_map_app. Qed.

Lemma argsOf_app (l1 l2 : list (O + A)) :
  Params.argsOf (l1 ++ l2) = (Params.argsOf l1 ++ Params.argsOf l2)%list.
Proof. apply flat_map_app. Qed.

Lemma groupValue_leaves :
  forall v : Params.Param O A,
    Params.groupValue v
    = (Params.optionsOf (Params.leaves v), Params.argsOf (Params.leaves v)).
Proof.
  fix IH 1. intros [o|a|vv]; simpl; try reflexivity.
  induction vv as [|x rest IHl]; [reflexivity|].
  rewrite (IH x), IHl, optionsOf_app, argsOf_app. reflexivity.
Qed.

Lemma GroupParams_leaves (params : list (Params.Param O A)) :
  Params.GroupParams params
  = (Params.optionsOf (Params.allLeaves params),
     Params.argsOf (Params.allLeaves params)).
Proof.
  induction params as [|v rest IH]; simpl; [reflexivity|].
  rewrite groupValue_leaves, IH. unfold Params.allLeaves. simpl.
  rewrite optionsOf_app, argsOf_app. reflexivity.
Qed.

Lemma leaves_slice (vv : list (Params.Param O A)) :
  Params.leaves (Params.PSlice vv) = flat_map Params.leaves vv.
Proof.
  simpl. induction vv as [|v rest IH]; [reflexivity|].
  simpl. rewrite IH. reflexivity.
Qed.

Lemma partition_length (l : list (O + A)) :
  List.length (Params.optionsOf l) + List.length (Params.argsOf l) = List.length l.
Proof.
  induction l as [|[o|a] rest IH]; simpl; [reflexivity| |]; lia.
Qed.

End ParamFacts.

(** X27.  [GroupParams] sorts the parameters into options and arguments
    without losing, adding or reordering any: with nested slices opened,
    the options are the options among the elements in their order, the
    arguments are the others in their order, and the two lists together are
    as long as the list of elements.  It goes through concatenation, and a
    slice gives what its elements give. *)
Theorem GroupParams_partitions :
  forall (O A : Type) (params more : list (Params.Param O A)),
    Params.GroupParams params
    = (Params.optionsOf (Params.allLeaves params),
       Params.argsOf (Params.allLeaves params))
    /\ List.length (fst (Params.GroupParams params))
       + List.length (snd (Params.GroupParams params))
       = List.length (Params.allLeaves params)
    /\ Params.GroupParams (params ++ more)
       = ((fst (Params.GroupParams params) ++ fst (Params.GroupParams more))%list,
          (snd (Params.GroupParams params) ++ snd (Params.GroupParams more))%list)
    /\ Params.GroupParams [Params.PSlice params] = Params.GroupParams params.
Proof.
  intros O A params more.
  rewrite !GroupParams_leaves. simpl fst. simpl snd.
  split; [reflexivity|]. split; [apply partition_length|]. split.
  - unfold Params.allLeaves. rewrite flat_map_app, optionsOf_app, argsOf_app.
    reflexivity.
  - unfold Params.allLeaves.
    change (flat_map Params.leaves [Params.PSlice params])
      with (Params.leaves (Params.PSlice params) ++ [])%list.
    rewrite app_nil_r, leaves_slice. reflexivity.
Qed.

(** ** The signer of a public key *)

Section SignerFacts.

Lemma firstMatch_found (signers : list string) (key s : string) :
  SshAuth.firstMatch signers key = Some s -> s = key /\ In key signers.
Proof.
  induction signers as [|x rest IH]; simpl; [discriminate|].
  destruct (String.eqb_spec key x) as [->|Hne].
  - intros H; inversion H; subst. split; [reflexivity|left; reflexivity].
  - intros H. destruct (IH H) as [-> Hin]. split; [reflexivity|right; assumption].
Qed.

Lemma firstMatch_none (signers : list string) (key : string) :
  SshAuth.firstMatch signers key = None -> ~ In key signers.
Proof.
  induction signers as [|x rest IH]; simpl; [intros _ H; exact H|].
  destruct (String.eqb_spec key x) as [->|Hne]; [discriminate|].
  intros H [Heq|Hin]; [congruence|]. exact (IH H Hin).
Qed.

End SignerFacts.

(** X28.  [pubkeySigner] succeeds exactly when the agent holds a signer
    whose public key has the wire form of the given key; the method then
    uses that one signer.  With no signer at all the error is cant-connect;
    with signers but no match it is auth-failed. *)
Theorem pubkeySigner_matches :
  forall (signers : list string) (key : string),
    match SshAuth.pubkeySigner signers key with
    | (Some am, None) => In key signers /\ am = Ssh.PublicKeys [key]
    | (None, Some e) =>
        ~ In key signers
        /\ (signers = [] -> Is e ErrCantConnect = true /\ Is e ErrAuthFailed = false)
        /\ (signers <> [] -> Is e ErrAuthFailed = true /\ Is e ErrCantConnect = false)
    | _ => False
    end.
Proof.
  intros signers key. unfold SshAuth.pubkeySigner.
  destruct signers as [|x rest]; simpl Nat.eqb; cbv iota.
  - split; [intros H; exact H|]. split; [intros _; split; reflexivity|].
    intros H; contradiction.
  - destruct (SshAuth.firstMatch (x :: rest) key) as [s|] eqn:Hm.
    + destruct (firstMatch_found _ _ _ Hm) as [-> Hin]. split; [exact Hin|reflexivity].
    + split; [apply firstMatch_none; exact Hm|].
      split; [intros H; discriminate H|]. intros _. split; reflexivity.
Qed.

(** ** The interactive engine *)





(** ** ExecStreams *)

(** X30.  The dispatcher's [ExecStreams].  Not connected: it returns
    not-connected and no waiter.  Connected: an error of the transport comes
    back as command-failed with no waiter.  The waiter of a WinRM command
    reports every exit code other than zero as command-failed; the waiter
    of an SSH session reports a non-zero exit status with the session's own
    error, which is not command-failed. *)
Theorem ExecStreams_outcome :
  forall (w : Conn.World)
         (localStreams : string -> option Streams.Waiter * option error)
         (c : Conn.Connection) (cmd : string) (o : Exec.Options),
    (Conn.IsConnected c = false ->
     Streams.ExecStreams w localStreams c cmd o
     = Go.Done (None, Some (Wrapf ErrNotConnected "exec streams")))
    /\ (forall x,
          Conn.client c = Some Conn.AtSSH -> Conn.SSH c = Some x ->
          Ssh.IsConnected x = true ->
          exists r,
            Streams.ExecStreams w localStreams c cmd o = Go.Done r
            /\ match r with
               | (Some wt, None) =>
                   wt = Streams.SessionWaiter (Ssh.exit (Conn.sshRemote w cmd))
                   /\ (forall n,
                         Ssh.exit (Conn.sshRemote w cmd) = Ssh.ExitStatus n ->
                         n <> 0%Z ->
                         exists e, Streams.Wait wt = Some e
                                   /\ Is e ErrCommandFailed = false)
               | (None, Some e) => Is e ErrCommandFailed = true
               | _ => False
               end)
    /\ (forall x,
          Conn.client c = Some Conn.AtWinRM -> Conn.WinRM c = Some x ->
          Winrm.IsConnected x = true ->
          exists r,
            Streams.ExecStreams w localStreams c cmd o = Go.Done r
            /\ match r with
               | (Some wt, None) =>
                   wt = Streams.CommandWaiter
                          {| Winrm.cmdExitCode :=
                               Winrm.exitCode (Conn.winrmRemote w cmd) |}
                   /\ (Winrm.exitCode (Conn.winrmRemote w cmd) <> 0%Z ->
                       exists e, Streams.Wait wt = Some e
                                 /\ Is e ErrCommandFailed = true)
               | (None, Some e) => Is e ErrCommandFailed = true
               | _ => False
               end).
Proof.
  intros w ls c cmd o. unfold Streams.ExecStreams, Conn.checkConnected.
  split; [intros ->; reflexivity|]. split.
  - intros x Hh Hx Hlive.
    assert (Hconn : Conn.IsConnected c = true).
    { unfold Conn.IsConnected. rewrite Hh. simpl. rewrite Hx. exact Hlive. }
    rewrite Hconn, Hh. simpl. rewrite Hx. unfold Ssh.ExecStreams.
    unfold Ssh.IsConnected in Hlive.
    destruct (Ssh.client x); [|discriminate].
    destruct (Exec.Command o cmd) as [cmd' [e|]];
      [eexists; split; reflexivity|].
    destruct (Ssh.newSession (Conn.sshRemote w cmd));
      [eexists; split; reflexivity|].
    destruct (Ssh.start (Conn.sshRemote w cmd));
      [eexists; split; reflexivity|].
    eexists; split; [reflexivity|]. simpl. split; [reflexivity|].
    intros n Hn Hz. rewrite Hn, (sessionWait_nonzero n Hz).
    eexists; split; reflexivity.
  - intros x Hh Hx Hlive.
    assert (Hconn : Conn.IsConnected c = true).
    { unfold Conn.IsConnected. rewrite Hh. simpl. rewrite Hx. exact Hlive. }
    rewrite Hconn, Hh. simpl. rewrite Hx. unfold Winrm.ExecStreams.
    unfold Winrm.IsConnected in Hlive.
    destruct (Winrm.client x); [|discriminate].
    destruct (Exec.Command o cmd) as [cmd' [e|]];
      [eexists; split; reflexivity|].
    destruct (Winrm.createShell (Conn.winrmRemote w cmd));
      [eexists; split; reflexivity|].
    destruct (Winrm.execute (Conn.winrmRemote w cmd));
      [eexists; split; reflexivity|].
    eexists; split; [reflexivity|]. simpl. split; [reflexivity|].
    intros Hz. unfold Winrm.Wait. simpl.
    destruct (Z.eqb_spec (Winrm.exitCode (Conn.winrmRemote w cmd)) 0);
      [contradiction|].
    eexists; split; reflexivity.
Qed.

Lemma ExecStreams_outcome_witness :
  (exists wt e,
      Streams.ExecStreams (sampleWorld [] 2 (inl {| Conn.ID := "linux" |}))
        (fun _ => (None, None)) (overSSH (sshConnected true false))
        "exit 2" Ssh.noOptions = Go.Done (Some wt, None)
      /\ Streams.Wait wt = Some e /\ Is e ErrCommandFailed = false)
  /\ (exists wt e,
        Streams.ExecStreams (sampleWorld [] 2 (inl {| Conn.ID := "windows" |}))
          (fun _ => (None, None)) (overWinRM winrmConnected (Some Conn.AtWinRM))
          "exit 2" Ssh.noOptions = Go.Done (Some wt, None)
        /\ Streams.Wait wt = Some e /\ Is e ErrCommandFailed = true).
Proof.
  split.
  - destruct (ExecStreams_outcome (sampleWorld [] 2 (inl {| Conn.ID := "linux" |}))
                (fun _ => (None, None)) (overSSH (sshConnected true false))
                "exit 2" Ssh.noOptions) as (_ & Hssh & _).
    destruct (Hssh (sshConnected true false) eq_refl eq_refl eq_refl)
      as (r & Hrun & Hr).
    assert (Hshape : exists wt, r = (Some wt, None)).
    { vm_compute in Hrun. inversion Hrun. eexists; reflexivity. }
    destruct Hshape as (wt & ->). destruct Hr as (_ & Hwait).
    destruct (Hwait 2%Z eq_refl) as (e & He & Hk); [discriminate|].
    exists wt, e. split; [exact Hrun|]. split; assumption.
  - destruct (ExecStreams_outcome (sampleWorld [] 2 (inl {| Conn.ID := "windows" |}))
                (fun _ => (None, None))
                (overWinRM winrmConnected (Some Conn.AtWinRM))
                "exit 2" Ssh.noOptions) as (_ & _ & Hwinrm).
    destruct (Hwinrm winrmConnected eq_refl eq_refl eq_refl) as (r & Hrun & Hr).
    assert (Hshape : exists wt, r = (Some wt, None)).
    { vm_compute in Hrun. inversion Hrun. eexists; reflexivity. }
    destruct Hshape as (wt & ->). destruct Hr as (_ & Hwait).
    destruct Hwait as (e & He & Hk); [discriminate|].
    exists wt, e. split; [exact Hrun|]. split; assumption.
Defined.

(** ** Witnesses *)

Lemma ssh_Exec_outcome_witness :
  exists calls,
    Ssh.Exec (sshScript ["note"] 0) (sshConnected true false) "ls"
      (withStdin "input" false) = Go.Done (calls, None).
Proof.
  destruct (ssh_Exec_outcome (sshScript ["note"] 0) (sshConnected true false) "ls"
              (withStdin "input" false)
              {| Ssh.ServerVersion := "SSH-2.0-OpenSSH_9.6" |} eq_refl)
    as (calls & r & Hrun & Hnil).
  exists calls. rewrite Hrun. f_equal. f_equal. apply Hnil.
  repeat split; try reflexivity; intros; discriminate.
Defined.

Lemma ssh_Exec_stdin_discipline_witness :
  exists calls r,
    Ssh.Exec (sshScript [] 0) (sshConnected true false) "cat"
      (withStdin "input" false) = Go.Done (calls, r)
    /\ In (Ssh.WriteStdin "input") calls
    /\ ~ requestsPty calls
    /\ (forall before after,
          calls = (before ++ Ssh.Wait :: after)%list ->
          In Ssh.CloseStdin before /\ In (Ssh.WriteStdin "input") before).
Proof.
  destruct (ssh_Exec_stdin_discipline (sshScript [] 0) (sshConnected true false)
              "cat" (withStdin "input" false)
              {| Ssh.ServerVersion := "SSH-2.0-OpenSSH_9.6" |} eq_refl)
    as (calls & r & Hrun & Hwrite & _ & Hwait & Hdone).
  exists calls, r. split; [exact Hrun|].
  assert (Hin : In (Ssh.WriteStdin "input") calls).
  { apply Hdone; try reflexivity. discriminate. }
  split; [exact Hin|].
  split; [destruct (Hwrite _ Hin) as (_ & _ & Hno & _); exact Hno|].
  intros before after Hsplit.
  destruct (Hwait before after Hsplit) as (Hclosed & _ & Hwritten).
  split; [exact Hclosed|]. apply Hwritten. discriminate.
Defined.

Lemma Upload_error_kinds_witness :
  (exists c1,
      Conn.Upload (sampleWorld [] 0 (inl {| Conn.ID := "windows" |}))
        (sampleUpload emptyDigest) (fun _ => emptyDigest)
        (overWinRM winrmConnected (Some Conn.AtWinRM)) "/tmp/local" "C:/remote"
      = Go.Done (c1, None))
  /\ (exists c1 e,
        Conn.Upload (sampleWorld [] 0 (inl {| Conn.ID := "windows" |}))
          (sampleUpload "0000") (fun _ => emptyDigest)
          (overWinRM winrmConnected (Some Conn.AtWinRM)) "/tmp/local" "C:/remote"
        = Go.Done (c1, Some e)
        /\ Is e ErrUploadFailed = true /\ Is e ErrInvalidPath = false).
Proof.
  split.
  - destruct (Upload_error_kinds
                (sampleWorld [] 0 (inl {| Conn.ID := "windows" |}))
                (sampleUpload emptyDigest) (fun _ => emptyDigest)
                (overWinRM winrmConnected (Some Conn.AtWinRM))
                "/tmp/local" "C:/remote") as (_ & _ & _ & Hstage & _).
    eassert (Hfs : Conn.Fsys (sampleWorld [] 0 (inl {| Conn.ID := "windows" |}))
                     (overWinRM winrmConnected (Some Conn.AtWinRM))
                   = Go.Done (_, _)) by (vm_compute; reflexivity).
    destruct (Hstage _ _ _ _ _ eq_refl eq_refl eq_refl Hfs) as (_ & _ & _ & Hsum).
    destruct (Hsum [] emptyDigest eq_refl eq_refl eq_refl) as [_ Hok].
    eexists. exact (Hok eq_refl).
  - destruct (Upload_error_kinds
                (sampleWorld [] 0 (inl {| Conn.ID := "windows" |}))
                (sampleUpload "0000") (fun _ => emptyDigest)
                (overWinRM winrmConnected (Some Conn.AtWinRM))
                "/tmp/local" "C:/remote") as (_ & _ & _ & Hstage & _).
    eassert (Hfs : Conn.Fsys (sampleWorld [] 0 (inl {| Conn.ID := "windows" |}))
                     (overWinRM winrmConnected (Some Conn.AtWinRM))
                   = Go.Done (_, _)) by (vm_compute; reflexivity).
    destruct (Hstage _ _ _ _ _ eq_refl eq_refl eq_refl Hfs) as (_ & _ & _ & Hsum).
    destruct (Hsum [] "0000" eq_refl eq_refl eq_refl) as [Hbad _].
    destruct Hbad as (Hrun & Hk1 & Hk2); [discriminate|].
    do 2 eexists. split; [exact Hrun|]. split; assumption.
Defined.
